(** * hasura-auth: OAuth sign-in, account resolution and WebAuthn registration

    A shallow embedding of
    - [routes/oauth/utils.ts]  ([transformOauthProfile], [createGrantConfig],
      [findOrCreateUser], [createUser]),
    - [routes/oauth/index.ts]  (the provider validation middleware and the
      OAuth callback with its [sendErrorFromQuery] helper),
    - [routes/oauth/native.ts] and [routes/oauth/typequards.ts]
      ([signInWithGoogleAccessToken], [isErrorResponse], [isUserData]),
    - [utils/webauthn.ts]      ([generateWebAuthnRegistrationOptions],
      [verifyWebAuthnRegistration]),
    - the url builder [userInfoEndpoint] of [routes/oauth/native.ts],
    followed by the properties of the specification that were checked on it.

    Asynchronous code is embedded in a state-and-exception monad over a
    [World]: everything is awaited in program order, so a promise that
    rejects is a thrown value and the effects made before the throw stay. *)

From Stdlib Require Import String Ascii List Bool Arith Lia.
From stdpp Require Import base option list strings gmap.

Set Warnings "-register-all".
Local Open Scope string_scope.
Local Open Scope list_scope.

(* ===================================================================== *)
(** * JavaScript values                                                    *)
(* ===================================================================== *)

Module Js.

(** Truthiness of a value of type [string | undefined]: [undefined] and
    the empty string are falsy. *)
Definition truthy (v : option string) : bool :=
  match v with
  | Some s => negb (String.eqb s "")
  | None => false
  end.

(** [a || b] on [string | undefined]. *)
Definition or (a b : option string) : option string :=
  if truthy a then a else b.

(** [a || b] where [b] is a plain string. *)
Definition or_else (a : option string) (b : string) : string :=
  match a with
  | Some s => if String.eqb s "" then b else s
  | None => b
  end.

(** [s] between double quotes. *)
Definition quoted (s : string) : string :=
  let q := String (ascii_of_nat 34) EmptyString in
  q +:+ s +:+ q.

(** [s.split(sep)] for a one-character separator. *)
Fixpoint split (sep : ascii) (s : string) : list string :=
  match s with
  | EmptyString => [""]
  | String c rest =>
      if Ascii.eqb c sep then "" :: split sep rest
      else match split sep rest with
           | [] => [String c ""]
           | h :: t => String c h :: t
           end
  end.

(** [l.join(sep)]. *)
Definition join (sep : string) (l : list string) : string :=
  String.concat sep l.

Fixpoint contains (c : ascii) (s : string) : bool :=
  match s with
  | EmptyString => false
  | String d rest => Ascii.eqb d c || contains c rest
  end.

Definition upper_ascii (c : ascii) : ascii :=
  let n := nat_of_ascii c in
  if ((97 <=? n) && (n <=? 122))%nat then ascii_of_nat (n - 32) else c.

(** [s.toUpperCase()] on the ASCII range (provider keys are ASCII). *)
Fixpoint toUpperCase (s : string) : string :=
  match s with
  | EmptyString => EmptyString
  | String c rest => String (upper_ascii c) (toUpperCase rest)
  end.

(** [[...new Set(l)]]: duplicates removed, first occurrences kept. *)
Fixpoint unique_aux (seen l : list string) : list string :=
  match l with
  | [] => []
  | x :: rest =>
      if bool_decide (x ∈ seen) then unique_aux seen rest
      else x :: unique_aux (x :: seen) rest
  end.

Definition unique (l : list string) : list string := unique_aux [] l.

(** A JSON document, as [response.json()] yields it. A number is kept by
    its JavaScript rendering ([String(n)]). *)
Inductive json :=
| JNull
| JBool (b : bool)
| JNum (rendering : string)
| JStr (s : string)
| JArr (items : list json)
| JObj (fields : list (string * json)).

(** [typeof v === 'object' && v != null]. *)
Definition is_object (v : json) : bool :=
  match v with
  | JArr _ | JObj _ => true
  | _ => false
  end.

(** [key in v] for a property name that is neither an array index nor a
    member of [Object.prototype] / [Array.prototype]. *)
Definition has_key (key : string) (v : json) : bool :=
  match v with
  | JObj fields => bool_decide (key ∈ fields.*1)
  | _ => false
  end.

Definition get (key : string) (v : json) : option json :=
  match v with
  | JObj fields => snd <$> List.find (fun kv => String.eqb (fst kv) key) fields
  | _ => None
  end.

(** Truthiness of a JSON value. *)
Definition json_truthy (v : json) : bool :=
  match v with
  | JNull => false
  | JBool b => b
  | JNum r => negb (bool_decide (r ∈ ["0"; "-0"; "NaN"]))
  | JStr s => negb (String.eqb s "")
  | JArr _ | JObj _ => true
  end.

(** [String(v)], what ['text' + v] appends; [None] when the conversion
    throws a [TypeError]: an object that holds a [toString] key of its own
    (whose value, coming from JSON, is no function) has no rendering, alone
    or as an element of an array. *)
Fixpoint to_string (v : json) : option string :=
  match v with
  | JNull => Some "null"
  | JBool true => Some "true"
  | JBool false => Some "false"
  | JNum r => Some r
  | JStr s => Some s
  | JArr items =>
      join "," <$>
      (fix elements (l : list json) : option (list string) :=
         match l with
         | [] => Some []
         | i :: rest =>
             match match i with
                   | JNull => Some ""
                   | _ => to_string i
                   end, elements rest with
             | Some text, Some texts => Some (text :: texts)
             | _, _ => None
             end
         end) items
  | JObj fields =>
      if bool_decide ("toString" ∈ fields.*1) then None
      else Some "[object Object]"
  end.

(** The property names every plain object inherits from
    [Object.prototype]. *)
Definition object_prototype_keys : list string :=
  ["constructor"; "__proto__"; "hasOwnProperty"; "isPrototypeOf";
   "propertyIsEnumerable"; "toLocaleString"; "toString"; "valueOf";
   "__defineGetter__"; "__defineSetter__"; "__lookupGetter__";
   "__lookupSetter__"].

(** What [obj[key]] yields on a plain object used as a dictionary: an
    own property, a member of [Object.prototype], or [undefined]. *)
Inductive property (A : Type) : Type :=
| Own (a : A)
| Inherited
| Undefined.
Arguments Own {A} a.
Arguments Inherited {A}.
Arguments Undefined {A}.

Definition lookup {A} (obj : gmap string A) (key : string) : property A :=
  match obj !! key with
  | Some a => Own a
  | None =>
      if bool_decide (key ∈ object_prototype_keys) then Inherited
      else Undefined
  end.

(** A thrown value: an [Error] with its message, or anything else, kept
    by its rendering ([String(e)]). *)
Inductive thrown :=
| Error (message : string)
| NonError (rendering : string).

End Js.

(* ===================================================================== *)
(** * The monad of awaited effects                                         *)
(* ===================================================================== *)

Inductive Res (A : Type) : Type :=
| Ok (a : A)
| Throw (e : Js.thrown).
Arguments Ok {A} a.
Arguments Throw {A} e.

Definition M (W A : Type) : Type := W -> Res A * W.

Section Monad.
Context {W : Type}.

Definition ret {A} (a : A) : M W A := fun w => (Ok a, w).

Definition throw {A} (e : Js.thrown) : M W A := fun w => (Throw e, w).

Definition bind {A B} (m : M W A) (k : A -> M W B) : M W B :=
  fun w =>
    match m w with
    | (Ok a, w') => k a w'
    | (Throw e, w') => (Throw e, w')
    end.

(** [try { m } catch (e) { h e }] *)
Definition try_catch {A} (m : M W A) (h : Js.thrown -> M W A) : M W A :=
  fun w =>
    match m w with
    | (Ok a, w') => (Ok a, w')
    | (Throw e, w') => h e w'
    end.

Definition gets {A} (f : W -> A) : M W A := fun w => (Ok (f w), w).

Definition modify (f : W -> W) : M W unit := fun w => (Ok tt, f w).

End Monad.

#[global] Instance M_ret {W} : MRet (M W) := @ret W.
#[global] Instance M_bind {W} : MBind (M W) := fun A B k m => bind m k.

(* ===================================================================== *)
(** * The account store                                                    *)
(* ===================================================================== *)

(** Row identifiers ([uuid] columns), kept as numbers. *)
Definition uuid := N.

Module Store.

(** A row of [auth.users], with the columns this code reads or writes. *)
Record User := mkUser {
  user_id : uuid;
  user_email : option string;
  user_emailVerified : bool;
  user_displayName : option string;
  user_avatarUrl : string;
  user_locale : string;
  user_defaultRole : string;
  user_roles : list string;
  user_metadata : Js.json;
  user_currentChallenge : option string;
}.

(** A row of [auth.user_providers]: the identity link. *)
Record UserProvider := mkUserProvider {
  up_id : uuid;
  up_userId : uuid;
  up_providerId : string;
  up_providerUserId : string;
  up_accessToken : option string;
  up_refreshToken : option string;
}.

(** A row of [auth.user_authenticators]. *)
Record Authenticator := mkAuthenticator {
  au_id : uuid;
  au_userId : uuid;
  au_credentialId : string;
  au_credentialPublicKey : string;
  au_counter : N;
  au_nickname : option string;
}.

#[global] Instance thrown_eq_dec : EqDecision Js.thrown.
Proof. solve_decision. Defined.

#[global] Instance UserProvider_eq_dec : EqDecision UserProvider.
Proof. solve_decision. Defined.

#[global] Instance Authenticator_eq_dec : EqDecision Authenticator.
Proof. solve_decision. Defined.

(** The calls made to the store ([gqlSdk] and the helpers over it). *)
Inductive StoreOp :=
| OpAuthUserProviders
| OpUpdateAuthUserprovider
| OpGetUserByEmail
| OpInsertUserProviderToUser
| OpInsertUser
| OpGetNewRefreshToken
| OpGetUserAuthenticators
| OpUpdateUserChallenge
| OpGetUserChallenge
| OpAddUserAuthenticator
| OpUpdateUser.

#[global] Instance StoreOp_eq_dec : EqDecision StoreOp.
Proof. solve_decision. Defined.

(** How a call to the store can go wrong: the request rejects (network
    failure, constraint violation, ...), or it resolves with an empty
    payload and no effect. *)
Inductive Fault :=
| Rejects (e : Js.thrown)
| YieldsNull.

(** The flow state grant keeps in the session. *)
Record GrantResponse := mkGrantResponse {
  gr_access_token : option string;
  gr_refresh_token : option string;
  gr_profile : option Js.json;
  gr_error : option string;
}.

Record GrantSession := mkGrantSession {
  gs_provider : option string;
  gs_response : option GrantResponse;
}.

(** [allowedRoles] as it can arrive: an array, a string, or another
    value. *)
Inductive RolesValue :=
| RolesArray (roles : list string)
| RolesString (s : string)
| RolesOther (truthy : bool).

(** [Partial<UserRegistrationOptions>] *)
Record RegistrationOptions := mkOptions {
  opt_locale : option string;
  opt_displayName : option string;
  opt_allowedRoles : option RolesValue;
  opt_defaultRole : option string;
  opt_metadata : option Js.json;
}.

Definition no_options : RegistrationOptions :=
  mkOptions None None None None None.

(** The session object of one sign-in attempt. *)
Record Session := mkSession {
  ses_grant : option GrantSession;
  ses_options : option RegistrationOptions;
  ses_redirectTo : option string;
}.

Definition empty_session : Session := mkSession None None None.

(** Trace of the calls made to collaborators, in program order, newest
    last. It is written and never read by the program. *)
Inductive Event :=
| EvSessionRead (sid : string)
| EvSessionDestroy (sid : string)
| EvClearCookie (name : string)
| EvNormaliseProfile (provider : string)
| EvStore (op : StoreOp)
| EvFetch (accessToken : string)
| EvLog (level message : string).

Record World := mkWorld {
  users : list User;
  userProviders : list UserProvider;
  authenticators : list Authenticator;
  next_uuid : uuid;
  sessions : gmap string Session;
  cookies : gmap string string;
  faults : StoreOp -> option Fault;
  trace : list Event;
}.

Definition set_users (f : list User -> list User) (w : World) : World :=
  mkWorld (f (users w)) (userProviders w) (authenticators w) (next_uuid w)
          (sessions w) (cookies w) (faults w) (trace w).

Definition set_userProviders (f : list UserProvider -> list UserProvider)
    (w : World) : World :=
  mkWorld (users w) (f (userProviders w)) (authenticators w) (next_uuid w)
          (sessions w) (cookies w) (faults w) (trace w).

Definition set_authenticators (f : list Authenticator -> list Authenticator)
    (w : World) : World :=
  mkWorld (users w) (userProviders w) (f (authenticators w)) (next_uuid w)
          (sessions w) (cookies w) (faults w) (trace w).

Definition set_next_uuid (n : uuid) (w : World) : World :=
  mkWorld (users w) (userProviders w) (authenticators w) n
          (sessions w) (cookies w) (faults w) (trace w).

Definition set_sessions (f : gmap string Session -> gmap string Session)
    (w : World) : World :=
  mkWorld (users w) (userProviders w) (authenticators w) (next_uuid w)
          (f (sessions w)) (cookies w) (faults w) (trace w).

Definition set_cookies (f : gmap string string -> gmap string string)
    (w : World) : World :=
  mkWorld (users w) (userProviders w) (authenticators w) (next_uuid w)
          (sessions w) (f (cookies w)) (faults w) (trace w).

Definition set_faults (f : StoreOp -> option Fault) (w : World) : World :=
  mkWorld (users w) (userProviders w) (authenticators w) (next_uuid w)
          (sessions w) (cookies w) f (trace w).

Definition emit (e : Event) (w : World) : World :=
  mkWorld (users w) (userProviders w) (authenticators w) (next_uuid w)
          (sessions w) (cookies w) (faults w) (trace w ++ [e]).

Definition log (level message : string) : M World unit :=
  modify (emit (EvLog level message)).

(** [await] of a call to a collaborator that does not touch the world:
    the call is traced, and its outcome is the outcome of the await. *)
Definition traced {A} (e : Event) (outcome : Res A) : M World A :=
  fun w => (outcome, emit e w).

(** One awaited call to the store: it is traced, then it rejects, or
    resolves empty, or runs [body]. *)
Definition call {A} (op : StoreOp) (empty : A) (body : M World A)
  : M World A :=
  fun w =>
    let w1 := emit (EvStore op) w in
    match faults w1 op with
    | Some (Rejects e) => (Throw e, w1)
    | Some YieldsNull => (Ok empty, w1)
    | None => body w1
    end.

(** The store draws the ids of new rows. *)
Definition fresh_uuid : M World uuid :=
  fun w => (Ok (next_uuid w), set_next_uuid (N.succ (next_uuid w)) w).

(** Modelled from the spec: [getNewRefreshToken] of [@/utils] is not
    among the sources. It mints the application refresh token of a user;
    the token is a fresh [uuid]. *)
Definition getNewRefreshToken (userId : uuid) : M World (option uuid) :=
  call OpGetNewRefreshToken None
    (refreshToken ← fresh_uuid;
     mret (Some refreshToken)).

Definition find_user (id : uuid) (w : World) : option User :=
  List.find (fun u => N.eqb (user_id u) id) (users w).

Definition links_of (provider providerUserId : string) (w : World)
  : list UserProvider :=
  List.filter
    (fun l => String.eqb (up_providerId l) provider
              && String.eqb (up_providerUserId l) providerUserId)
    (userProviders w).

(** Modelled from the spec: the [authUserProviders] query of [gqlSdk] is
    not among the sources. It selects the identity links of
    [(providerId, providerUserId)], each with its row id and the user it
    references. *)
Definition authUserProviders (provider providerUserId : string)
  : M World (list (UserProvider * option User)) :=
  call OpAuthUserProviders []
    (gets (fun w =>
             List.map (fun l => (l, find_user (up_userId l) w))
                      (links_of provider providerUserId w))).

(** A field left [undefined] in a [_set] input is not sent: the column
    keeps its value. *)
Definition set_column (new old : option string) : option string :=
  match new with
  | Some v => Some v
  | None => old
  end.

Definition set_tokens (accessToken refreshToken : option string)
    (l : UserProvider) : UserProvider :=
  mkUserProvider (up_id l) (up_userId l) (up_providerId l)
    (up_providerUserId l)
    (set_column accessToken (up_accessToken l))
    (set_column refreshToken (up_refreshToken l)).

(** Modelled from the spec: the [updateAuthUserprovider] mutation of
    [gqlSdk] is not among the sources. It updates, by primary key, the
    stored tokens of one identity link in place. *)
Definition updateAuthUserprovider (id : uuid)
    (accessToken refreshToken : option string) : M World unit :=
  call OpUpdateAuthUserprovider tt
    (modify (set_userProviders
               (List.map (fun l => if N.eqb (up_id l) id
                                   then set_tokens accessToken refreshToken l
                                   else l)))).

(** Modelled from the spec: [getUserByEmail] of [@/utils] is not among
    the sources. It yields the user holding that email, if there is
    one. *)
Definition getUserByEmail (email : string) : M World (option User) :=
  call OpGetUserByEmail None
    (gets (fun w =>
             List.find (fun u => bool_decide (user_email u = Some email))
                       (users w))).

(** Modelled from the spec: the [insertUserProviderToUser] mutation of
    [gqlSdk] is not among the sources. It inserts one identity link and
    yields the inserted row. *)
Definition insertUserProviderToUser (userId : uuid)
    (providerId providerUserId : string)
    (accessToken refreshToken : option string)
  : M World (option UserProvider) :=
  call OpInsertUserProviderToUser None
    (id ← fresh_uuid;
     let row := mkUserProvider id userId providerId providerUserId
                               accessToken refreshToken in
     modify (set_userProviders (fun ls => ls ++ [row]));;
     mret (Some row)).

(** The [user] input of the [insertUser] mutation, as
    [transformOauthProfile] builds it. *)
Record UserInput := mkUserInput {
  in_metadata : Js.json;
  in_email : option string;
  in_emailVerified : bool;
  in_defaultRole : string;
  in_roles : list string;
  in_locale : string;
  in_displayName : option string;
  in_avatarUrl : string;
}.

(** Modelled from the spec: [insertUser] of [@/utils] is not among the
    sources. It creates the user together with the nested identity link
    and yields the created user. *)
Definition insertUser (input : UserInput)
    (providerId providerUserId : string)
    (accessToken refreshToken : option string) : M World (option User) :=
  call OpInsertUser None
    (uid ← fresh_uuid;
     lid ← fresh_uuid;
     let user := mkUser uid (in_email input) (in_emailVerified input)
                   (in_displayName input) (in_avatarUrl input)
                   (in_locale input) (in_defaultRole input)
                   (in_roles input) (in_metadata input) None in
     let row := mkUserProvider lid uid providerId providerUserId
                               accessToken refreshToken in
     modify (set_users (fun us => us ++ [user]));;
     modify (set_userProviders (fun ls => ls ++ [row]));;
     mret (Some user)).

Definition set_currentChallenge (challenge : option string) (u : User)
  : User :=
  mkUser (user_id u) (user_email u) (user_emailVerified u)
    (user_displayName u) (user_avatarUrl u) (user_locale u)
    (user_defaultRole u) (user_roles u) (user_metadata u) challenge.

Definition update_user (id : uuid) (f : User -> User) : World -> World :=
  set_users (List.map (fun u => if N.eqb (user_id u) id then f u else u)).

(** Modelled from the spec: the [getUserAuthenticators] query of
    [gqlSdk] is not among the sources. It selects the authenticators a
    user has registered. *)
Definition getUserAuthenticators (id : uuid)
  : M World (list Authenticator) :=
  call OpGetUserAuthenticators []
    (gets (fun w =>
             List.filter (fun a => N.eqb (au_userId a) id)
                         (authenticators w))).

(** Modelled from the spec: the [updateUserChallenge] mutation of
    [gqlSdk] is not among the sources. It persists the challenge on the
    user record, over any challenge outstanding. *)
Definition updateUserChallenge (userId : uuid) (challenge : string)
  : M World unit :=
  call OpUpdateUserChallenge tt
    (modify (update_user userId (set_currentChallenge (Some challenge)))).

(** Modelled from the spec: the [getUserChallenge] query of [gqlSdk] is
    not among the sources. It loads the user with its stored
    challenge. *)
Definition getUserChallenge (id : uuid) : M World (option User) :=
  call OpGetUserChallenge None (gets (find_user id)).

(** Modelled from the spec: the [addUserAuthenticator] mutation of
    [gqlSdk] is not among the sources. It persists one authenticator and
    yields the inserted row. *)
Definition addUserAuthenticator (userId : uuid)
    (credentialId credentialPublicKey : string) (counter : N)
    (nickname : option string) : M World (option Authenticator) :=
  call OpAddUserAuthenticator None
    (id ← fresh_uuid;
     let row := mkAuthenticator id userId credentialId credentialPublicKey
                                counter nickname in
     modify (set_authenticators (fun l => l ++ [row]));;
     mret (Some row)).

(** Modelled from the spec: the [updateUser] mutation of [gqlSdk] is not
    among the sources. Here it is only used to set [currentChallenge] to
    [null]. *)
Definition updateUser_clearChallenge (id : uuid) : M World unit :=
  call OpUpdateUser tt
    (modify (update_user id (set_currentChallenge None))).

(** What a handler answers. [Next] is the call of [next()]; [SendError]
    is [sendError(res, code, { redirectTo }, forwardRedirection)] of
    [@/errors]; [Redirect] is
    [res.redirect(generateRedirectUrl(redirectTo, details))]. *)
Inductive Body :=
| BodyJson (v : Js.json)
| BodyText (s : string)
| BodyError (error : string) (data : option Js.json)
| BodyRefreshToken (refreshToken : uuid).

Inductive Response :=
| Next
| SendError (code : string) (redirectTo : option string)
            (forwardRedirection : bool)
| Redirect (redirectTo : string) (details : list (string * string))
| RedirectRefreshToken (redirectTo : string) (refreshToken : uuid)
| Send (body : Body).

End Store.

Import Store.

(* ===================================================================== *)
(** * Configuration and collaborators                                      *)
(* ===================================================================== *)

(** Fields that can be possibly returned by the OAuth provider
    ([NormalisedProfile]). *)
Record NormalisedProfile := mkProfile {
  np_id : option string;
  np_displayName : option string;
  np_avatarUrl : option string;
  np_email : option string;
  np_locale : option string;
  np_emailVerified : option bool;
}.

(** [scope] of a Grant provider: an array or a single string. *)
Inductive ScopeValue :=
| ScopeArray (scopes : list string)
| ScopeString (scope : string).

(** One entry of a Grant configuration: a provider, or [defaults]. *)
Record GrantProvider := mkGrant {
  client_id : option string;
  client_secret : option string;
  key : option string;
  secret : option string;
  scope : option ScopeValue;
  origin : option string;
  prefix : option string;
  transport : option string;
  response : option (list string);
}.

(** One entry of [PROVIDERS_CONFIG]. The normaliser may throw. *)
Record ProviderConfig := mkProviderConfig {
  pc_grant : GrantProvider;
  pc_profile : GrantResponse -> Res NormalisedProfile;
}.

(** What the embedded code imports and the sources do not define: the
    environment ([ENV], [castBooleanEnv], [castStringArrayEnv]), the Joi
    rules of [@/validation], the gravatar helper, the provider table of
    [./config], and [verifyRegistrationResponse] of
    [@simplewebauthn/server]. *)
Class Collaborators := {
  AUTH_LOCALE_DEFAULT : string;
  AUTH_USER_DEFAULT_ALLOWED_ROLES : list string;
  AUTH_USER_DEFAULT_ROLE : string;
  AUTH_CLIENT_URL : string;
  AUTH_SERVER_URL : string;
  OAUTH_ROUTE : string;
  (** [emailValidator.validateAsync]: the validated value, or a throw. *)
  emailValidator : option string -> Res (option string);
  (** [localeValidator.validate]: [None] stands for [{ error }]. *)
  localeValidator : option string -> option string;
  getGravatarUrl : option string -> option string;
  castBooleanEnv : string -> bool;
  castStringArrayEnv : string -> list string;
  PROVIDERS_CONFIG : list (string * ProviderConfig);
  (** [redirectTo.validate] of [@/validation]: [None] stands for
      [{ error }]. *)
  redirectToRule : option string -> option string;
  AUTH_WEBAUTHN_RP_NAME : string;
  AUTH_WEBAUTHN_RP_ORIGINS : list string;
  (** [new URL(url).hostname] *)
  url_hostname : string -> string;
  (** [buffer.toString('base64url')] and [buffer.toString('hex')] *)
  base64url : string -> string;
  hex : string -> string;
  (** [generateRegistrationOptions]: only the challenge it draws is read
      here; the last argument stands for the randomness it uses. *)
  generateRegistrationOptions :
    string -> string -> uuid -> option string -> list string -> uuid -> string;
  (** [verifyRegistrationResponse credential expectedChallenge
      expectedOrigin expectedRPID] *)
  verifyRegistrationResponse :
    Js.json -> string -> list string -> string ->
    Res (bool * option (string * string * N));
}.

(* ===================================================================== *)
(** * routes/oauth/utils.ts                                                *)
(* ===================================================================== *)

Module Utils.
Section WithCollaborators.
Context `{env : Collaborators}.

(** Truthiness of [options?.allowedRoles]: an array is truthy even when
    empty, a string unless it is empty. *)
Definition roles_truthy (v : option RolesValue) : bool :=
  match v with
  | Some (RolesArray _) => true
  | Some (RolesString s) => negb (String.eqb s "")
  | Some (RolesOther t) => t
  | None => false
  end.

(** The [allowedRoles] of [transformOauthProfile]. *)
Definition allowedRoles_of (options : option RegistrationOptions)
  : list string :=
  let allowedRoles := AUTH_USER_DEFAULT_ALLOWED_ROLES in
  if roles_truthy (options ≫= opt_allowedRoles) then
    match options ≫= opt_allowedRoles with
    | Some (RolesArray roles) => roles
    | Some (RolesString s) =>
        (* if for some reason it comes as a string, split it *)
        Js.split "," s
    | _ => allowedRoles
    end
  else allowedRoles.

(** [transformOauthProfile] after its only awaited call, the validation of
    the email: [email] is the validated value. *)
Definition transformOauthProfile_with (normalised : NormalisedProfile)
    (options : option RegistrationOptions) (email : option string)
  : UserInput :=
  let avatarUrl :=
    Js.or_else (Js.or (np_avatarUrl normalised) (getGravatarUrl email))
               "" in
  let locale :=
    match localeValidator
            (Js.or (options ≫= opt_locale) (np_locale normalised)) with
    | Some value => value
    | None => AUTH_LOCALE_DEFAULT
    end in
  let displayName :=
    Js.or (Js.or (options ≫= opt_displayName)
                 (np_displayName normalised))
          email in
  let emailVerified := default false (np_emailVerified normalised) in
  let allowedRoles := allowedRoles_of options in
  {| in_metadata :=
       match options ≫= opt_metadata with
       | Some m => if Js.json_truthy m then m else Js.JObj []
       | None => Js.JObj []
       end;
     in_email := email;
     in_emailVerified := emailVerified;
     in_defaultRole :=
       Js.or_else (options ≫= opt_defaultRole) AUTH_USER_DEFAULT_ROLE;
     in_roles := allowedRoles;
     in_locale := locale;
     in_displayName := displayName;
     in_avatarUrl := avatarUrl |}.

Definition transformOauthProfile (normalised : NormalisedProfile)
    (options : option RegistrationOptions) : M World UserInput :=
  (* Check if the email is valid. If not, throw an error *)
  match emailValidator (np_email normalised) with
  | Throw e => throw e
  | Ok email => mret (transformOauthProfile_with normalised options email)
  end.

Definition normaliseProfile (provider : string) (data : GrantResponse)
  : Res NormalisedProfile :=
  match List.find (fun kv => String.eqb (fst kv) provider)
                  PROVIDERS_CONFIG with
  | Some (_, config) => pc_profile config data
  | None =>
      Throw (Js.Error
               "Cannot read properties of undefined (reading 'profile')")
  end.

Definition providerEnvName (provider : string) : string :=
  let name := Js.toUpperCase provider in
  if String.eqb name "WINDOWSLIVE" then "WINDOWS_LIVE" else name.

Definition grant_defaults : GrantProvider :=
  {| client_id := None; client_secret := None; key := None; secret := None;
     scope := Some (ScopeArray ["email"; "profile"]);
     origin := Some AUTH_SERVER_URL;
     prefix := Some OAUTH_ROUTE;
     transport := Some "session";
     response := Some ["tokens"; "email"; "profile"; "jwt"] |}.

Definition with_scope (scopes : list string) (g : GrantProvider)
  : GrantProvider :=
  {| client_id := client_id g; client_secret := client_secret g;
     key := key g; secret := secret g;
     scope := Some (ScopeArray scopes);
     origin := origin g; prefix := prefix g; transport := transport g;
     response := response g |}.

Definition createGrantConfig : gmap string GrantProvider :=
  List.fold_left
    (fun aggr entry =>
       let provider := fst entry in
       let envName := providerEnvName provider in
       if castBooleanEnv ("AUTH_PROVIDER_" +:+ envName +:+ "_ENABLED") then
         let grant := pc_grant (snd entry) in
         let customScope :=
           castStringArrayEnv ("AUTH_PROVIDER_" +:+ envName +:+ "_SCOPE") in
         let grant :=
           match customScope with
           | [] => grant
           | _ =>
               let initialScope :=
                 match scope grant with
                 | Some (ScopeArray l) => l
                 | Some (ScopeString s) => [s]
                 | None => []
                 end in
               with_scope (Js.unique (initialScope ++ customScope)) grant
           end in
         <[provider := grant]> aggr
       else aggr)
    PROVIDERS_CONFIG
    {["defaults" := grant_defaults]}.

Record Tokens := mkTokens {
  refreshToken : option string;
  accessToken : option string;
}.

Definition findOrCreateUser (provider : string)
    (profile : NormalisedProfile) (tokens : Tokens)
    (options : option RegistrationOptions) : M World (option User) :=
  if negb (Js.truthy (np_id profile)) then
    throw (Js.Error ("Missing id in profile for provider " +:+ provider))
  else
    let providerUserId := default "" (np_id profile) in
    (* Check if a user-provider entry already exists *)
    rows ← authUserProviders provider providerUserId;
    match rows with
    | (authUserProvider, user) :: _ =>
        (* the userProvider exists: update the tokens, return the user *)
        updateAuthUserprovider (up_id authUserProvider)
          (accessToken tokens) (refreshToken tokens);;
        mret user
    | [] =>
        let create :=
          (* Otherwise create a new user *)
          userInput ← transformOauthProfile profile options;
          insertUser userInput provider providerUserId
            (accessToken tokens) (refreshToken tokens) in
        if Js.truthy (np_email profile) then
          user ← getUserByEmail (default "" (np_email profile));
          match user with
          | Some u =>
              inserted ← insertUserProviderToUser (user_id u) provider
                           providerUserId (accessToken tokens)
                           (refreshToken tokens);
              match inserted with
              | None => throw (Js.Error "Could not add a provider to user")
              | Some _ => mret (Some u)
              end
          | None => create
          end
        else create
    end.

Definition createUser (provider : string) (tokens : Tokens)
    (profile : NormalisedProfile) (options : option RegistrationOptions)
  : M World uuid :=
  let options := Some (default no_options options) in
  user ← findOrCreateUser provider profile tokens options;
  match user with
  | None => throw (Js.Error "Could not retrieve user")
  | Some u =>
      minted ← getNewRefreshToken (user_id u);
      match minted with
      | Some refreshToken => mret refreshToken
      | None =>
          throw (Js.Error
            "Cannot destructure property 'refreshToken' of null")
      end
  end.

End WithCollaborators.
End Utils.

(* ===================================================================== *)
(** * routes/oauth/index.ts                                                *)
(* ===================================================================== *)

Module Router.
Section WithCollaborators.
Context `{env : Collaborators}.

Definition SESSION_NAME : string := "connect.sid".

(** We create a Grant configuration when the service starts, so it
    determines which providers are enabled. *)
Definition grantConfig : gmap string GrantProvider :=
  Utils.createGrantConfig.

(** A member of [Object.prototype] has none of the Grant fields. *)
Definition no_fields : GrantProvider :=
  mkGrant None None None None None None None None None.

(** Determine the redirect url ([locals.redirectTo]). *)
Definition redirectTo_of (query_redirectTo : option string)
  : option string :=
  redirectToRule query_redirectTo.

(** Validate the provider configuration:
    1. Check if the provider is enabled
    2. Check if the provider has a client id/key and secret *)
Definition validateProvider (provider : string)
    (redirectTo : option string) : M World Response :=
  match Js.lookup grantConfig provider with
  | Js.Undefined =>
      log "warn" ("Provider " +:+ Js.quoted provider +:+ " is not enabled");;
      mret (SendError "disabled-endpoint" redirectTo true)
  | found =>
      let providerConfig :=
        match found with
        | Js.Own config => config
        | _ => no_fields
        end in
      if negb (Js.truthy (client_id providerConfig)
               && Js.truthy (client_secret providerConfig))
         && negb (Js.truthy (key providerConfig)
                  && Js.truthy (secret providerConfig))
      then
        log "warn" ("Missing client id/key or secret for provider "
                    +:+ Js.quoted provider);;
        mret (SendError "invalid-oauth-configuration" redirectTo true)
      else mret Next
  end.

(** Express runs the handlers of a route in order; a handler that does
    not call [next()] ends the request. *)
Fixpoint run_chain (handlers : list (M World Response))
  : M World Response :=
  match handlers with
  | [] => mret Next
  | h :: rest =>
      r ← h;
      match r with
      | Next => run_chain rest
      | _ => mret r
      end
  end.

(** [GET /signin/provider/{provider}]: the two handlers above, then the
    handlers that follow them (options validation, provider middleware,
    session save, Grant), which take the request to the provider. *)
Definition signin (provider : string) (query_redirectTo : option string)
    (downstream : list (M World Response)) : M World Response :=
  let redirectTo := redirectTo_of query_redirectTo in
  run_chain (validateProvider provider redirectTo :: downstream).

(** A query parameter: a string, or an array / nested object. *)
Inductive QueryValue :=
| QString (s : string)
| QOther.

Record Query := mkQuery {
  q_error : option QueryValue;
  q_error_description : option QueryValue;
}.

Definition as_string (v : option QueryValue) : option string :=
  match v with
  | Some (QString s) => Some s
  | _ => None
  end.

(** Send error to the client application from the query parameters. *)
Definition sendErrorFromQuery (query : Query) (provider : option string)
    (redirectTo : string) (code fallbackMessage : option string)
  : Response :=
  let error :=
    Js.or_else code
      (match as_string (q_error query) with
       | Some e => e
       | None => "invalid-request"
       end) in
  let errorDescription :=
    match as_string (q_error_description query) with
    | Some d => d
    | None =>
        match as_string (q_error query) with
        | Some e =>
            if negb (String.eqb e error) then e
            else Js.or_else fallbackMessage "Unknown error"
        | None => Js.or_else fallbackMessage "Unknown error"
        end
    end in
  let details :=
    [("error", error); ("errorDescription", errorDescription)] in
  let details :=
    if Js.truthy provider
    then details ++ [("provider", default "" provider)]
    else details in
  Redirect redirectTo details.

(** [{ ...session }]: the session of the request, read from the session
    store under the id the cookie carries. *)
Definition read_session (sid : string) : M World Session :=
  fun w => (Ok (default empty_session (sessions w !! sid)),
            emit (EvSessionRead sid) w).

(** Modelled from the spec: [SessionStore] of [./session-store] is not
    among the sources. [session.destroy] removes the flow state kept
    under the session id, then runs its callback, which deletes the
    cookie. *)
Definition destroy_session (sid : string) : M World unit :=
  modify (fun w => emit (EvSessionDestroy sid)
                        (set_sessions (delete sid) w));;
  modify (fun w => emit (EvClearCookie SESSION_NAME)
                        (set_cookies (delete SESSION_NAME) w)).

(** The handler of [/signin/provider/{provider}/callback]. *)
Definition callback (sid : string) (query : Query) : M World Response :=
  session ← read_session sid;
  let grant := ses_grant session in
  let options := ses_options session in
  let redirectTo := default AUTH_CLIENT_URL (ses_redirectTo session) in
  (* Destroy the session as it is only needed for the oauth flow *)
  destroy_session sid;;
  let response := grant ≫= gs_response in
  let provider := grant ≫= gs_provider in
  let sendErrorFromQuery := sendErrorFromQuery query provider redirectTo in
  if negb (Js.truthy provider) then
    log "warn" "No Oauth provider";;
    mret (sendErrorFromQuery (Some "internal-error") None)
  else
    let provider := default "" provider in
    match response with
    | None =>
        log "warn" ("No Oauth response for the provider " +:+ provider);;
        mret (sendErrorFromQuery (Some "internal-error") None)
    | Some response =>
        if negb (from_option Js.json_truthy false (gr_profile response))
        then
          log "warn" ("No Oauth profile in the session for the provider "
                      +:+ provider);;
          mret (sendErrorFromQuery (Some "internal-error")
                                   (gr_error response))
        else
          profile ← traced (EvNormaliseProfile provider)
                      (Utils.normaliseProfile provider response);
          let accessToken := gr_access_token response in
          let refreshToken := gr_refresh_token response in
          if negb (Js.truthy accessToken) || negb (Js.truthy refreshToken)
          then
            mret (sendErrorFromQuery None
                    (Some "Grant did not get an accessToken and refreshToken"))
          else
            try_catch
              (newRefreshToken ←
                 Utils.createUser provider
                   (Utils.mkTokens refreshToken accessToken)
                   profile options;
               mret (RedirectRefreshToken redirectTo newRefreshToken))
              (fun error =>
                 match error with
                 | Js.Error message =>
                     log "error" message;;
                     mret (sendErrorFromQuery None (Some message))
                 | Js.NonError rendering =>
                     log "error" "unexpected Error";;
                     mret (sendErrorFromQuery None
                             (Some ("Unexpected Error: " +:+ rendering)))
                 end)
    end.

End WithCollaborators.
End Router.

(* ===================================================================== *)
(** * routes/oauth/typequards.ts and routes/oauth/native.ts                *)
(* ===================================================================== *)

Module Native.
Section WithCollaborators.
Context `{env : Collaborators}.

Definition isUserData (data : Js.json) : bool :=
  Js.is_object data
  && Js.has_key "sub" data
  && Js.has_key "name" data
  && Js.has_key "given_name" data
  && Js.has_key "family_name" data
  && Js.has_key "picture" data
  && Js.has_key "email" data
  && Js.has_key "email_verified" data
  && Js.has_key "locale" data.

Definition isErrorResponse (data : Js.json) : bool :=
  Js.is_object data
  && Js.has_key "error" data
  && Js.has_key "error_description" data.

(** A field read at the type its reader expects, and as [undefined] when
    it holds another type: the way the provider normaliser of the concrete
    deployment below reads a raw profile. *)
Definition string_field (name : string) (data : Js.json) : option string :=
  match Js.get name data with
  | Some (Js.JStr s) => Some s
  | _ => None
  end.

Definition bool_field (name : string) (data : Js.json) : option bool :=
  match Js.get name data with
  | Some (Js.JBool b) => Some b
  | _ => None
  end.

(** A string is kept as the UTF-8 bytes of its text, and [slice] counts
    UTF-16 code units: a sequence of one to three bytes is one unit, a
    sequence of four bytes is a surrogate pair, two units. *)
Definition utf8_width (lead : ascii) : nat :=
  let n := nat_of_ascii lead in
  if (n <? 192)%nat then 1
  else if (n <? 224)%nat then 2
  else if (n <? 240)%nat then 3
  else 4.

Fixpoint take_bytes (n : nat) (s : string) : string :=
  match n, s with
  | S n', String c rest => String c (take_bytes n' rest)
  | _, _ => EmptyString
  end.

Fixpoint drop_bytes (n : nat) (s : string) : string :=
  match n, s with
  | S n', String _ rest => drop_bytes n' rest
  | _, _ => s
  end.

(** The first half of the surrogate pair of a four-byte sequence. Alone it
    has no UTF-8 form; it is kept in the three-byte form of the same
    scheme. *)
Definition high_surrogate (s : string) : string :=
  match s with
  | String b0 (String b1 (String b2 _)) =>
      let above :=
        ((N_of_ascii b0 mod 8) * 4096 + (N_of_ascii b1 mod 64) * 64
         + N_of_ascii b2 mod 64)%N in
      let high := (55296 + (above - 1024) / 16)%N in
      String (ascii_of_N (224 + high / 4096))
        (String (ascii_of_N (128 + (high / 64) mod 64))
           (String (ascii_of_N (128 + high mod 64)) EmptyString))
  | _ => s
  end.

(** [s.slice(0, n)] *)
Fixpoint take_units (n : nat) (s : string) : string :=
  match n with
  | 0 => EmptyString
  | S n' =>
      match s with
      | EmptyString => EmptyString
      | String lead _ =>
          match utf8_width lead with
          | 4 =>
              match n' with
              | 0 => high_surrogate (take_bytes 4 s)
              | S n'' => take_bytes 4 s +:+ take_units n'' (drop_bytes 4 s)
              end
          | width => take_bytes width s +:+ take_units n' (drop_bytes width s)
          end
      end
  end.

(** [s.slice(0, 2)] *)
Definition slice_0_2 (s : string) : string := take_units 2 s.

(** What [normaliseProfile] returns. Its parameter is declared [UserData],
    and the guard [isUserData] checks that the keys are there, not what
    they hold. [Typed]: the fields it passes on hold strings, as declared,
    and the profile is a [NormalisedProfile]. [Untyped]: one of them holds
    a value of another type, which the profile carries as it is. *)
Inductive Reading :=
| Typed (profile : NormalisedProfile)
| Untyped.

(** A field passed on as it is: a string as declared, [undefined] when
    the key is missing, or ([None]) a value of another type. *)
Definition text_field (name : string) (data : Js.json)
  : option (option string) :=
  match Js.get name data with
  | Some (Js.JStr s) => Some (Some s)
  | None => Some None
  | Some _ => None
  end.

(** [locale?.slice(0, 2)]: [undefined] for [null] and [undefined]; a
    string is cut; an array has a [slice] of its own and gives an array
    ([Ok None]); a number, a boolean and an object have none, and the call
    throws a [TypeError]. *)
Definition locale_field (data : Js.json) : Res (option (option string)) :=
  match Js.get "locale" data with
  | Some (Js.JStr locale) => Ok (Some (Some (slice_0_2 locale)))
  | Some Js.JNull | None => Ok (Some None)
  | Some (Js.JArr _) => Ok None
  | Some _ => Throw (Js.Error "locale?.slice is not a function")
  end.

(** [normaliseProfile] of [routes/oauth/native.ts]. The profile's
    [emailVerified] is only ever read as [!!emailVerified], and is kept by
    its truthiness. *)
Definition normaliseProfile (data : Js.json) : Res Reading :=
  match locale_field data with
  | Throw e => Throw e
  | Ok locale =>
      Ok match text_field "sub" data, text_field "name" data,
               text_field "picture" data, text_field "email" data,
               locale with
         | Some sub, Some name, Some picture, Some email, Some locale =>
             Typed {| np_id := sub;
                      np_displayName := name;
                      np_avatarUrl := picture;
                      np_email := email;
                      np_emailVerified :=
                        Js.json_truthy <$> Js.get "email_verified" data;
                      np_locale := locale |}
         | _, _, _, _, _ => Untyped
         end
  end.

(** [await (await fetch(userInfoEndpoint(accessToken))).json()]: the
    answer of the identity endpoint is an input, [google]. *)
Definition fetch_userinfo (google : string -> Res Js.json)
    (accessToken : string) : M World Js.json :=
  traced (EvFetch accessToken) (google accessToken).

(** ['text' + userData] *)
Definition concat (text : string) (userData : Js.json) : M World string :=
  match Js.to_string userData with
  | Some rendering => mret (text +:+ rendering)
  | None => throw (Js.Error "Cannot convert object to primitive value")
  end.

(** [createUser({ provider: 'google', profile, tokens: { accessToken } })].
    On an [Untyped] profile the call hands values of other types than
    declared to the validators and to the store, which are not among the
    sources: what comes of it is an input, [untyped]. *)
Definition resolve (untyped : Js.json -> M World uuid)
    (accessToken : string) (userData : Js.json) (profile : Reading)
  : M World uuid :=
  match profile with
  | Typed profile =>
      Utils.createUser "google" (Utils.mkTokens None (Some accessToken))
                       profile None
  | Untyped => untyped userData
  end.

(** [signInWithGoogleAccessToken] of [routes/oauth/native.ts] *)
Definition signInWithGoogleAccessToken (google : string -> Res Js.json)
    (untyped : Js.json -> M World uuid) (accessToken : string)
  : M World Response :=
  userData ← fetch_userinfo google accessToken;
  if isErrorResponse userData then mret (Send (BodyJson userData))
  else if negb (isUserData userData) then
    text ← concat "unknown format for google response: " userData;
    mret (Send (BodyText text))
  else
    match normaliseProfile userData with
    | Throw e => throw e
    | Ok profile =>
        try_catch
          (refreshToken ← resolve untyped accessToken userData profile;
           mret (Send (BodyRefreshToken refreshToken)))
          (fun error =>
             match error with
             | Js.Error message =>
                 log "error" message;;
                 mret (Send (BodyText message))
             | Js.NonError rendering =>
                 log "error" "unexpected Error";;
                 mret (Send (BodyText ("Unexpected Error: " +:+ rendering)))
             end)
    end.

(** The second copy of the handler among the sources, which answers
    with [{ error }] objects instead of strings. *)
Definition signInWithGoogleAccessToken_objects
    (google : string -> Res Js.json) (untyped : Js.json -> M World uuid)
    (accessToken : string) : M World Response :=
  userDataOrError ← fetch_userinfo google accessToken;
  if isErrorResponse userDataOrError then
    mret (Send (BodyJson userDataOrError))
  else if negb (isUserData userDataOrError) then
    mret (Send (BodyError "unknown format for google response!"
                          (Some userDataOrError)))
  else
    match normaliseProfile userDataOrError with
    | Throw e => throw e
    | Ok profile =>
        try_catch
          (refreshToken ←
             resolve untyped accessToken userDataOrError profile;
           mret (Send (BodyRefreshToken refreshToken)))
          (fun error =>
             match error with
             | Js.Error message =>
                 log "error" message;;
                 mret (Send (BodyError message None))
             | Js.NonError rendering =>
                 log "error" "unexpected Error";;
                 mret (Send (BodyError ("Unexpected Error: " +:+ rendering)
                                       None))
             end)
    end.

End WithCollaborators.
End Native.

(* ===================================================================== *)
(** * utils/webauthn.ts                                                    *)
(* ===================================================================== *)

Module WebAuthn.
Section WithCollaborators.
Context `{env : Collaborators}.

Definition getWebAuthnRelyingParty : string :=
  if String.eqb AUTH_SERVER_URL "" then ""
  else url_hostname AUTH_SERVER_URL.

Definition generateWebAuthnRegistrationOptions (id : uuid)
    (email displayName : option string) : M World string :=
  authUserAuthenticators ← getUserAuthenticators id;
  entropy ← fresh_uuid;
  let challenge :=
    generateRegistrationOptions getWebAuthnRelyingParty
      AUTH_WEBAUTHN_RP_NAME id
      (match displayName with Some d => Some d | None => email end)
      (List.map au_credentialId authUserAuthenticators) entropy in
  updateUserChallenge id challenge;;
  mret challenge.

Definition verifyWebAuthnRegistration (id : uuid) (credential : Js.json)
    (nickname : option string) : M World unit :=
  user ← getUserChallenge id;
  match user with
  | None => throw (Js.Error "user-not-found")
  | Some user =>
      let currentChallenge := user_currentChallenge user in
      if negb (Js.truthy currentChallenge) then
        throw (Js.Error "invalid-request")
      else
        match verifyRegistrationResponse credential
                (default "" currentChallenge) AUTH_WEBAUTHN_RP_ORIGINS
                getWebAuthnRelyingParty with
        | Throw _ => throw (Js.Error "invalid-webauthn-authenticator")
        | Ok (verified, registrationInfo) =>
            if negb verified then
              throw (Js.Error "invalid-webauthn-verification")
            else
              match registrationInfo with
              | None => throw (Js.Error "invalid-webauthn-verification")
              | Some (credentialPublicKey, credentialId, counter) =>
                  inserted ←
                    addUserAuthenticator id (base64url credentialId)
                      ("\x" +:+ hex credentialPublicKey) counter nickname;
                  match inserted with
                  | None =>
                      throw (Js.Error
                        "Something went wrong. Impossible to insert new authenticator in the database.")
                  | Some _ => updateUser_clearChallenge id
                  end
              end
        end
  end.

End WithCollaborators.
End WebAuthn.

(* ===================================================================== *)
(** * routes/oauth/native.ts: the url of the identity endpoint             *)
(* ===================================================================== *)

Module NativeUrl.

(** [URLSearchParams] serialises a value byte by byte (a string stands for
    its UTF-8 bytes): ASCII letters and digits and [* - . _] stay, a space
    becomes [+], every other byte becomes [%XX] in upper-case
    hexadecimal. *)
Definition unreserved (c : ascii) : bool :=
  let n := nat_of_ascii c in
  ((48 <=? n) && (n <=? 57) || (65 <=? n) && (n <=? 90)
   || (97 <=? n) && (n <=? 122))%nat
  || bool_decide (n ∈ [42; 45; 46; 95]%nat).

Definition hex_digit (n : nat) : ascii :=
  ascii_of_nat (if (n <? 10)%nat then 48 + n else 55 + n).

Definition urlencode_byte (c : ascii) : string :=
  if Ascii.eqb c " " then "+"
  else if unreserved c then String c EmptyString
  else
    let n := nat_of_ascii c in
    String "%" (String (hex_digit (n / 16))
                       (String (hex_digit (n mod 16)) EmptyString)).

Fixpoint urlencode (s : string) : string :=
  match s with
  | EmptyString => EmptyString
  | String c rest => urlencode_byte c +:+ urlencode rest
  end.

Definition baseUrl : string :=
  "https://www.googleapis.com/oauth2/v3/userinfo".

(** [userInfoEndpoint]: the base url with [access_token] as its only
    search parameter. *)
Definition userInfoEndpoint (accessToken : string) : string :=
  let params := "access_token=" +:+ urlencode accessToken in
  baseUrl +:+ "?" +:+ params.

End NativeUrl.

(* ===================================================================== *)
(** * A concrete deployment, to run the code on                            *)
(* ===================================================================== *)

Module Fixture.

Definition github_profile (data : GrantResponse) : Res NormalisedProfile :=
  match gr_profile data with
  | Some p =>
      Ok {| np_id := Native.string_field "id" p;
            np_displayName := Native.string_field "name" p;
            np_avatarUrl := Native.string_field "avatar_url" p;
            np_email := Native.string_field "email" p;
            np_locale := None;
            np_emailVerified := Native.bool_field "verified" p |}
  | None => Throw (Js.Error "no profile")
  end.

Definition credentials (id secret : option string) : GrantProvider :=
  mkGrant id secret None None None None None None None.

(** github is enabled and configured, google is enabled without a
    secret, facebook is configured and not enabled. A credential is
    accepted when it answers the expected challenge. *)
Definition deployment : Collaborators :=
  {| AUTH_LOCALE_DEFAULT := "en";
     AUTH_USER_DEFAULT_ALLOWED_ROLES := ["user"; "me"];
     AUTH_USER_DEFAULT_ROLE := "user";
     AUTH_CLIENT_URL := "https://app.example.com";
     AUTH_SERVER_URL := "https://auth.example.com";
     OAUTH_ROUTE := "/signin/provider";
     emailValidator := fun e =>
       match e with
       | Some s => if Js.contains "@" s then Ok (Some s)
                   else Throw (Js.Error "email must be a valid email")
       | None => Ok None
       end;
     localeValidator := fun l =>
       match l with
       | Some s => if bool_decide (s ∈ ["en"; "fr"]) then Some s else None
       | None => Some "en"
       end;
     getGravatarUrl := fun _ => None;
     castBooleanEnv := fun name =>
       bool_decide (name ∈ ["AUTH_PROVIDER_GITHUB_ENABLED";
                            "AUTH_PROVIDER_GOOGLE_ENABLED"]);
     castStringArrayEnv := fun name =>
       if String.eqb name "AUTH_PROVIDER_GITHUB_SCOPE"
       then ["user:email"; "email"] else [];
     PROVIDERS_CONFIG :=
       [("github", mkProviderConfig
                     (credentials (Some "gh-id") (Some "gh-secret"))
                     github_profile);
        ("google", mkProviderConfig
                     (credentials (Some "g-id") None) github_profile);
        ("facebook", mkProviderConfig
                       (credentials (Some "fb-id") (Some "fb-secret"))
                       github_profile)];
     redirectToRule := fun r => r;
     AUTH_WEBAUTHN_RP_NAME := "example";
     AUTH_WEBAUTHN_RP_ORIGINS := ["https://app.example.com"];
     url_hostname := fun _ => "auth.example.com";
     base64url := fun s => s;
     hex := fun s => s;
     generateRegistrationOptions := fun _ _ _ _ _ entropy =>
       if N.eqb entropy 0%N then "challenge-0" else "challenge-n";
     verifyRegistrationResponse := fun credential expected _ _ =>
       match Js.get "challenge" credential with
       | Some (Js.JStr c) =>
           Ok (String.eqb c expected, Some ("pk", "cred-1", 0%N))
       | _ => Throw (Js.Error "malformed credential")
       end |}.

(** A store that answers every call. *)
Definition healthy : StoreOp -> option Fault := fun _ => None.

Definition alice : User :=
  mkUser 1%N (Some "a@example.com") true (Some "Alice") "" "en" "user"
         ["user"; "me"] (Js.JObj []) (Some "challenge-0").

Definition alice_github : UserProvider :=
  mkUserProvider 2%N 1%N "github" "42" (Some "old-at") (Some "old-rt").

Definition flow (profile : option Js.json)
    (accessToken refreshToken : option string) : Session :=
  mkSession
    (Some (mkGrantSession (Some "github")
             (Some (mkGrantResponse accessToken refreshToken profile
                                    None))))
    None (Some "https://app.example.com/done").

Definition world (links : list UserProvider) (flows : list (string * Session))
  : World :=
  mkWorld [alice] links [] 10%N (list_to_map flows)
          {[ "connect.sid" := "sid-1" ]} healthy [].

(** Alice signing in again, a newcomer, and a profile without an id. *)
Definition returning : NormalisedProfile :=
  mkProfile (Some "42") (Some "Al") None (Some "a@example.com") None None.

Definition newcomer : NormalisedProfile :=
  mkProfile (Some "43") (Some "Bo") None (Some "b@example.com") None None.

Definition anonymous : NormalisedProfile :=
  mkProfile None (Some "Al") None (Some "a@example.com") None None.

Definition tokens : Utils.Tokens := Utils.mkTokens (Some "rt") (Some "at").

(** What [github_profile] makes of Alice's raw profile. *)
Definition returning_raw : NormalisedProfile :=
  mkProfile (Some "42") None None (Some "a@example.com") None None.

Definition bo : User :=
  mkUser 10%N (Some "b@example.com") false (Some "Bo") "" "en" "user"
         ["user"; "me"] (Js.JObj []) None.

(** A store whose [getUserByEmail] rejects. *)
Definition broken_world : World :=
  set_faults (fun op => if decide (op = OpGetUserByEmail)
                        then Some (Rejects (Js.Error "connection reset"))
                        else None)
             (world [] []).

(** The provider's raw profile of Alice, with or without its id. *)
Definition raw_profile (id : option string) : Js.json :=
  Js.JObj (match id with
           | Some i => [("id", Js.JStr i)]
           | None => []
           end ++ [("email", Js.JStr "a@example.com")]).

Definition no_query : Router.Query := Router.mkQuery None None.

Definition provider_query : Router.Query :=
  Router.mkQuery (Some (Router.QString "access_denied"))
                 (Some (Router.QString "The user denied the request")).

(** A credential answering Alice's challenge, and one answering a stale
    challenge. *)
Definition good_credential : Js.json :=
  Js.JObj [("challenge", Js.JStr "challenge-0")].

Definition stale_credential : Js.json :=
  Js.JObj [("challenge", Js.JStr "challenge-old")].

Definition invalid_token : Js.json :=
  Js.JObj [("error", Js.JStr "invalid_token")].

Definition invalid_request : Js.json :=
  Js.JObj [("error", Js.JStr "invalid_request");
           ("error_description", Js.JStr "Invalid Credentials")].

Definition some_options : RegistrationOptions :=
  mkOptions (Some "fr") None None None None.

End Fixture.

(* ===================================================================== *)
(** * Further inputs on the deployment                                     *)
(* ===================================================================== *)

Module Scenario.

(** What Google answers for Alice's access token, and for any other. *)
Definition google_payload : Js.json :=
  Js.JObj [("sub", Js.JStr "g-7"); ("name", Js.JStr "Alice");
           ("given_name", Js.JStr "Alice"); ("family_name", Js.JStr "A");
           ("picture", Js.JStr "https://img.example.com/a.png");
           ("email", Js.JStr "a@example.com");
           ("email_verified", Js.JBool true);
           ("locale", Js.JStr "en-GB")].

Definition google_api (accessToken : string) : Res Js.json :=
  if String.eqb accessToken "ya29.token" then Ok google_payload
  else Ok Fixture.invalid_request.

Definition alice_google : UserProvider :=
  mkUserProvider 3%N 1%N "google" "g-7" (Some "old-at") None.

(** A profile whose email the validator refuses. *)
Definition no_email : NormalisedProfile :=
  mkProfile (Some "44") (Some "Cy") None (Some "cy.example.com") None None.

(** The callback of a github flow that carries both tokens. *)
Definition github_flow (id : option string) : list (string * Session) :=
  [("sid-1", Fixture.flow (Some (Fixture.raw_profile id))
                          (Some "at") (Some "rt"))].

(** A credential answering the challenge issued next. *)
Definition fresh_credential : Js.json :=
  Js.JObj [("challenge", Js.JStr "challenge-n")].

(** Google's answer with a number for [locale], and an answer that holds
    a [toString] key. *)
Definition numeric_locale : Js.json :=
  Js.JObj [("sub", Js.JStr "g-7"); ("name", Js.JStr "Alice");
           ("given_name", Js.JStr "Alice"); ("family_name", Js.JStr "A");
           ("picture", Js.JStr "https://img.example.com/a.png");
           ("email", Js.JStr "a@example.com");
           ("email_verified", Js.JBool true);
           ("locale", Js.JNum "5")].

Definition own_toString : Js.json :=
  Js.JObj [("error", Js.JStr "invalid_token"); ("toString", Js.JStr "x")].

(** A store that refuses a profile whose fields are not of the declared
    types. *)
Definition refuses (payload : Js.json) : M World uuid :=
  throw (Js.Error "unexpected variables in variableValues").

(** A store in which one operation fails. *)
Definition failing (op : StoreOp) (fault : Fault) : World :=
  set_faults (fun o => if decide (o = op) then Some fault else None)
             (Fixture.world [] []).

End Scenario.

(* ===================================================================== *)
(** * Vocabulary of the properties                                         *)
(* ===================================================================== *)

(** What [updateAuthUserprovider id] does to one row. *)
Definition token_update (accessToken refreshToken : option string)
    (id : uuid) (l : UserProvider) : UserProvider :=
  if N.eqb (up_id l) id then set_tokens accessToken refreshToken l else l.

(** The user holding an email, as [getUserByEmail] finds it. *)
Definition user_with_email (email : string) (w : World) : option User :=
  List.find (fun u => bool_decide (user_email u = Some email)) (users w).

(** The row [insertUser] creates under a fresh id. *)
Definition new_user (input : UserInput) (id : uuid) : User :=
  mkUser id (in_email input) (in_emailVerified input) (in_displayName input)
    (in_avatarUrl input) (in_locale input) (in_defaultRole input)
    (in_roles input) (in_metadata input) None.

(** The identity link of [(provider, providerUserId)] to a user. *)
Definition new_link (id userId : uuid) (provider providerUserId : string)
    (tokens : Utils.Tokens) : UserProvider :=
  mkUserProvider id userId provider providerUserId
    (Utils.accessToken tokens) (Utils.refreshToken tokens).

(** No call to the store rejects or resolves empty. *)
Definition no_faults (w : World) : Prop := forall op, faults w op = None.

(** Two rows that differ in their tokens at most. *)
Definition same_link (a b : UserProvider) : Prop :=
  up_id a = up_id b /\ up_userId a = up_userId b
  /\ up_providerId a = up_providerId b
  /\ up_providerUserId a = up_providerUserId b.

Definition with_emailVerified (flag : option bool) (p : NormalisedProfile)
  : NormalisedProfile :=
  mkProfile (np_id p) (np_displayName p) (np_avatarUrl p) (np_email p)
            (np_locale p) flag.

(** The events of the session carrier. *)
Definition session_event (e : Event) : bool :=
  match e with
  | EvSessionRead _ | EvSessionDestroy _ | EvClearCookie _ => true
  | _ => false
  end.

(** The events of the account store. *)
Definition store_event (e : Event) : bool :=
  match e with
  | EvStore _ => true
  | _ => false
  end.

(** [w'] comes after [w] by steps that leave the session carrier alone:
    same sessions, same cookies, and only other events added. *)
Definition frame (w w' : World) : Prop :=
  sessions w' = sessions w
  /\ cookies w' = cookies w
  /\ faults w' = faults w
  /\ exists evs, trace w' = trace w ++ evs
                 /\ Forall (fun e => session_event e = false) evs.

Definition keeps_sessions {A} (m : M World A) : Prop :=
  forall w r w', m w = (r, w') -> frame w w'.

(** [w'] comes after [w] without any call to the store: same tables, and
    only other events added. *)
Definition untouched (w w' : World) : Prop :=
  users w' = users w
  /\ userProviders w' = userProviders w
  /\ authenticators w' = authenticators w
  /\ next_uuid w' = next_uuid w
  /\ exists evs, trace w' = trace w ++ evs
                 /\ Forall (fun e => store_event e = false) evs.

(** The enablement flag [createGrantConfig] reads for an entry of
    [PROVIDERS_CONFIG]. *)
Definition enabled `{env : Collaborators} (provider : string) : bool :=
  castBooleanEnv ("AUTH_PROVIDER_" +:+ Utils.providerEnvName provider
                  +:+ "_ENABLED").

Definition with_allowedRoles (v : option RolesValue)
    (o : RegistrationOptions) : RegistrationOptions :=
  mkOptions (opt_locale o) (opt_displayName o) v (opt_defaultRole o)
            (opt_metadata o).


(** The error code an answer carries: the [error] detail of a redirect,
    or the code given to [sendError]. *)
Definition reported_error (r : Res Response) : option string :=
  match r with
  | Ok (Redirect _ details) =>
      snd <$> List.find (fun kv => String.eqb (fst kv) "error") details
  | Ok (SendError code _ _) => Some code
  | _ => None
  end.

(** What a run throws, if it throws. *)
Definition thrown_of {A} (r : Res A) : option Js.thrown :=
  match r with
  | Throw e => Some e
  | Ok _ => None
  end.

(** A computation swallows no rejection of the store: a call made during
    a run that rejects is what the run throws. *)
Definition surfaces {A} (m : M World A) : Prop :=
  forall w r w',
    m w = (r, w') ->
    faults w' = faults w
    /\ exists evs,
         trace w' = trace w ++ evs
         /\ forall op e,
              EvStore op ∈ evs -> faults w op = Some (Rejects e) ->
              thrown_of r = Some e.

(* ===================================================================== *)
(** * Vocabulary of the further properties                                 *)
(* ===================================================================== *)

(** The store answers truthfully or rejects: no call resolves empty where
    there is something to find. *)
Definition truthful (w : World) : Prop :=
  forall op, faults w op <> Some YieldsNull.

(** What one run of account resolution for [(provider, providerUserId)]
    can do to the tables: nothing, update the tokens behind the link found,
    append a link to a user there is, or append a user and its link. *)
Inductive effect (provider providerUserId : string) (w w' : World) : Prop :=
| NoChange :
    users w' = users w ->
    userProviders w' = userProviders w ->
    next_uuid w' = next_uuid w ->
    effect provider providerUserId w w'
| TokensUpdated l rest at_ rt :
    links_of provider providerUserId w = l :: rest ->
    users w' = users w ->
    userProviders w' =
      List.map (token_update at_ rt (up_id l)) (userProviders w) ->
    next_uuid w' = next_uuid w ->
    effect provider providerUserId w w'
| LinkAdded u at_ rt :
    links_of provider providerUserId w = [] ->
    u ∈ users w ->
    users w' = users w ->
    userProviders w' =
      userProviders w
      ++ [mkUserProvider (next_uuid w) (user_id u) provider providerUserId
                         at_ rt] ->
    next_uuid w' = N.succ (next_uuid w) ->
    effect provider providerUserId w w'
| UserAdded input at_ rt :
    links_of provider providerUserId w = [] ->
    users w' = users w ++ [new_user input (next_uuid w)] ->
    userProviders w' =
      userProviders w
      ++ [mkUserProvider (N.succ (next_uuid w)) (next_uuid w) provider
                         providerUserId at_ rt] ->
    next_uuid w' = N.succ (N.succ (next_uuid w)) ->
    effect provider providerUserId w w'.

(** The primary keys of the two tables: no id twice, and every id below
    the next id the store draws. *)
Definition keys_fresh (w : World) : Prop :=
  NoDup (List.map user_id (users w))
  /\ NoDup (List.map up_id (userProviders w))
  /\ Forall (fun u => (user_id u < next_uuid w)%N) (users w)
  /\ Forall (fun l => (up_id l < next_uuid w)%N) (userProviders w).

(** At most one identity link for every provider identity. *)
Definition links_unique (w : World) : Prop :=
  forall provider providerUserId,
    length (links_of provider providerUserId w) <= 1.

(** Every identity link references a user of the user table. *)
Definition links_reference_users (w : World) : Prop :=
  forall l, l ∈ userProviders w -> exists u, find_user (up_userId l) w = Some u.

(** The provider, the response and the raw profile Grant left in a
    session. *)
Definition flow_provider (s : Session) : option string :=
  ses_grant s ≫= gs_provider.

Definition flow_response (s : Session) : option GrantResponse :=
  ses_grant s ≫= gs_response.

(** The session holds what the callback needs to go on: a provider and a
    response with a profile. *)
Definition complete_flow (s : Session) : bool :=
  Js.truthy (flow_provider s)
  && from_option Js.json_truthy false (flow_response s ≫= gr_profile).

(** Where an answer sends the browser. *)
Definition redirect_target (r : Response) : option string :=
  match r with
  | Redirect target _ | RedirectRefreshToken target _ => Some target
  | SendError _ target _ => target
  | _ => None
  end.

(** The scopes a Grant entry asks for, as a list. *)
Definition scopes_of (g : GrantProvider) : list string :=
  match scope g with
  | Some (ScopeArray l) => l
  | Some (ScopeString s) => [s]
  | None => []
  end.

(** The custom scopes [createGrantConfig] reads for an entry of
    [PROVIDERS_CONFIG]. *)
Definition custom_scope `{env : Collaborators} (provider : string)
  : list string :=
  castStringArrayEnv ("AUTH_PROVIDER_" +:+ Utils.providerEnvName provider
                      +:+ "_SCOPE").

(** An entry holds a complete credential pair. *)
Definition configured (g : GrantProvider) : bool :=
  Js.truthy (client_id g) && Js.truthy (client_secret g)
  || Js.truthy (key g) && Js.truthy (secret g).

(** Two entries with the same credentials. *)
Definition same_credentials (a b : GrantProvider) : Prop :=
  client_id a = client_id b /\ client_secret a = client_secret b
  /\ key a = key b /\ secret a = secret b.

(** The value of a hexadecimal digit. *)
Definition hex_value (c : ascii) : option nat :=
  let n := nat_of_ascii c in
  if ((48 <=? n) && (n <=? 57))%nat then Some (n - 48)
  else if ((65 <=? n) && (n <=? 70))%nat then Some (n - 55)
  else if ((97 <=? n) && (n <=? 102))%nat then Some (n - 87)
  else None.

(** How the receiver of a search parameter reads it back: [+] is a space
    and [%XX] is a byte. *)
Fixpoint urldecode (s : string) : string :=
  match s with
  | EmptyString => EmptyString
  | String c rest =>
      if Ascii.eqb c "+" then String " " (urldecode rest)
      else if Ascii.eqb c "%" then
        match rest with
        | String h (String l rest') =>
            match hex_value h, hex_value l with
            | Some a, Some b =>
                String (ascii_of_nat (16 * a + b)) (urldecode rest')
            | _, _ => String c (urldecode rest)
            end
        | _ => String c (urldecode rest)
        end
      else String c (urldecode rest)
  end.

(** The characters a serialised search parameter is made of. *)
Definition url_safe (c : ascii) : bool :=
  NativeUrl.unreserved c || Ascii.eqb c "+" || Ascii.eqb c "%".

Fixpoint string_forall (p : ascii -> bool) (s : string) : bool :=
  match s with
  | EmptyString => true
  | String c rest => p c && string_forall p rest
  end.

(** A seven-bit character: one byte, one UTF-16 code unit. *)
Definition seven_bit (c : ascii) : bool := (nat_of_ascii c <? 128)%nat.

(** A value that has no [slice]: a number, a boolean, an object. *)
Definition no_slice (v : option Js.json) : bool :=
  match v with
  | Some (Js.JNum _) | Some (Js.JBool _) | Some (Js.JObj _) => true
  | _ => false
  end.

(** The answers of Google on which the native handler throws outside its
    [try]: an answer of unknown format that has no rendering, and user
    data whose [locale] has no [slice]. *)
Definition escapes (payload : Js.json) : bool :=
  negb (Native.isErrorResponse payload)
  && (if Native.isUserData payload
      then no_slice (Js.get "locale" payload)
      else bool_decide (Js.to_string payload = None)).

(** What the first copy of the native handler answers, read off the
    answer of the second copy to the same request: an error sent as an
    object [{ error }] is sent as the text of [error]; an answer of unknown
    format, sent back as [data], is sent as a text with its rendering, or
    makes the handler throw when it has none; any other answer is the
    same. *)
Definition as_text (payload : Js.json) (second : Res Response)
  : Res Response :=
  match second with
  | Ok (Send (BodyError message None)) => Ok (Send (BodyText message))
  | Ok (Send (BodyError _ (Some _))) =>
      match Js.to_string payload with
      | Some rendering =>
          Ok (Send (BodyText ("unknown format for google response: "
                              +:+ rendering)))
      | None => Throw (Js.Error "Cannot convert object to primitive value")
      end
  | _ => second
  end.

(** The occurrences of a character in a string. *)
Fixpoint count_char (c : ascii) (s : string) : nat :=
  match s with
  | EmptyString => 0
  | String d rest => (if Ascii.eqb d c then 1 else 0) + count_char c rest
  end.

(* ===================================================================== *)
(** * Running the monad                                                    *)
(* ===================================================================== *)

Section MonadLaws.
Context {W : Type}.

Lemma bind_ok {A B} (m : M W A) (k : A -> M W B) w a w' :
  m w = (Ok a, w') -> (m ≫= k) w = k a w'.
Proof. intros E. unfold mbind, M_bind, bind. now rewrite E. Qed.

Lemma bind_throw {A B} (m : M W A) (k : A -> M W B) w e w' :
  m w = (Throw e, w') -> (m ≫= k) w = (Throw e, w').
Proof. intros E. unfold mbind, M_bind, bind. now rewrite E. Qed.

Lemma try_catch_ok {A} (m : M W A) h w a w' :
  m w = (Ok a, w') -> try_catch m h w = (Ok a, w').
Proof. intros E. unfold try_catch. now rewrite E. Qed.

Lemma try_catch_throw {A} (m : M W A) h w e w' :
  m w = (Throw e, w') -> try_catch m h w = h e w'.
Proof. intros E. unfold try_catch. now rewrite E. Qed.

End MonadLaws.

Ltac step L F := erewrite bind_ok by (apply L; exact F).
Ltac run_monad :=
  unfold mbind, M_bind, bind, mret, M_ret, ret, log, modify, traced, throw,
         gets; cbn.

Lemma truthy_Some (v : option string) :
  Js.truthy v = true <-> exists s, v = Some s /\ s <> "".
Proof.
  split.
  - destruct v as [s|]; simpl; [|discriminate].
    intros Hs. exists s. split; [reflexivity|]. intros ->. discriminate.
  - intros (s & -> & Hs). simpl. now destruct (String.eqb_spec s "").
Qed.

(** ** The calls to the store, one by one *)

Lemma call_ok {A} op (empty : A) body w :
  faults w op = None -> call op empty body w = body (emit (EvStore op) w).
Proof. intros F. unfold call. cbn. now rewrite F. Qed.

Lemma call_rejects {A} op (empty : A) body w e :
  faults w op = Some (Rejects e) ->
  call op empty body w = (Throw e, emit (EvStore op) w).
Proof. intros F. unfold call. cbn. now rewrite F. Qed.

Lemma call_null {A} op (empty : A) body w :
  faults w op = Some YieldsNull ->
  call op empty body w = (Ok empty, emit (EvStore op) w).
Proof. intros F. unfold call. cbn. now rewrite F. Qed.

Lemma authUserProviders_run provider id w :
  faults w OpAuthUserProviders = None ->
  authUserProviders provider id w =
  (Ok (List.map (fun l => (l, find_user (up_userId l) w))
                (links_of provider id w)),
   emit (EvStore OpAuthUserProviders) w).
Proof. intros F. unfold authUserProviders. now rewrite call_ok. Qed.

Lemma updateAuthUserprovider_run id at_ rt w :
  faults w OpUpdateAuthUserprovider = None ->
  updateAuthUserprovider id at_ rt w =
  (Ok tt, set_userProviders (List.map (token_update at_ rt id))
            (emit (EvStore OpUpdateAuthUserprovider) w)).
Proof. intros F. unfold updateAuthUserprovider. now rewrite call_ok. Qed.

Lemma getUserByEmail_run email w :
  faults w OpGetUserByEmail = None ->
  getUserByEmail email w =
  (Ok (user_with_email email w), emit (EvStore OpGetUserByEmail) w).
Proof. intros F. unfold getUserByEmail. now rewrite call_ok. Qed.

Lemma insertUserProviderToUser_run userId provider id at_ rt w :
  faults w OpInsertUserProviderToUser = None ->
  insertUserProviderToUser userId provider id at_ rt w =
  (Ok (Some (mkUserProvider (next_uuid w) userId provider id at_ rt)),
   set_userProviders
     (fun ls => ls ++ [mkUserProvider (next_uuid w) userId provider id at_ rt])
     (set_next_uuid (N.succ (next_uuid w))
        (emit (EvStore OpInsertUserProviderToUser) w))).
Proof. intros F. unfold insertUserProviderToUser. now rewrite call_ok. Qed.

Lemma insertUser_run input provider id at_ rt w :
  faults w OpInsertUser = None ->
  insertUser input provider id at_ rt w =
  (Ok (Some (new_user input (next_uuid w))),
   set_userProviders
     (fun ls => ls ++ [mkUserProvider (N.succ (next_uuid w)) (next_uuid w)
                                      provider id at_ rt])
     (set_users (fun us => us ++ [new_user input (next_uuid w)])
        (set_next_uuid (N.succ (N.succ (next_uuid w)))
           (set_next_uuid (N.succ (next_uuid w))
              (emit (EvStore OpInsertUser) w))))).
Proof. intros F. unfold insertUser. now rewrite call_ok. Qed.

Lemma getNewRefreshToken_run userId w :
  faults w OpGetNewRefreshToken = None ->
  getNewRefreshToken userId w =
  (Ok (Some (next_uuid w)),
   set_next_uuid (N.succ (next_uuid w))
     (emit (EvStore OpGetNewRefreshToken) w)).
Proof. intros F. unfold getNewRefreshToken. now rewrite call_ok. Qed.

(** ** No rejection of the store is swallowed *)

Lemma surfaces_pure {A} (m : M World A) :
  (forall w, faults (m w).2 = faults w /\ trace (m w).2 = trace w) ->
  surfaces m.
Proof.
  intros Hm w r w' E. destruct (Hm w) as [Hf Ht]. rewrite E in Hf, Ht.
  cbn in Hf, Ht. split; [exact Hf|]. exists []. rewrite app_nil_r.
  split; [exact Ht|]. intros op e Hin. now apply elem_of_nil in Hin.
Qed.

Lemma surfaces_ret {A} (a : A) : surfaces (mret a : M World A).
Proof. apply surfaces_pure. intros w. split; reflexivity. Qed.

Lemma surfaces_throw {A} e : surfaces (throw e : M World A).
Proof. apply surfaces_pure. intros w. split; reflexivity. Qed.

Lemma surfaces_gets {A} (f : World -> A) : surfaces (gets f).
Proof. apply surfaces_pure. intros w. split; reflexivity. Qed.

Lemma surfaces_bind {A B} (m : M World A) (k : A -> M World B) :
  surfaces m -> (forall a, surfaces (k a)) -> surfaces (m ≫= k).
Proof.
  intros Hm Hk w r w' E. unfold mbind, M_bind, bind in E.
  destruct (m w) as [[a|e0] w1] eqn:Em.
  - destruct (Hm _ _ _ Em) as (Hf1 & evs1 & Ht1 & Hs1).
    destruct (Hk a _ _ _ E) as (Hf2 & evs2 & Ht2 & Hs2).
    split; [congruence|]. exists (evs1 ++ evs2).
    split; [rewrite Ht2, Ht1; apply eq_sym, app_assoc|].
    intros op e Hin Hop. apply elem_of_app in Hin as [Hin|Hin].
    + specialize (Hs1 _ _ Hin Hop). discriminate.
    + apply (Hs2 _ _ Hin). now rewrite Hf1.
  - injection E as <- <-.
    destruct (Hm _ _ _ Em) as (Hf1 & evs1 & Ht1 & Hs1).
    split; [exact Hf1|]. exists evs1. split; [exact Ht1|exact Hs1].
Qed.

Lemma surfaces_call {A} op (empty : A) body :
  surfaces body -> surfaces (call op empty body).
Proof.
  intros Hb w r w' E. unfold call in E. cbn in E.
  destruct (faults w op) as [[e0|]|] eqn:F.
  - injection E as <- <-. split; [reflexivity|]. exists [EvStore op].
    split; [reflexivity|]. intros op' e Hin Hop.
    apply list_elem_of_singleton in Hin. injection Hin as ->. cbn. congruence.
  - injection E as <- <-. split; [reflexivity|]. exists [EvStore op].
    split; [reflexivity|]. intros op' e Hin Hop.
    apply list_elem_of_singleton in Hin. injection Hin as ->. congruence.
  - destruct (Hb _ _ _ E) as (Hf & evs & Ht & Hs).
    split; [exact Hf|]. exists (EvStore op :: evs).
    split; [rewrite Ht; cbn; now rewrite <- app_assoc|].
    intros op' e Hin Hop. apply elem_of_cons in Hin as [Hin|Hin].
    + injection Hin as ->. congruence.
    + apply (Hs _ _ Hin). exact Hop.
Qed.

Ltac surfaces_step :=
  first
    [ apply surfaces_ret | apply surfaces_throw | apply surfaces_gets
    | apply surfaces_call
    | apply surfaces_bind; [| intros ?]
    | apply surfaces_pure; intros ?; split; reflexivity
    | match goal with
      | |- surfaces (match ?x with _ => _ end) => destruct x
      | |- surfaces (if ?b then _ else _) => destruct b
      end ].

(** ** Steps that leave the session carrier alone *)

Lemma frame_refl w : frame w w.
Proof.
  repeat split. exists []. rewrite app_nil_r. split; [reflexivity|constructor].
Qed.

Lemma frame_trans w1 w2 w3 : frame w1 w2 -> frame w2 w3 -> frame w1 w3.
Proof.
  intros (S1 & C1 & F1 & e1 & T1 & A1) (S2 & C2 & F2 & e2 & T2 & A2).
  repeat split; try congruence.
  exists (e1 ++ e2). split; [rewrite T2, T1; apply eq_sym, app_assoc|].
  apply Forall_app; split; assumption.
Qed.

Lemma frame_emit w e : session_event e = false -> frame w (emit e w).
Proof.
  intros He. repeat split. exists [e]. split; [reflexivity|].
  constructor; [exact He | constructor].
Qed.

Lemma keeps_pure {A} (m : M World A) :
  (forall w, frame w (m w).2) -> keeps_sessions m.
Proof. intros Hm w r w' E. specialize (Hm w). now rewrite E in Hm. Qed.

Lemma keeps_ret {A} (a : A) : keeps_sessions (mret a : M World A).
Proof. apply keeps_pure. intros w. apply frame_refl. Qed.

Lemma keeps_throw {A} e : keeps_sessions (throw e : M World A).
Proof. apply keeps_pure. intros w. apply frame_refl. Qed.

Lemma keeps_gets {A} (f : World -> A) : keeps_sessions (gets f).
Proof. apply keeps_pure. intros w. apply frame_refl. Qed.

Lemma keeps_log level message : keeps_sessions (log level message).
Proof. apply keeps_pure. intros w. now apply frame_emit. Qed.

Lemma keeps_bind {A B} (m : M World A) (k : A -> M World B) :
  keeps_sessions m -> (forall a, keeps_sessions (k a)) ->
  keeps_sessions (m ≫= k).
Proof.
  intros Hm Hk w r w' E. unfold mbind, M_bind, bind in E.
  destruct (m w) as [[a|e0] w1] eqn:Em.
  - eapply frame_trans; [exact (Hm _ _ _ Em) | exact (Hk _ _ _ _ E)].
  - injection E as <- <-. exact (Hm _ _ _ Em).
Qed.

Lemma keeps_try_catch {A} (m : M World A) h :
  keeps_sessions m -> (forall e, keeps_sessions (h e)) ->
  keeps_sessions (try_catch m h).
Proof.
  intros Hm Hh w r w' E. unfold try_catch in E.
  destruct (m w) as [[a|e0] w1] eqn:Em.
  - injection E as <- <-. exact (Hm _ _ _ Em).
  - eapply frame_trans; [exact (Hm _ _ _ Em) | exact (Hh _ _ _ _ E)].
Qed.

Lemma keeps_call {A} op (empty : A) body :
  keeps_sessions body -> keeps_sessions (call op empty body).
Proof.
  intros Hb w r w' E. unfold call in E. cbn in E.
  destruct (faults w op) as [[e0|]|] eqn:F.
  - injection E as <- <-. now apply frame_emit.
  - injection E as <- <-. now apply frame_emit.
  - eapply frame_trans; [|exact (Hb _ _ _ E)]. now apply frame_emit.
Qed.

Ltac keeps_step :=
  first
    [ apply keeps_ret | apply keeps_throw | apply keeps_gets
    | apply keeps_log | apply keeps_call
    | apply keeps_bind; [| intros ?]
    | apply keeps_try_catch; [| intros ?]
    | apply keeps_pure; intros ?; unfold frame; cbn;
        repeat split; exists []; split;
        [symmetry; apply app_nil_r | constructor]
    | match goal with
      | |- keeps_sessions (match ?x with _ => _ end) => destruct x
      | |- keeps_sessions (if ?b then _ else _) => destruct b
      end ].

(** ** The three branches of [findOrCreateUser] *)

Section Resolution.
Context `{env : Collaborators}.

Lemma transformOauthProfile_run profile options email w :
  emailValidator (np_email profile) = Ok email ->
  Utils.transformOauthProfile profile options w =
  (Ok (Utils.transformOauthProfile_with profile options email), w).
Proof. intros E. unfold Utils.transformOauthProfile. now rewrite E. Qed.

Lemma transformOauthProfile_rejects profile options e w :
  emailValidator (np_email profile) = Throw e ->
  Utils.transformOauthProfile profile options w = (Throw e, w).
Proof. intros E. unfold Utils.transformOauthProfile. now rewrite E. Qed.

Lemma run_update provider profile tokens options w l rest :
  Js.truthy (np_id profile) = true ->
  faults w OpAuthUserProviders = None ->
  faults w OpUpdateAuthUserprovider = None ->
  links_of provider (default "" (np_id profile)) w = l :: rest ->
  Utils.findOrCreateUser provider profile tokens options w =
  (Ok (find_user (up_userId l) w),
   set_userProviders
     (List.map (token_update (Utils.accessToken tokens)
                             (Utils.refreshToken tokens) (up_id l)))
     (emit (EvStore OpUpdateAuthUserprovider)
        (emit (EvStore OpAuthUserProviders) w))).
Proof.
  intros Hid F1 F2 Hl.
  unfold Utils.findOrCreateUser. rewrite Hid. cbn [negb].
  step authUserProviders_run F1. rewrite Hl. cbn [List.map].
  step updateAuthUserprovider_run F2.
  reflexivity.
Qed.

Lemma run_link provider profile tokens options w u :
  Js.truthy (np_id profile) = true ->
  faults w OpAuthUserProviders = None ->
  faults w OpGetUserByEmail = None ->
  faults w OpInsertUserProviderToUser = None ->
  links_of provider (default "" (np_id profile)) w = [] ->
  Js.truthy (np_email profile) = true ->
  user_with_email (default "" (np_email profile)) w = Some u ->
  Utils.findOrCreateUser provider profile tokens options w =
  (Ok (Some u),
   set_userProviders
     (fun ls => ls ++ [new_link (next_uuid w) (user_id u) provider
                                (default "" (np_id profile)) tokens])
     (set_next_uuid (N.succ (next_uuid w))
        (emit (EvStore OpInsertUserProviderToUser)
           (emit (EvStore OpGetUserByEmail)
              (emit (EvStore OpAuthUserProviders) w))))).
Proof.
  intros Hid F1 F2 F3 Hl He Hu.
  unfold Utils.findOrCreateUser. rewrite Hid. cbn [negb].
  step authUserProviders_run F1. rewrite Hl. cbn [List.map]. rewrite He.
  step getUserByEmail_run F2.
  change (user_with_email _ (emit _ w))
    with (user_with_email (default "" (np_email profile)) w).
  rewrite Hu.
  step insertUserProviderToUser_run F3.
  reflexivity.
Qed.

Lemma run_create provider profile tokens options w email :
  Js.truthy (np_id profile) = true ->
  faults w OpAuthUserProviders = None ->
  faults w OpGetUserByEmail = None ->
  faults w OpInsertUser = None ->
  links_of provider (default "" (np_id profile)) w = [] ->
  (Js.truthy (np_email profile) = false \/
   user_with_email (default "" (np_email profile)) w = None) ->
  emailValidator (np_email profile) = Ok email ->
  let user :=
    new_user (Utils.transformOauthProfile_with profile options email)
             (next_uuid w) in
  exists w1,
    Utils.findOrCreateUser provider profile tokens options w =
    (Ok (Some user),
     set_userProviders
       (fun ls => ls ++ [new_link (N.succ (next_uuid w)) (next_uuid w)
                                  provider (default "" (np_id profile))
                                  tokens])
       (set_users (fun us => us ++ [user])
          (set_next_uuid (N.succ (N.succ (next_uuid w))) w1)))
    /\ users w1 = users w /\ userProviders w1 = userProviders w.
Proof.
  intros Hid F1 F2 F3 Hl He Hv user.
  unfold Utils.findOrCreateUser. rewrite Hid. cbn [negb].
  step authUserProviders_run F1. rewrite Hl. cbn [List.map].
  destruct (Js.truthy (np_email profile)) eqn:E.
  - destruct He as [He|He]; [discriminate|].
    step getUserByEmail_run F2.
    change (user_with_email _ (emit _ w))
      with (user_with_email (default "" (np_email profile)) w).
    rewrite He.
    erewrite bind_ok by (apply transformOauthProfile_run; exact Hv).
    erewrite insertUser_run by exact F3.
    eexists. split; [reflexivity|]. split; reflexivity.
  - erewrite bind_ok by (apply transformOauthProfile_run; exact Hv).
    erewrite insertUser_run by exact F3.
    eexists. split; [reflexivity|]. split; reflexivity.
Qed.

Lemma run_rejected provider profile tokens options w e :
  Js.truthy (np_id profile) = true ->
  no_faults w ->
  links_of provider (default "" (np_id profile)) w = [] ->
  (Js.truthy (np_email profile) = false \/
   user_with_email (default "" (np_email profile)) w = None) ->
  emailValidator (np_email profile) = Throw e ->
  exists w1,
    Utils.findOrCreateUser provider profile tokens options w = (Throw e, w1)
    /\ users w1 = users w /\ userProviders w1 = userProviders w
    /\ next_uuid w1 = next_uuid w.
Proof.
  intros Hid F Hl He Hv.
  unfold Utils.findOrCreateUser. rewrite Hid. cbn [negb].
  step authUserProviders_run (F OpAuthUserProviders). rewrite Hl.
  cbn [List.map].
  destruct (Js.truthy (np_email profile)) eqn:E.
  - destruct He as [He|He]; [discriminate|].
    step getUserByEmail_run (F OpGetUserByEmail).
    change (user_with_email _ (emit _ w))
      with (user_with_email (default "" (np_email profile)) w).
    rewrite He.
    erewrite bind_throw by (apply transformOauthProfile_rejects; exact Hv).
    eexists. repeat split; reflexivity.
  - erewrite bind_throw by (apply transformOauthProfile_rejects; exact Hv).
    eexists. repeat split; reflexivity.
Qed.

(** C1, as amended. Account resolution with an external id present, when
    the store answers: the outcome is decided in this order. (1) An
    identity link of [(provider, externalId)] exists: its tokens are
    updated and the user it references is returned. (2) Otherwise the
    profile has an email and a user holds it: a link to that user is
    inserted and that user is returned. (3) Otherwise the email of the
    profile is validated: when it passes, a user is created from the
    profile with its first link, and returned; when it does not,
    resolution throws the error of the validation and creates neither a
    user nor a link. *)
Theorem findOrCreateUser_precedence provider profile tokens options w :
  Js.truthy (np_id profile) = true ->
  no_faults w ->
  let id := default "" (np_id profile) in
  let email := default "" (np_email profile) in
  let run := Utils.findOrCreateUser provider profile tokens options w in
  (forall l rest,
      links_of provider id w = l :: rest ->
      run.1 = Ok (find_user (up_userId l) w)
      /\ users run.2 = users w
      /\ userProviders run.2 =
         List.map (token_update (Utils.accessToken tokens)
                                (Utils.refreshToken tokens) (up_id l))
                  (userProviders w))
  /\ (forall u,
         links_of provider id w = [] ->
         Js.truthy (np_email profile) = true ->
         user_with_email email w = Some u ->
         run.1 = Ok (Some u)
         /\ users run.2 = users w
         /\ userProviders run.2 =
            userProviders w
            ++ [new_link (next_uuid w) (user_id u) provider id tokens])
  /\ (forall validated,
         links_of provider id w = [] ->
         Js.truthy (np_email profile) = false
         \/ user_with_email email w = None ->
         emailValidator (np_email profile) = Ok validated ->
         let user :=
           new_user
             (Utils.transformOauthProfile_with profile options validated)
             (next_uuid w) in
         run.1 = Ok (Some user)
         /\ users run.2 = users w ++ [user]
         /\ userProviders run.2 =
            userProviders w
            ++ [new_link (N.succ (next_uuid w)) (user_id user) provider id
                         tokens])
  /\ (forall e,
         links_of provider id w = [] ->
         Js.truthy (np_email profile) = false
         \/ user_with_email email w = None ->
         emailValidator (np_email profile) = Throw e ->
         run.1 = Throw e
         /\ users run.2 = users w
         /\ userProviders run.2 = userProviders w)
  /\ ((exists l rest, links_of provider id w = l :: rest)
      \/ (links_of provider id w = []
          /\ Js.truthy (np_email profile) = true
          /\ exists u, user_with_email email w = Some u)
      \/ (links_of provider id w = []
          /\ (Js.truthy (np_email profile) = false
              \/ user_with_email email w = None))).
Proof.
  intros Hid F id email run. subst id email run.
  split; [|split; [|split; [|split]]].
  - intros l rest Hl.
    rewrite (run_update _ _ _ _ _ _ _ Hid (F _) (F _) Hl).
    repeat split; reflexivity.
  - intros u Hl He Hu.
    rewrite (run_link _ _ _ _ _ _ Hid (F _) (F _) (F _) Hl He Hu).
    repeat split; reflexivity.
  - intros validated Hl He Hv user.
    destruct (run_create provider profile tokens options w validated
                Hid (F _) (F _) (F _) Hl He Hv) as (w1 & -> & Hu & Hp).
    cbn. rewrite Hu, Hp. repeat split; reflexivity.
  - intros e Hl He Hv.
    destruct (run_rejected provider profile tokens options w e Hid F Hl He
                Hv) as (w1 & -> & Hu & Hp & _).
    cbn [fst snd]. repeat split; assumption.
  - destruct (links_of provider (default "" (np_id profile)) w) as [|l rest].
    + right.
      destruct (Js.truthy (np_email profile)); [|right; auto].
      destruct (user_with_email (default "" (np_email profile)) w) as [u|];
        [left; eauto | right; auto].
    + left. eauto.
Qed.

(** C5. A profile whose external id has no identity link and whose email
    is held by a user resolves to that user: a link to it is inserted, no
    user is created, and the profile's [emailVerified] flag, whatever it
    holds, plays no part. *)
Theorem findOrCreateUser_links_by_email provider profile tokens options w u
    (flag : option bool) :
  Js.truthy (np_id profile) = true ->
  no_faults w ->
  links_of provider (default "" (np_id profile)) w = [] ->
  Js.truthy (np_email profile) = true ->
  user_with_email (default "" (np_email profile)) w = Some u ->
  let run :=
    Utils.findOrCreateUser provider (with_emailVerified flag profile)
                           tokens options w in
  run.1 = Ok (Some u)
  /\ users run.2 = users w
  /\ userProviders run.2 =
     userProviders w
     ++ [new_link (next_uuid w) (user_id u) provider
                  (default "" (np_id profile)) tokens].
Proof.
  intros Hid F Hl He Hu run. subst run.
  rewrite (run_link provider (with_emailVerified flag profile) tokens
             options w u Hid (F _) (F _) (F _) Hl He Hu).
  repeat split; reflexivity.
Qed.

Lemma token_update_same_link at_ rt id row :
  same_link row (token_update at_ rt id row).
Proof.
  unfold token_update, same_link.
  destruct (N.eqb (up_id row) id); repeat split; reflexivity.
Qed.

Lemma token_update_other at_ rt id row :
  up_id row <> id -> token_update at_ rt id row = row.
Proof.
  intros Hne. unfold token_update.
  destruct (N.eqb_spec (up_id row) id); [contradiction | reflexivity].
Qed.

(** C8. When an identity link of [(provider, externalId)] exists, account
    resolution returns the user the link references and changes nothing
    but the stored access and refresh tokens of that link: the user table
    is the same, every other link is the same, and the link keeps its id,
    user, provider and external id. *)
Theorem findOrCreateUser_update_frame provider profile tokens options w l
    rest :
  Js.truthy (np_id profile) = true ->
  no_faults w ->
  links_of provider (default "" (np_id profile)) w = l :: rest ->
  let run := Utils.findOrCreateUser provider profile tokens options w in
  run.1 = Ok (find_user (up_userId l) w)
  /\ users run.2 = users w
  /\ authenticators run.2 = authenticators w
  /\ length (userProviders run.2) = length (userProviders w)
  /\ forall i row,
       userProviders w !! i = Some row ->
       exists row',
         userProviders run.2 !! i = Some row'
         /\ same_link row row'
         /\ (up_id row <> up_id l -> row' = row)
         /\ (up_id row = up_id l ->
             row' = set_tokens (Utils.accessToken tokens)
                               (Utils.refreshToken tokens) row).
Proof.
  intros Hid F Hl run. subst run.
  rewrite (run_update _ _ _ _ _ _ _ Hid (F _) (F _) Hl).
  cbn [fst snd users authenticators userProviders set_userProviders emit].
  split; [reflexivity|]. split; [reflexivity|]. split; [reflexivity|].
  split; [apply length_map|].
  intros i row Hrow.
  exists (token_update (Utils.accessToken tokens) (Utils.refreshToken tokens)
                       (up_id l) row).
  split; [|split; [|split]].
  - change (List.map ?f ?x) with (f <$> x).
    rewrite list_lookup_fmap, Hrow. reflexivity.
  - apply token_update_same_link.
  - apply token_update_other.
  - intros E. unfold token_update. rewrite E, N.eqb_refl. reflexivity.
Qed.

Lemma surfaces_findOrCreateUser provider profile tokens options :
  surfaces (Utils.findOrCreateUser provider profile tokens options).
Proof.
  unfold Utils.findOrCreateUser, Utils.transformOauthProfile,
    authUserProviders, updateAuthUserprovider, getUserByEmail,
    insertUserProviderToUser, insertUser, fresh_uuid, modify.
  repeat surfaces_step.
Qed.

End Resolution.

(* ===================================================================== *)
(** * The redirect flow                                                    *)
(* ===================================================================== *)

Lemma keeps_traced {A} e (outcome : Res A) :
  session_event e = false -> keeps_sessions (traced e outcome).
Proof. intros He. apply keeps_pure. intros w. now apply frame_emit. Qed.

Section Routes.
Context `{env : Collaborators}.

Lemma keeps_createUser provider tokens profile options :
  keeps_sessions (Utils.createUser provider tokens profile options).
Proof.
  unfold Utils.createUser, Utils.findOrCreateUser,
    Utils.transformOauthProfile, getNewRefreshToken,
    authUserProviders, updateAuthUserprovider, getUserByEmail,
    insertUserProviderToUser, insertUser, fresh_uuid, modify.
  repeat keeps_step.
Qed.

Lemma read_session_run sid w :
  Router.read_session sid w =
  (Ok (default empty_session (sessions w !! sid)),
   emit (EvSessionRead sid) w).
Proof. reflexivity. Qed.

Lemma destroy_session_run sid w :
  Router.destroy_session sid w =
  (Ok tt,
   emit (EvClearCookie Router.SESSION_NAME)
     (set_cookies (delete Router.SESSION_NAME)
        (emit (EvSessionDestroy sid) (set_sessions (delete sid) w)))).
Proof. reflexivity. Qed.

(** A callback that finds no flow state under its session id answers
    [internal-error] to the default client url, without any call to the
    store. *)
Lemma callback_without_flow sid query w :
  sessions w !! sid = None ->
  let run := Router.callback sid query w in
  run.1 = Ok (Router.sendErrorFromQuery query None AUTH_CLIENT_URL
                (Some "internal-error") None)
  /\ untouched w run.2.
Proof.
  intros Hs run. subst run. unfold Router.callback.
  erewrite bind_ok by apply read_session_run.
  erewrite bind_ok by apply destroy_session_run.
  rewrite Hs. run_monad.
  split; [reflexivity|].
  repeat split.
  exists [EvSessionRead sid; EvSessionDestroy sid;
          EvClearCookie Router.SESSION_NAME; EvLog "warn" "No Oauth provider"].
  split; [cbn; now rewrite <- !app_assoc | repeat constructor].
Qed.

(** C2. A callback reads the flow state of its session once, then
    destroys the session and clears the session cookie, before anything
    else it does: whatever the path, the session is gone from the store
    and the cookie is cleared when the callback ends, the trace starts
    with the read, the destruction and the clearing, and nothing after
    touches the session carrier. A second callback under the same session
    id finds no flow state: it answers [internal-error] and resolves no
    account. *)
Theorem callback_destroys_session sid query w :
  let run := Router.callback sid query w in
  sessions run.2 !! sid = None
  /\ cookies run.2 !! Router.SESSION_NAME = None
  /\ (exists rest,
         trace run.2 =
         trace w ++ [EvSessionRead sid; EvSessionDestroy sid;
                     EvClearCookie Router.SESSION_NAME] ++ rest
         /\ Forall (fun e => session_event e = false) rest)
  /\ (forall query',
         let again := Router.callback sid query' run.2 in
         again.1 = Ok (Router.sendErrorFromQuery query' None AUTH_CLIENT_URL
                         (Some "internal-error") None)
         /\ untouched run.2 again.2).
Proof.
  intros run.
  assert (Hgone : sessions run.2 !! sid = None
                  /\ cookies run.2 !! Router.SESSION_NAME = None
                  /\ exists rest,
                       trace run.2 =
                       trace w ++ [EvSessionRead sid; EvSessionDestroy sid;
                                   EvClearCookie Router.SESSION_NAME] ++ rest
                       /\ Forall (fun e => session_event e = false) rest).
  { subst run. unfold Router.callback.
    erewrite bind_ok by apply read_session_run.
    erewrite bind_ok by apply destroy_session_run.
    match goal with
    | |- context [ sessions (?t ?x).2 ] =>
        assert (K : keeps_sessions t);
        [| destruct (t x) as [r w'] eqn:E; apply K in E ]
    end.
    { repeat first [ apply keeps_createUser
                   | apply keeps_traced; reflexivity
                   | keeps_step ]. }
    destruct E as (S & C & _ & rest & T & A). cbn [snd].
    split; [rewrite S; apply lookup_delete_eq|].
    split; [rewrite C; apply lookup_delete_eq|].
    exists rest. split; [|exact A].
    rewrite T. cbn. rewrite <- !app_assoc. reflexivity. }
  destruct Hgone as (Hs & Hc & Ht).
  split; [exact Hs|]. split; [exact Hc|]. split; [exact Ht|].
  intros query'. apply callback_without_flow. exact Hs.
Qed.

(** The error code and the description [sendErrorFromQuery] reports when
    it is given no code: those of the query when they are strings. *)
Lemma sendErrorFromQuery_no_code query provider redirectTo message :
  message <> "" ->
  Router.sendErrorFromQuery query (Some provider) redirectTo None
                            (Some message) =
  Redirect redirectTo
    ([("error", default "invalid-request"
                        (Router.as_string (Router.q_error query)));
      ("errorDescription",
       default message
               (Router.as_string (Router.q_error_description query)))]
     ++ (if String.eqb provider "" then [] else [("provider", provider)])).
Proof.
  intros Hm. unfold Router.sendErrorFromQuery.
  assert (Hor : Js.or_else (Some message) "Unknown error" = message).
  { cbn. now destruct (String.eqb_spec message ""). }
  rewrite Hor. cbn [Js.or_else Js.truthy default].
  destruct (Router.as_string (Router.q_error_description query)) as [d|];
    destruct (Router.as_string (Router.q_error query)) as [e|]; cbn;
    rewrite ?String.eqb_refl; cbn;
    destruct (String.eqb provider ""); reflexivity.
Qed.


Lemma createUser_missing_id provider tokens profile options w :
  Js.truthy (np_id profile) = false ->
  Utils.createUser provider tokens profile options w
  = (Throw (Js.Error ("Missing id in profile for provider " +:+ provider)),
     w).
Proof.
  intros Hid. unfold Utils.createUser, Utils.findOrCreateUser.
  rewrite Hid. reflexivity.
Qed.

(** C7, as amended. Account resolution on a profile without an external
    id throws the error [Missing id in profile for provider <provider>]
    before any call to the store: nothing is read, no link and no user is
    created, none is returned. The error carries no [internal-error] code:
    the callback of the redirect flow reports it with the [error] of the
    query as its code when that is a string, and [invalid-request]
    otherwise, and with the [error_description] of the query as its
    description when that is a string, and the message otherwise. And a
    call to the store that rejects during resolution is what resolution
    throws. *)
Theorem findOrCreateUser_failures provider profile tokens options w :
  let run := Utils.findOrCreateUser provider profile tokens options w in
  (Js.truthy (np_id profile) = false ->
   run = (Throw (Js.Error ("Missing id in profile for provider "
                           +:+ provider)), w))
  /\ (forall sid query state session response,
         Js.truthy (np_id profile) = false ->
         sessions state !! sid = Some session ->
         flow_provider session = Some provider ->
         provider <> "" ->
         flow_response session = Some response ->
         from_option Js.json_truthy false (gr_profile response) = true ->
         Utils.normaliseProfile provider response = Ok profile ->
         Js.truthy (gr_access_token response) = true ->
         Js.truthy (gr_refresh_token response) = true ->
         let answer := (Router.callback sid query state).1 in
         answer =
         Ok (Redirect (default AUTH_CLIENT_URL (ses_redirectTo session))
               [("error", default "invalid-request"
                                  (Router.as_string (Router.q_error query)));
                ("errorDescription",
                 default ("Missing id in profile for provider "
                          +:+ provider)
                         (Router.as_string
                            (Router.q_error_description query)));
                ("provider", provider)])
         /\ reported_error answer
            = Some (default "invalid-request"
                            (Router.as_string (Router.q_error query))))
  /\ (forall op e evs,
         trace run.2 = trace w ++ evs ->
         EvStore op ∈ evs ->
         faults w op = Some (Rejects e) ->
         run.1 = Throw e).
Proof.
  intros run. subst run. split; [|split].
  - intros Hid. unfold Utils.findOrCreateUser. rewrite Hid. reflexivity.
  - intros sid query state session response Hid Hs Hp Hne Hr Hprof Hn Hat
      Hrt answer.
    assert (E : answer =
                Ok (Redirect (default AUTH_CLIENT_URL
                                      (ses_redirectTo session))
                      [("error", default "invalid-request"
                                   (Router.as_string (Router.q_error query)));
                       ("errorDescription",
                        default ("Missing id in profile for provider "
                                 +:+ provider)
                                (Router.as_string
                                   (Router.q_error_description query)));
                       ("provider", provider)])).
    { subst answer. unfold flow_provider, flow_response in *.
      unfold Router.callback.
      erewrite bind_ok by apply read_session_run.
      erewrite bind_ok by apply destroy_session_run.
      rewrite Hs. cbn [from_option id]. rewrite Hp, Hr.
      cbn [Js.truthy from_option id].
      destruct (String.eqb_spec provider "") as [|_]; [contradiction|].
      cbn [negb]. rewrite Hprof. cbn [negb].
      erewrite bind_ok by (unfold traced; rewrite Hn; reflexivity).
      rewrite Hat, Hrt. cbn [negb orb].
      erewrite try_catch_throw
        by (erewrite bind_throw by (apply createUser_missing_id; exact Hid);
            reflexivity).
      cbv beta iota.
      rewrite sendErrorFromQuery_no_code by discriminate.
      destruct (String.eqb_spec provider "") as [|_]; [contradiction|].
      reflexivity. }
    split; [exact E|]. rewrite E. reflexivity.
  - intros op e evs Ht Hin Hop.
    destruct (Utils.findOrCreateUser provider profile tokens options w)
      as [r w'] eqn:E.
    destruct (surfaces_findOrCreateUser _ _ _ _ _ _ _ E)
      as (_ & evs0 & Ht0 & Hs).
    cbn [fst snd] in *. rewrite Ht0 in Ht. apply app_inv_head in Ht.
    subst evs0. specialize (Hs _ _ Hin Hop).
    destruct r; cbn in Hs; congruence.
Qed.

End Routes.

(** ** The providers of the Grant configuration *)

Section Providers.
Context `{env : Collaborators}.

Lemma createGrantConfig_lookup_other provider :
  (forall entry, entry ∈ PROVIDERS_CONFIG -> entry.1 = provider ->
                 enabled entry.1 = false) ->
  Utils.createGrantConfig !! provider =
  ({["defaults" := Utils.grant_defaults]} : gmap string GrantProvider)
    !! provider.
Proof.
  unfold Utils.createGrantConfig.
  generalize ({["defaults" := Utils.grant_defaults]}
              : gmap string GrantProvider).
  induction PROVIDERS_CONFIG as [|entry entries IH]; intros acc Hoff.
  - reflexivity.
  - cbn [fold_left]. rewrite IH.
    + fold (enabled entry.1).
      destruct (enabled entry.1) eqn:E; [|reflexivity].
      apply lookup_insert_ne. intros Heq.
      rewrite (Hoff entry) in E; [discriminate | left | exact Heq].
    + intros e He. apply Hoff. now right.
Qed.

(** X25. An id that names no enabled provider, nor [defaults], nor a
    member of [Object.prototype], is answered [disabled-endpoint]. *)
Lemma validateProvider_disabled provider redirectTo w :
  (forall entry, entry ∈ PROVIDERS_CONFIG -> entry.1 = provider ->
                 enabled entry.1 = false) ->
  provider <> "defaults" ->
  provider ∉ Js.object_prototype_keys ->
  (Router.validateProvider provider redirectTo w).1 =
  Ok (SendError "disabled-endpoint" redirectTo true).
Proof.
  intros Hoff Hd Hp. unfold Router.validateProvider, Js.lookup.
  unfold Router.grantConfig.
  rewrite (createGrantConfig_lookup_other _ Hoff).
  rewrite lookup_singleton_ne by congruence.
  rewrite bool_decide_eq_false_2 by exact Hp.
  reflexivity.
Qed.

(** X26. An entry of the Grant configuration without a complete
    credential pair is answered [invalid-oauth-configuration]; the
    handlers after the validation never run, so the request does not reach
    the provider. *)
Lemma signin_unconfigured provider query_redirectTo downstream w config :
  Router.grantConfig !! provider = Some config ->
  (Js.truthy (client_id config) && Js.truthy (client_secret config)) = false ->
  (Js.truthy (key config) && Js.truthy (secret config)) = false ->
  Router.signin provider query_redirectTo downstream w =
  (Ok (SendError "invalid-oauth-configuration"
                 (redirectToRule query_redirectTo) true),
   emit (EvLog "warn" ("Missing client id/key or secret for provider "
                       +:+ Js.quoted provider)) w).
Proof.
  intros Hc H1 H2. unfold Router.signin. cbn [Router.run_chain].
  unfold Router.validateProvider, Js.lookup. rewrite Hc, H1, H2.
  reflexivity.
Qed.

(** The validation lets a request through only to an entry that holds a
    complete credential pair. *)
Lemma validateProvider_next provider redirectTo w :
  (Router.validateProvider provider redirectTo w).1 = Ok Next ->
  exists config,
    Router.grantConfig !! provider = Some config
    /\ (Js.truthy (client_id config) && Js.truthy (client_secret config)
        || Js.truthy (key config) && Js.truthy (secret config)) = true.
Proof.
  unfold Router.validateProvider, Js.lookup.
  destruct (Router.grantConfig !! provider) as [config|].
  - intros Hn. exists config. split; [reflexivity|].
    destruct (Js.truthy (client_id config) && Js.truthy (client_secret config));
      [reflexivity|].
    destruct (Js.truthy (key config) && Js.truthy (secret config));
      [reflexivity | discriminate].
  - destruct (bool_decide _); discriminate.
Qed.

End Providers.

(** C6, at the input where the code departs from it. In a deployment
    whose providers are github, google and facebook, the id [defaults]
    names no provider, and the validation answers
    [invalid-oauth-configuration] for it, where an unknown provider is to
    be answered [disabled-endpoint]: the Grant configuration always holds
    a [defaults] entry, which passes for an enabled provider. A member of
    [Object.prototype] such as [constructor] goes the same way. *)
Theorem validateProvider_defaults_entry :
  ~ In "defaults"
       (List.map fst (PROVIDERS_CONFIG (Collaborators := Fixture.deployment)))
  /\ (Router.validateProvider (env := Fixture.deployment) "defaults" None
        (Fixture.world [] [])).1
     = Ok (SendError "invalid-oauth-configuration" None true)
  /\ (Router.validateProvider (env := Fixture.deployment) "constructor" None
        (Fixture.world [] [])).1
     = Ok (SendError "invalid-oauth-configuration" None true)
  /\ (Router.validateProvider (env := Fixture.deployment) "facebook" None
        (Fixture.world [] [])).1
     = Ok (SendError "disabled-endpoint" None true).
Proof.
  split; [|split; [|split]]; try (vm_compute; reflexivity).
  cbn. intros [E|[E|[E|[]]]]; discriminate.
Qed.

(* ===================================================================== *)
(** * The native flow                                                      *)
(* ===================================================================== *)

Section NativeFlow.
Context `{env : Collaborators}.

Lemma has_key_is_object key data :
  Js.has_key key data = true -> Js.is_object data = true.
Proof. destruct data; cbn; congruence. Qed.

Lemma isErrorResponse_keys data :
  Native.isErrorResponse data = true <->
  Js.has_key "error" data = true
  /\ Js.has_key "error_description" data = true.
Proof.
  unfold Native.isErrorResponse. rewrite !andb_true_iff. split.
  - intros [[_ H1] H2]. now split.
  - intros [H1 H2]. repeat split; try assumption.
    exact (has_key_is_object _ _ H1).
Qed.

(** An object without a [toString] key of its own is rendered
    [[object Object]]. *)
Lemma to_string_object fields :
  Js.has_key "toString" (Js.JObj fields) = false ->
  Js.to_string (Js.JObj fields) = Some "[object Object]".
Proof.
  cbn [Js.has_key Js.to_string]. intros H. rewrite H. reflexivity.
Qed.

(** C9, as amended. When the identity endpoint answers an object that has
    both an [error] and an [error_description] key, the handler sends that
    payload unchanged. An answer without [error_description] (such as
    [{error: "invalid_token"}]) that is no user data either is not taken
    for an error response: the handler sends the text
    [unknown format for google response: ] followed by the rendering of
    the answer, which is [[object Object]] for an object; when the answer
    has no rendering (an object with a [toString] key of its own), the
    concatenation throws and nothing is sent. In each case the only step
    taken is the fetch: no user is looked up, no account is resolved. *)
Theorem signInWithGoogleAccessToken_error_payload google untyped accessToken
    payload w :
  google accessToken = Ok payload ->
  let run :=
    Native.signInWithGoogleAccessToken google untyped accessToken w in
  (Js.has_key "error" payload = true ->
   Js.has_key "error_description" payload = true ->
   run = (Ok (Send (BodyJson payload)), emit (EvFetch accessToken) w))
  /\ (Js.has_key "error_description" payload = false ->
      Native.isUserData payload = false ->
      (forall rendering,
          Js.to_string payload = Some rendering ->
          run = (Ok (Send (BodyText ("unknown format for google response: "
                                     +:+ rendering))),
                 emit (EvFetch accessToken) w))
      /\ (forall fields,
             payload = Js.JObj fields ->
             Js.has_key "toString" payload = false ->
             run = (Ok (Send (BodyText
                      "unknown format for google response: [object Object]")),
                    emit (EvFetch accessToken) w))
      /\ (Js.to_string payload = None ->
          exists message,
            run = (Throw (Js.Error message), emit (EvFetch accessToken) w))).
Proof.
  intros Hg run. subst run.
  unfold Native.signInWithGoogleAccessToken, Native.fetch_userinfo.
  erewrite bind_ok by (unfold traced; rewrite Hg; reflexivity). split.
  - intros H1 H2.
    assert (E : Native.isErrorResponse payload = true)
      by now apply isErrorResponse_keys.
    rewrite E. reflexivity.
  - intros H1 H2.
    assert (E : Native.isErrorResponse payload = false).
    { unfold Native.isErrorResponse. rewrite H1. apply andb_false_r. }
    rewrite E, H2. cbn [negb]. unfold Native.concat.
    assert (Hr : forall rendering,
               Js.to_string payload = Some rendering ->
               (match Js.to_string payload with
                | Some rendering =>
                    mret ("unknown format for google response: "
                          +:+ rendering)
                | None =>
                    throw (Js.Error
                             "Cannot convert object to primitive value")
                end ≫= λ text : string, mret (Send (BodyText text)))
                 (emit (EvFetch accessToken) w)
               = (Ok (Send (BodyText ("unknown format for google response: "
                                      +:+ rendering))),
                  emit (EvFetch accessToken) w)).
    { intros rendering ->. reflexivity. }
    split; [exact Hr|]. split.
    + intros fields -> Hk. apply (Hr "[object Object]").
      now apply to_string_object.
    + intros ->. eexists. reflexivity.
Qed.

(** The second copy of the handler treats the two answers alike, and
    wraps the unknown answer in an object. *)
Lemma signInWithGoogleAccessToken_objects_error_payload google untyped
    accessToken payload w :
  google accessToken = Ok payload ->
  let run :=
    Native.signInWithGoogleAccessToken_objects google untyped accessToken
      w in
  (Native.isErrorResponse payload = true ->
   run = (Ok (Send (BodyJson payload)), emit (EvFetch accessToken) w))
  /\ (Native.isErrorResponse payload = false ->
      Native.isUserData payload = false ->
      run = (Ok (Send (BodyError "unknown format for google response!"
                                 (Some payload))),
             emit (EvFetch accessToken) w)).
Proof.
  intros Hg run. subst run.
  unfold Native.signInWithGoogleAccessToken_objects, Native.fetch_userinfo.
  erewrite bind_ok by (unfold traced; rewrite Hg; reflexivity). split.
  - intros E. rewrite E. reflexivity.
  - intros E H2. rewrite E, H2. reflexivity.
Qed.

End NativeFlow.

(* ===================================================================== *)
(** * WebAuthn registration                                                *)
(* ===================================================================== *)

Lemma find_user_update_user id f w :
  (forall u, user_id (f u) = user_id u) ->
  find_user id (update_user id f w) = f <$> find_user id w.
Proof.
  intros Hf. unfold find_user, update_user. cbn.
  induction (users w) as [|u us IH]; [reflexivity|].
  cbn. destruct (N.eqb (user_id u) id) eqn:E.
  - rewrite Hf, E. reflexivity.
  - rewrite E. exact IH.
Qed.

Lemma getUserChallenge_run id w :
  faults w OpGetUserChallenge = None ->
  getUserChallenge id w =
  (Ok (find_user id w), emit (EvStore OpGetUserChallenge) w).
Proof. intros F. unfold getUserChallenge. now rewrite call_ok. Qed.

Lemma addUserAuthenticator_run userId cid pk counter nickname w :
  faults w OpAddUserAuthenticator = None ->
  addUserAuthenticator userId cid pk counter nickname w =
  (Ok (Some (mkAuthenticator (next_uuid w) userId cid pk counter nickname)),
   set_authenticators
     (fun l => l ++ [mkAuthenticator (next_uuid w) userId cid pk counter
                                     nickname])
     (set_next_uuid (N.succ (next_uuid w))
        (emit (EvStore OpAddUserAuthenticator) w))).
Proof. intros F. unfold addUserAuthenticator. now rewrite call_ok. Qed.

Lemma updateUser_clearChallenge_run id w :
  faults w OpUpdateUser = None ->
  updateUser_clearChallenge id w =
  (Ok tt, update_user id (set_currentChallenge None)
            (emit (EvStore OpUpdateUser) w)).
Proof. intros F. unfold updateUser_clearChallenge. now rewrite call_ok. Qed.

Section Registration.
Context `{env : Collaborators}.

(** A verification against a user without a stored challenge is an
    [invalid-request]; nothing is written. *)
Lemma verifyWebAuthnRegistration_no_challenge id credential nickname w user :
  faults w OpGetUserChallenge = None ->
  find_user id w = Some user ->
  Js.truthy (user_currentChallenge user) = false ->
  WebAuthn.verifyWebAuthnRegistration id credential nickname w =
  (Throw (Js.Error "invalid-request"), emit (EvStore OpGetUserChallenge) w).
Proof.
  intros F Hu Hc. unfold WebAuthn.verifyWebAuthnRegistration.
  step getUserChallenge_run F. rewrite Hu, Hc. reflexivity.
Qed.

(** C3, as amended. A verification attempt against a user with a stored
    challenge: when the credential is verified, the authenticator is
    persisted, the stored challenge is cleared, and the same response
    submitted again fails with [invalid-request], persisting nothing;
    when the verification throws ([invalid-webauthn-authenticator]) or
    does not hold ([invalid-webauthn-verification]), the attempt throws
    and the user record, stored challenge included, is left as it was. *)
Theorem verifyWebAuthnRegistration_challenge id credential nickname w user
    challenge :
  no_faults w ->
  find_user id w = Some user ->
  user_currentChallenge user = Some challenge ->
  challenge <> "" ->
  let verification :=
    verifyRegistrationResponse credential challenge AUTH_WEBAUTHN_RP_ORIGINS
                               WebAuthn.getWebAuthnRelyingParty in
  let run := WebAuthn.verifyWebAuthnRegistration id credential nickname w in
  (forall pk cid counter,
      verification = Ok (true, Some (pk, cid, counter)) ->
      let again :=
        WebAuthn.verifyWebAuthnRegistration id credential nickname run.2 in
      run.1 = Ok tt
      /\ user_currentChallenge <$> find_user id run.2 = Some None
      /\ authenticators run.2 =
         authenticators w
         ++ [mkAuthenticator (next_uuid w) id (base64url cid)
                             ("\x" +:+ hex pk) counter nickname]
      /\ again.1 = Throw (Js.Error "invalid-request")
      /\ authenticators again.2 = authenticators run.2)
  /\ (forall e,
         verification = Throw e ->
         run.1 = Throw (Js.Error "invalid-webauthn-authenticator")
         /\ users run.2 = users w
         /\ authenticators run.2 = authenticators w)
  /\ (forall verified info,
         verification = Ok (verified, info) ->
         verified = false \/ info = None ->
         run.1 = Throw (Js.Error "invalid-webauthn-verification")
         /\ users run.2 = users w
         /\ authenticators run.2 = authenticators w).
Proof.
  intros F Hu Hc Hne verification run.
  assert (Ht : Js.truthy (user_currentChallenge user) = true).
  { apply truthy_Some. eauto. }
  assert (Hrun : forall outcome,
             verification = outcome ->
             run =
             match outcome with
             | Throw _ => throw (Js.Error "invalid-webauthn-authenticator")
             | Ok (verified, registrationInfo) =>
                 if negb verified then
                   throw (Js.Error "invalid-webauthn-verification")
                 else
                   match registrationInfo with
                   | None => throw (Js.Error "invalid-webauthn-verification")
                   | Some (credentialPublicKey, credentialId, counter) =>
                       inserted ←
                         addUserAuthenticator id (base64url credentialId)
                           ("\x" +:+ hex credentialPublicKey) counter
                           nickname;
                       match inserted with
                       | None =>
                           throw (Js.Error
                             "Something went wrong. Impossible to insert new authenticator in the database.")
                       | Some _ => updateUser_clearChallenge id
                       end
                   end
             end (emit (EvStore OpGetUserChallenge) w)).
  { intros outcome <-. subst run verification.
    unfold WebAuthn.verifyWebAuthnRegistration.
    step getUserChallenge_run (F OpGetUserChallenge).
    rewrite Hu, Ht, Hc. reflexivity. }
  split; [|split].
  - intros pk cid counter Hv again.
    assert (E : run =
                (Ok tt,
                 update_user id (set_currentChallenge None)
                   (emit (EvStore OpUpdateUser)
                      (set_authenticators
                         (fun l => l ++ [mkAuthenticator (next_uuid w) id
                                           (base64url cid) ("\x" +:+ hex pk)
                                           counter nickname])
                         (set_next_uuid (N.succ (next_uuid w))
                            (emit (EvStore OpAddUserAuthenticator)
                               (emit (EvStore OpGetUserChallenge) w))))))).
    { rewrite (Hrun _ Hv). cbn [negb].
      step addUserAuthenticator_run (F OpAddUserAuthenticator).
      cbv beta iota.
      rewrite updateUser_clearChallenge_run by exact (F OpUpdateUser).
      reflexivity. }
    assert (Hcleared : user_currentChallenge <$> find_user id run.2
                       = Some None).
    { rewrite E. cbn [snd].
      rewrite find_user_update_user by reflexivity.
      change (find_user id _) with (find_user id w). now rewrite Hu. }
    split; [now rewrite E|]. split; [exact Hcleared|].
    split; [now rewrite E|].
    subst again.
    destruct (find_user id run.2) as [user'|] eqn:Hu'; [|discriminate].
    injection Hcleared as Hnone.
    rewrite (verifyWebAuthnRegistration_no_challenge id credential nickname
               run.2 user');
      [split; reflexivity | rewrite E; exact (F _) | exact Hu'
      | now rewrite Hnone].
  - intros e Hv. rewrite (Hrun _ Hv). repeat split; reflexivity.
  - intros verified info Hv Hor. rewrite (Hrun _ Hv).
    destruct Hor as [-> | ->]; [|destruct verified];
      repeat split; reflexivity.
Qed.

End Registration.

(* ===================================================================== *)
(** * The roles of a new user                                              *)
(* ===================================================================== *)

Lemma split_without_separator c s :
  Js.contains c s = false -> Js.split c s = [s].
Proof.
  induction s as [|d s IH]; cbn [Js.split Js.contains]; [reflexivity|].
  intros Hc. apply orb_false_iff in Hc as [Hd Hs].
  rewrite Hd, (IH Hs). reflexivity.
Qed.



Section Roles.
Context `{env : Collaborators}.



End Roles.

(* ===================================================================== *)
(** * The properties on the concrete deployment                            *)
(* ===================================================================== *)

(** C1 on the deployment: Alice with her github link in place, Alice
    without it, and a newcomer. *)
Lemma findOrCreateUser_precedence_witness :
  (Utils.findOrCreateUser (env := Fixture.deployment) "github"
     Fixture.returning Fixture.tokens None
     (Fixture.world [Fixture.alice_github] [])).1 = Ok (Some Fixture.alice)
  /\ (Utils.findOrCreateUser (env := Fixture.deployment) "github"
        Fixture.returning Fixture.tokens None (Fixture.world [] [])).1
     = Ok (Some Fixture.alice)
  /\ (Utils.findOrCreateUser (env := Fixture.deployment) "github"
        Fixture.newcomer Fixture.tokens None (Fixture.world [] [])).1
     = Ok (Some Fixture.bo).
Proof.
  split; [|split].
  - pose proof (findOrCreateUser_precedence (env := Fixture.deployment)
                  "github" Fixture.returning Fixture.tokens None
                  (Fixture.world [Fixture.alice_github] [])
                  eq_refl (fun _ => eq_refl)) as P.
    cbv zeta in P. destruct P as (P & _).
    exact (proj1 (P Fixture.alice_github [] eq_refl)).
  - pose proof (findOrCreateUser_precedence (env := Fixture.deployment)
                  "github" Fixture.returning Fixture.tokens None
                  (Fixture.world [] []) eq_refl (fun _ => eq_refl)) as P.
    cbv zeta in P. destruct P as (_ & P & _).
    exact (proj1 (P Fixture.alice eq_refl eq_refl eq_refl)).
  - pose proof (findOrCreateUser_precedence (env := Fixture.deployment)
                  "github" Fixture.newcomer Fixture.tokens None
                  (Fixture.world [] []) eq_refl (fun _ => eq_refl)) as P.
    cbv zeta in P. destruct P as (_ & _ & P & _).
    exact (proj1 (P (Some "b@example.com") eq_refl (or_intror eq_refl)
                    eq_refl)).
Defined.

(** C1 as it was stated fails: a profile with an id, without a link and
    without a user holding its email, whose email does not pass
    validation, meets none of the three outcomes. No user is returned and
    none is created: resolution throws. *)
Lemma findOrCreateUser_precedence_counterexample :
  Js.truthy (np_id Scenario.no_email) = true
  /\ links_of "github" "44" (Fixture.world [] []) = []
  /\ user_with_email "cy.example.com" (Fixture.world [] []) = None
  /\ (Utils.findOrCreateUser (env := Fixture.deployment) "github"
        Scenario.no_email Fixture.tokens None (Fixture.world [] [])).1
     = Throw (Js.Error "email must be a valid email")
  /\ users (Utils.findOrCreateUser (env := Fixture.deployment) "github"
              Scenario.no_email Fixture.tokens None (Fixture.world [] [])).2
     = [Fixture.alice]
  /\ userProviders
       (Utils.findOrCreateUser (env := Fixture.deployment) "github"
          Scenario.no_email Fixture.tokens None (Fixture.world [] [])).2
     = [].
Proof. repeat split; vm_compute; reflexivity. Qed.

(** C5 on the deployment: Alice, whose email the provider reports as not
    verified, is linked all the same. *)
Lemma findOrCreateUser_links_by_email_witness :
  (Utils.findOrCreateUser (env := Fixture.deployment) "github"
     (with_emailVerified (Some false) Fixture.returning) Fixture.tokens None
     (Fixture.world [] [])).1 = Ok (Some Fixture.alice)
  /\ users (Utils.findOrCreateUser (env := Fixture.deployment) "github"
              (with_emailVerified (Some false) Fixture.returning)
              Fixture.tokens None (Fixture.world [] [])).2
     = [Fixture.alice]
  /\ userProviders
       (Utils.findOrCreateUser (env := Fixture.deployment) "github"
          (with_emailVerified (Some false) Fixture.returning)
          Fixture.tokens None (Fixture.world [] [])).2
     = [mkUserProvider 10%N 1%N "github" "42" (Some "at") (Some "rt")].
Proof.
  exact (findOrCreateUser_links_by_email (env := Fixture.deployment)
           "github" Fixture.returning Fixture.tokens None
           (Fixture.world [] []) Fixture.alice (Some false)
           eq_refl (fun _ => eq_refl) eq_refl eq_refl eq_refl).
Defined.

(** C8 on the deployment: Alice signs in again through her github
    link. *)
Lemma findOrCreateUser_update_frame_witness :
  (Utils.findOrCreateUser (env := Fixture.deployment) "github"
     Fixture.returning Fixture.tokens None
     (Fixture.world [Fixture.alice_github] [])).1 = Ok (Some Fixture.alice)
  /\ users (Utils.findOrCreateUser (env := Fixture.deployment) "github"
              Fixture.returning Fixture.tokens None
              (Fixture.world [Fixture.alice_github] [])).2
     = [Fixture.alice].
Proof.
  pose proof (findOrCreateUser_update_frame (env := Fixture.deployment)
                "github" Fixture.returning Fixture.tokens None
                (Fixture.world [Fixture.alice_github] [])
                Fixture.alice_github [] eq_refl (fun _ => eq_refl) eq_refl)
    as P.
  cbv zeta in P. destruct P as (P1 & P2 & _).
  split; [exact P1 | exact P2].
Defined.

(** C7 on the deployment: a profile without an id, and a store whose
    lookup by email rejects. *)
Lemma findOrCreateUser_failures_witness :
  Utils.findOrCreateUser (env := Fixture.deployment) "github"
    Fixture.anonymous Fixture.tokens None (Fixture.world [] [])
  = (Throw (Js.Error "Missing id in profile for provider github"),
     Fixture.world [] [])
  /\ (Utils.findOrCreateUser (env := Fixture.deployment) "github"
        Fixture.newcomer Fixture.tokens None Fixture.broken_world).1
     = Throw (Js.Error "connection reset").
Proof.
  split.
  - exact (proj1 (findOrCreateUser_failures (env := Fixture.deployment)
                    "github" Fixture.anonymous Fixture.tokens None
                    (Fixture.world [] [])) eq_refl).
  - apply (proj2 (proj2 (findOrCreateUser_failures
                           (env := Fixture.deployment)
                           "github" Fixture.newcomer Fixture.tokens None
                           Fixture.broken_world)))
      with (op := OpGetUserByEmail)
           (evs := [EvStore OpAuthUserProviders; EvStore OpGetUserByEmail]).
    + reflexivity.
    + right. left.
    + reflexivity.
Defined.

(** C7 as it was stated fails: the error of a missing id does not carry
    the code [internal-error]. Resolution throws a plain error, and the
    callback of the redirect flow reports it as [invalid-request]. *)
Lemma findOrCreateUser_missing_id_counterexample :
  (Utils.findOrCreateUser (env := Fixture.deployment) "github"
     Fixture.anonymous Fixture.tokens None (Fixture.world [] [])).1
  = Throw (Js.Error "Missing id in profile for provider github")
  /\ (Router.callback (env := Fixture.deployment) "sid-1" Fixture.no_query
        (Fixture.world []
           [("sid-1", Fixture.flow (Some (Fixture.raw_profile None))
                                   (Some "at") (Some "rt"))])).1
     = Ok (Redirect "https://app.example.com/done"
             [("error", "invalid-request");
              ("errorDescription",
               "Missing id in profile for provider github");
              ("provider", "github")])
  /\ reported_error
       (Router.callback (env := Fixture.deployment) "sid-1"
          Fixture.no_query
          (Fixture.world []
             [("sid-1", Fixture.flow (Some (Fixture.raw_profile None))
                                     (Some "at") (Some "rt"))])).1
     <> Some "internal-error".
Proof.
  split; [|split]; try (vm_compute; reflexivity).
  vm_compute. discriminate.
Qed.



(** C9 on the deployment: the endpoint answers with an error and its
    description, or with an error alone. *)
Lemma signInWithGoogleAccessToken_error_payload_witness :
  Native.signInWithGoogleAccessToken (env := Fixture.deployment)
    (fun _ => Ok Fixture.invalid_request) Scenario.refuses "abc"
    (Fixture.world [] [])
  = (Ok (Send (BodyJson Fixture.invalid_request)),
     emit (EvFetch "abc") (Fixture.world [] []))
  /\ Native.signInWithGoogleAccessToken (env := Fixture.deployment)
       (fun _ => Ok Fixture.invalid_token) Scenario.refuses "abc"
       (Fixture.world [] [])
     = (Ok (Send (BodyText
                    "unknown format for google response: [object Object]")),
        emit (EvFetch "abc") (Fixture.world [] []))
  /\ exists message,
       Native.signInWithGoogleAccessToken (env := Fixture.deployment)
         (fun _ => Ok Scenario.own_toString) Scenario.refuses "abc"
         (Fixture.world [] [])
       = (Throw (Js.Error message),
          emit (EvFetch "abc") (Fixture.world [] [])).
Proof.
  split; [|split].
  - exact (proj1 (signInWithGoogleAccessToken_error_payload
                    (env := Fixture.deployment)
                    (fun _ => Ok Fixture.invalid_request) Scenario.refuses
                    "abc" Fixture.invalid_request (Fixture.world [] [])
                    eq_refl)
                 eq_refl eq_refl).
  - pose proof (proj2 (signInWithGoogleAccessToken_error_payload
                         (env := Fixture.deployment)
                         (fun _ => Ok Fixture.invalid_token)
                         Scenario.refuses "abc" Fixture.invalid_token
                         (Fixture.world [] []) eq_refl)
                      eq_refl eq_refl) as (_ & P & _).
    exact (P _ eq_refl eq_refl).
  - pose proof (proj2 (signInWithGoogleAccessToken_error_payload
                         (env := Fixture.deployment)
                         (fun _ => Ok Scenario.own_toString)
                         Scenario.refuses "abc" Scenario.own_toString
                         (Fixture.world [] []) eq_refl)
                      eq_refl eq_refl) as (_ & _ & P).
    exact (P eq_refl).
Defined.

(** C9 as it was stated fails: the answer [{error: "invalid_token"}] is
    not sent back unchanged, by either copy of the handler. *)
Lemma signInWithGoogleAccessToken_invalid_token_counterexample :
  (Native.signInWithGoogleAccessToken (env := Fixture.deployment)
     (fun _ => Ok Fixture.invalid_token) Scenario.refuses "abc"
     (Fixture.world [] [])).1
  = Ok (Send (BodyText
                "unknown format for google response: [object Object]"))
  /\ (Native.signInWithGoogleAccessToken (env := Fixture.deployment)
        (fun _ => Ok Fixture.invalid_token) Scenario.refuses "abc"
        (Fixture.world [] [])).1
     <> Ok (Send (BodyJson Fixture.invalid_token))
  /\ (Native.signInWithGoogleAccessToken_objects (env := Fixture.deployment)
        (fun _ => Ok Fixture.invalid_token) Scenario.refuses "abc"
        (Fixture.world [] [])).1
     = Ok (Send (BodyError "unknown format for google response!"
                           (Some Fixture.invalid_token)))
  /\ Native.isErrorResponse Fixture.invalid_token = false.
Proof.
  split; [|split; [|split]]; try (vm_compute; reflexivity).
  vm_compute. discriminate.
Qed.

(** C3 on the deployment: Alice answers her challenge, and Alice answers
    a stale one. *)
Lemma verifyWebAuthnRegistration_challenge_witness :
  (WebAuthn.verifyWebAuthnRegistration (env := Fixture.deployment) 1%N
     Fixture.good_credential (Some "key") (Fixture.world [] [])).1 = Ok tt
  /\ (WebAuthn.verifyWebAuthnRegistration (env := Fixture.deployment) 1%N
        Fixture.stale_credential (Some "key") (Fixture.world [] [])).1
     = Throw (Js.Error "invalid-webauthn-verification").
Proof.
  split.
  - pose proof (verifyWebAuthnRegistration_challenge
                  (env := Fixture.deployment) 1%N Fixture.good_credential
                  (Some "key") (Fixture.world [] []) Fixture.alice
                  "challenge-0" (fun _ => eq_refl) eq_refl eq_refl) as P.
    cbv zeta in P.
    assert (Hne : "challenge-0" <> "") by discriminate.
    destruct (P Hne) as (P1 & _).
    exact (proj1 (P1 "pk" "cred-1" 0%N eq_refl)).
  - pose proof (verifyWebAuthnRegistration_challenge
                  (env := Fixture.deployment) 1%N Fixture.stale_credential
                  (Some "key") (Fixture.world [] []) Fixture.alice
                  "challenge-0" (fun _ => eq_refl) eq_refl eq_refl) as P.
    cbv zeta in P.
    assert (Hne : "challenge-0" <> "") by discriminate.
    destruct (P Hne) as (_ & _ & P3).
    exact (proj1 (P3 false (Some ("pk", "cred-1", 0%N)) eq_refl
                     (or_introl eq_refl))).
Defined.

(** C3 as it was stated fails twice: after a failed attempt the stored
    challenge is still there, and the response of a successful attempt,
    submitted again, fails with [invalid-request], not with
    [invalid-webauthn-verification]. *)
Lemma verifyWebAuthnRegistration_replay_counterexample :
  (WebAuthn.verifyWebAuthnRegistration (env := Fixture.deployment) 1%N
     Fixture.stale_credential None (Fixture.world [] [])).1
  = Throw (Js.Error "invalid-webauthn-verification")
  /\ user_currentChallenge
     <$> find_user 1%N
           (WebAuthn.verifyWebAuthnRegistration (env := Fixture.deployment)
              1%N Fixture.stale_credential None (Fixture.world [] [])).2
     = Some (Some "challenge-0")
  /\ (WebAuthn.verifyWebAuthnRegistration (env := Fixture.deployment) 1%N
        Fixture.good_credential None (Fixture.world [] [])).1 = Ok tt
  /\ (WebAuthn.verifyWebAuthnRegistration (env := Fixture.deployment) 1%N
        Fixture.good_credential None
        (WebAuthn.verifyWebAuthnRegistration (env := Fixture.deployment) 1%N
           Fixture.good_credential None (Fixture.world [] [])).2).1
     = Throw (Js.Error "invalid-request")
  /\ (WebAuthn.verifyWebAuthnRegistration (env := Fixture.deployment) 1%N
        Fixture.good_credential None
        (WebAuthn.verifyWebAuthnRegistration (env := Fixture.deployment) 1%N
           Fixture.good_credential None (Fixture.world [] [])).2).1
     <> Throw (Js.Error "invalid-webauthn-verification").
Proof.
  split; [|split; [|split; [|split]]]; try (vm_compute; reflexivity).
  vm_compute. discriminate.
Qed.



(* ===================================================================== *)
(** * The effect of account resolution on the tables                     *)
(* ===================================================================== *)

Lemma call_outcomes {A} op (empty : A) body w :
  (exists e, faults w op = Some (Rejects e)
             /\ call op empty body w = (Throw e, emit (EvStore op) w))
  \/ (faults w op = Some YieldsNull
      /\ call op empty body w = (Ok empty, emit (EvStore op) w))
  \/ (faults w op = None
      /\ call op empty body w = body (emit (EvStore op) w)).
Proof.
  unfold call. cbn. destruct (faults w op) as [[e|]|]; eauto.
Qed.

Ltac case_call :=
  match goal with
  | |- context [ (call ?op ?e ?b ≫= ?k) ?w ] =>
      let F := fresh "F" in
      let E := fresh "E" in
      destruct (call_outcomes op e b w) as [(? & F & E) | [(F & E) | (F & E)]];
      [ rewrite (bind_throw _ k _ _ _ E)
      | rewrite (bind_ok _ k _ _ _ E)
      | unfold mbind at 1, M_bind at 1, bind at 1; rewrite E ]
  | |- context [ call ?op ?e ?b ?w ] =>
      let F := fresh "F" in
      let E := fresh "E" in
      destruct (call_outcomes op e b w) as [(? & F & E) | [(F & E) | (F & E)]];
      rewrite E
  end.

Ltac case_call_truthful Hn :=
  case_call; [ | exfalso; eapply Hn; eassumption | ].

Ltac world_fields :=
  cbn [fst snd users userProviders authenticators next_uuid sessions cookies
       faults trace set_users set_userProviders set_authenticators
       set_next_uuid set_sessions set_cookies set_faults emit].

Lemma find_some_elem {A} (f : A -> bool) l x :
  List.find f l = Some x -> x ∈ l.
Proof.
  intros Hf. apply list_elem_of_In. exact (proj1 (List.find_some _ _ Hf)).
Qed.

Section ResolutionEffect.
Context `{env : Collaborators}.

Lemma findOrCreateUser_effect provider profile tokens options w :
  truthful w ->
  effect provider (default "" (np_id profile)) w
    (Utils.findOrCreateUser provider profile tokens options w).2.
Proof.
  intros Hn.
  unfold Utils.findOrCreateUser.
  destruct (Js.truthy (np_id profile)); cbn [negb]; [|now constructor].
  unfold authUserProviders.
  case_call_truthful Hn; [now constructor|].
  unfold gets at 1. cbv beta iota.
  change (links_of provider (default "" (np_id profile)) (emit _ w))
    with (links_of provider (default "" (np_id profile)) w).
  destruct (links_of provider (default "" (np_id profile)) w)
    as [|l rest] eqn:Hl; cbn [List.map].
  2: { unfold updateAuthUserprovider.
       case_call_truthful Hn; [now constructor|].
       run_monad.
       eapply TokensUpdated; [exact Hl | reflexivity..]. }
  assert (Hcreate : forall w1,
    users w1 = users w -> userProviders w1 = userProviders w ->
    next_uuid w1 = next_uuid w -> faults w1 = faults w ->
    effect provider (default "" (np_id profile)) w
      ((Utils.transformOauthProfile profile options
        ≫= λ userInput : UserInput,
             insertUser userInput provider (default "" (np_id profile))
               (Utils.accessToken tokens) (Utils.refreshToken tokens)) w1).2).
  { intros w1 Hu Hp Hx Hf. unfold Utils.transformOauthProfile.
    destruct (emailValidator (np_email profile)) as [email|e];
      [|now constructor].
    erewrite bind_ok by reflexivity. unfold insertUser.
    case_call;
      [now constructor
      | exfalso; rewrite Hf in *; eapply Hn; eassumption |].
    unfold fresh_uuid, mbind, M_bind, bind, modify, mret, M_ret, ret.
    cbv beta iota.
    eapply (UserAdded _ _ _ _
              (Utils.transformOauthProfile_with profile options email)
              (Utils.accessToken tokens) (Utils.refreshToken tokens));
      [exact Hl | world_fields; rewrite ?Hu, ?Hp, ?Hx; reflexivity ..]. }
  destruct (Js.truthy (np_email profile)); [|now apply Hcreate].
  unfold getUserByEmail.
  case_call_truthful Hn; [now constructor|].
  unfold gets at 1. cbv beta iota.
  destruct (List.find _ _) as [u|] eqn:Hfind; [|now apply Hcreate].
  unfold insertUserProviderToUser.
  case_call_truthful Hn; [now constructor|].
  unfold fresh_uuid. run_monad.
  eapply LinkAdded;
    [exact Hl | exact (find_some_elem _ _ _ Hfind) | reflexivity ..].
Qed.

End ResolutionEffect.

Lemma token_update_keys at_ rt id l :
  up_providerId (token_update at_ rt id l) = up_providerId l
  /\ up_providerUserId (token_update at_ rt id l) = up_providerUserId l
  /\ up_id (token_update at_ rt id l) = up_id l
  /\ up_userId (token_update at_ rt id l) = up_userId l.
Proof. unfold token_update. destruct (N.eqb (up_id l) id); now repeat split. Qed.

Lemma links_of_userProviders provider id w w' :
  userProviders w' = userProviders w ->
  links_of provider id w' = links_of provider id w.
Proof. unfold links_of. now intros ->. Qed.

Lemma links_of_updated provider id at_ rt lid w w' :
  userProviders w' = List.map (token_update at_ rt lid) (userProviders w) ->
  links_of provider id w' =
  List.map (token_update at_ rt lid) (links_of provider id w).
Proof.
  unfold links_of. intros ->.
  induction (userProviders w) as [|l ls IH]; [reflexivity|].
  cbn [List.map List.filter].
  destruct (token_update_keys at_ rt lid l) as (-> & -> & _).
  rewrite IH. now destruct (_ && _).
Qed.

Lemma links_of_appended provider id w w' row :
  userProviders w' = userProviders w ++ [row] ->
  links_of provider id w' =
  links_of provider id w
  ++ (if String.eqb (up_providerId row) provider
         && String.eqb (up_providerUserId row) id then [row] else []).
Proof.
  unfold links_of. intros ->. rewrite List.filter_app. reflexivity.
Qed.

Section ResolutionKeys.
Context `{env : Collaborators}.

(** X1. Account resolution never makes a second identity link for a
    provider identity: when the link table holds at most one link for
    every [(provider, externalId)] before a run, it does so after it,
    whatever the profile and whichever store calls reject. (The store is
    taken to be truthful: a lookup does not resolve empty, which would be
    read as nothing found.) *)
Theorem findOrCreateUser_keeps_links_unique provider profile tokens options w :
  truthful w ->
  links_unique w ->
  links_unique (Utils.findOrCreateUser provider profile tokens options w).2.
Proof.
  intros Hn Hu p i.
  destruct (findOrCreateUser_effect provider profile tokens options w Hn)
    as [_ Hp _ | l rest a r Hl _ Hp _ | u a r Hl _ _ Hp _ | input a r Hl _ Hp _].
  - rewrite (links_of_userProviders _ _ _ _ Hp). apply Hu.
  - rewrite (links_of_updated _ _ _ _ _ _ _ Hp), length_map. apply Hu.
  - rewrite (links_of_appended _ _ _ _ _ Hp). cbn [up_providerId up_providerUserId].
    destruct (String.eqb_spec provider p) as [<-|]; cbn [andb];
      [|rewrite app_nil_r; apply Hu].
    destruct (String.eqb_spec (default "" (np_id profile)) i) as [<-|];
      [|rewrite app_nil_r; apply Hu].
    rewrite Hl. cbn. lia.
  - rewrite (links_of_appended _ _ _ _ _ Hp). cbn [up_providerId up_providerUserId].
    destruct (String.eqb_spec provider p) as [<-|]; cbn [andb];
      [|rewrite app_nil_r; apply Hu].
    destruct (String.eqb_spec (default "" (np_id profile)) i) as [<-|];
      [|rewrite app_nil_r; apply Hu].
    rewrite Hl. cbn. lia.
Qed.

(** X2. Account resolution keeps the primary keys of both tables, on a
    truthful store: no user id and no link id occurs twice, and the ids
    drawn for new rows are fresh. *)
Theorem findOrCreateUser_keeps_keys provider profile tokens options w :
  truthful w ->
  keys_fresh w ->
  keys_fresh (Utils.findOrCreateUser provider profile tokens options w).2.
Proof.
  intros Hn (Nu & Nl & Fu & Fl).
  destruct (findOrCreateUser_effect provider profile tokens options w Hn)
    as [Hu Hp Hx | l rest a r Hl Hu Hp Hx | u a r Hl _ Hu Hp Hx
       | input a r Hl Hu Hp Hx];
    unfold keys_fresh; rewrite Hu, Hp, Hx.
  - now repeat split.
  - repeat split; try assumption.
    + rewrite List.map_map.
      erewrite List.map_ext; [exact Nl|].
      intros x. apply token_update_keys.
    + apply Forall_map. eapply Forall_impl; [exact Fl|].
      intros x Hx'. cbn. now rewrite (proj1 (proj2 (proj2 (token_update_keys a r (up_id l) x)))).
  - repeat split.
    + exact Nu.
    + rewrite List.map_app. cbn. apply NoDup_app. repeat split.
      * exact Nl.
      * intros x Hin Hin'. apply list_elem_of_singleton in Hin'. subst x.
        apply list_elem_of_fmap in Hin as (l0 & E & Hin).
        rewrite Forall_forall in Fl. specialize (Fl _ Hin). lia.
      * apply NoDup_singleton.
    + eapply Forall_impl; [exact Fu|]. intros x Hx'. cbn in *. lia.
    + apply Forall_app. split.
      * eapply Forall_impl; [exact Fl|]. intros x Hx'. cbn in *. lia.
      * repeat constructor. cbn. lia.
  - repeat split.
    + rewrite List.map_app. cbn. apply NoDup_app. repeat split.
      * exact Nu.
      * intros x Hin Hin'. apply list_elem_of_singleton in Hin'. subst x.
        apply list_elem_of_fmap in Hin as (l0 & E & Hin).
        rewrite Forall_forall in Fu. specialize (Fu _ Hin). lia.
      * apply NoDup_singleton.
    + rewrite List.map_app. cbn. apply NoDup_app. repeat split.
      * exact Nl.
      * intros x Hin Hin'. apply list_elem_of_singleton in Hin'. subst x.
        apply list_elem_of_fmap in Hin as (l0 & E & Hin).
        rewrite Forall_forall in Fl. specialize (Fl _ Hin). lia.
      * apply NoDup_singleton.
    + apply Forall_app. split.
      * eapply Forall_impl; [exact Fu|]. intros x Hx'. cbn in *. lia.
      * repeat constructor. cbn. lia.
    + apply Forall_app. split.
      * eapply Forall_impl; [exact Fl|]. intros x Hx'. cbn in *. lia.
      * repeat constructor. cbn. lia.
Qed.
End ResolutionKeys.

Lemma find_user_elem u w :
  u ∈ users w -> exists u', find_user (user_id u) w = Some u'.
Proof.
  intros Hin. unfold find_user.
  destruct (List.find _ _) as [u'|] eqn:E; [eauto|].
  apply list_elem_of_In in Hin.
  pose proof (List.find_none _ _ E _ Hin) as Hf. cbn in Hf.
  now rewrite N.eqb_refl in Hf.
Qed.

Lemma find_user_users id w w' :
  users w' = users w -> find_user id w' = find_user id w.
Proof. unfold find_user. now intros ->. Qed.

Lemma find_user_appended id w w' u x :
  users w' = users w ++ [x] ->
  find_user id w = Some u -> find_user id w' = Some u.
Proof.
  unfold find_user. intros -> Hf.
  induction (users w) as [|y ys IH]; [discriminate|].
  cbn in *. destruct (N.eqb (user_id y) id); [exact Hf | now apply IH].
Qed.

Lemma find_user_new w w' x :
  users w' = users w ++ [x] ->
  Forall (fun u => (user_id u < user_id x)%N) (users w) ->
  find_user (user_id x) w' = Some x.
Proof.
  unfold find_user. intros -> Hall.
  induction Hall as [|y ys Hy _ IH]; cbn.
  - now rewrite N.eqb_refl.
  - destruct (N.eqb_spec (user_id y) (user_id x)) as [E|_]; [lia | exact IH].
Qed.

Lemma find_user_unique u w :
  NoDup (List.map user_id (users w)) -> u ∈ users w ->
  find_user (user_id u) w = Some u.
Proof.
  unfold find_user. intros Hnd Hin.
  induction (users w) as [|y ys IH]; [now apply elem_of_nil in Hin|].
  cbn in *. apply NoDup_cons in Hnd as [Hy Hnd].
  destruct (N.eqb_spec (user_id y) (user_id u)) as [E|Hne].
  - apply elem_of_cons in Hin as [->|Hin]; [reflexivity|].
    exfalso. apply Hy. rewrite E. apply list_elem_of_fmap. eauto.
  - apply elem_of_cons in Hin as [->|Hin]; [contradiction|]. now apply IH.
Qed.

Section ResolutionRepeat.
Context `{env : Collaborators}.

(** X3. Account resolution leaves no dangling link, on a truthful store:
    when every link references a user of the user table before a run,
    every link does so after it, the link it may have added included. *)
Theorem findOrCreateUser_keeps_references provider profile tokens options w :
  truthful w ->
  links_reference_users w ->
  links_reference_users
    (Utils.findOrCreateUser provider profile tokens options w).2.
Proof.
  intros Hn Hr.
  destruct (findOrCreateUser_effect provider profile tokens options w Hn)
    as [Hu Hp Hx | l rest a r Hl Hu Hp Hx | u a r Hl Hin Hu Hp Hx
       | input a r Hl Hu Hp Hx];
    intros row Hrow; rewrite Hp in Hrow.
  - rewrite (find_user_users _ _ _ Hu). now apply Hr.
  - rewrite (find_user_users _ _ _ Hu).
    apply list_elem_of_fmap in Hrow as (row0 & -> & Hrow).
    rewrite (proj2 (proj2 (proj2 (token_update_keys a r (up_id l) row0)))).
    now apply Hr.
  - rewrite (find_user_users _ _ _ Hu).
    apply elem_of_app in Hrow as [Hrow|Hrow]; [now apply Hr|].
    apply list_elem_of_singleton in Hrow. subst row. cbn.
    now apply find_user_elem.
  - apply elem_of_app in Hrow as [Hrow|Hrow].
    + destruct (Hr _ Hrow) as (u & Hf). exists u.
      exact (find_user_appended _ _ _ _ _ Hu Hf).
    + apply list_elem_of_singleton in Hrow. subst row. cbn.
      apply (find_user_elem (new_user input (next_uuid w))).
      rewrite Hu. apply elem_of_app. right. now left.
Qed.

(** X4. Account resolution deletes nothing and moves nothing, on a
    truthful store and whichever calls reject: the user table grows by at
    most one user at its end and is otherwise unchanged,
    the link table grows by at most one row, and every row it held is still
    at its place, the same up to its two token columns. *)
Theorem findOrCreateUser_only_appends provider profile tokens options w :
  truthful w ->
  let w' := (Utils.findOrCreateUser provider profile tokens options w).2 in
  (exists added, users w' = users w ++ added /\ length added <= 1)
  /\ length (userProviders w) <= length (userProviders w')
     <= length (userProviders w) + 1
  /\ forall i row,
       userProviders w !! i = Some row ->
       exists row', userProviders w' !! i = Some row' /\ same_link row row'.
Proof.
  intros Hn w'. subst w'.
  destruct (findOrCreateUser_effect provider profile tokens options w Hn)
    as [Hu Hp Hx | l rest a r Hl Hu Hp Hx | u a r Hl Hin Hu Hp Hx
       | input a r Hl Hu Hp Hx]; rewrite Hu, Hp.
  - split; [exists []; rewrite app_nil_r; cbn; auto|].
    split; [lia|]. intros i row Hrow. exists row.
    split; [exact Hrow | now repeat split].
  - split; [exists []; rewrite app_nil_r; cbn; auto|].
    rewrite length_map. split; [lia|]. intros i row Hrow.
    exists (token_update a r (up_id l) row). split.
    + change (List.map ?f ?x) with (f <$> x).
      now rewrite list_lookup_fmap, Hrow.
    + apply token_update_same_link.
  - split; [exists []; rewrite app_nil_r; cbn; auto|].
    rewrite length_app. cbn. split; [lia|]. intros i row Hrow. exists row.
    split; [now apply lookup_app_l_Some | now repeat split].
  - split; [eexists; split; [reflexivity | cbn; lia]|].
    rewrite length_app. cbn. split; [lia|]. intros i row Hrow. exists row.
    split; [now apply lookup_app_l_Some | now repeat split].
Qed.

Lemma run_created provider profile tokens options w email :
  Js.truthy (np_id profile) = true ->
  no_faults w ->
  links_of provider (default "" (np_id profile)) w = [] ->
  (Js.truthy (np_email profile) = false \/
   user_with_email (default "" (np_email profile)) w = None) ->
  emailValidator (np_email profile) = Ok email ->
  let user :=
    new_user (Utils.transformOauthProfile_with profile options email)
             (next_uuid w) in
  let run := Utils.findOrCreateUser provider profile tokens options w in
  run.1 = Ok (Some user)
  /\ users run.2 = users w ++ [user]
  /\ userProviders run.2 =
     userProviders w
     ++ [new_link (N.succ (next_uuid w)) (next_uuid w) provider
                  (default "" (np_id profile)) tokens]
  /\ next_uuid run.2 = N.succ (N.succ (next_uuid w))
  /\ faults run.2 = faults w.
Proof.
  intros Hid F Hl He Hv user run. subst user run.
  unfold Utils.findOrCreateUser. rewrite Hid. cbn [negb].
  step authUserProviders_run (F OpAuthUserProviders). rewrite Hl.
  cbn [List.map].
  destruct (Js.truthy (np_email profile)) eqn:E.
  - destruct He as [He|He]; [discriminate|].
    step getUserByEmail_run (F OpGetUserByEmail).
    change (user_with_email _ (emit _ w))
      with (user_with_email (default "" (np_email profile)) w).
    rewrite He.
    erewrite bind_ok by (apply transformOauthProfile_run; exact Hv).
    erewrite insertUser_run by exact (F OpInsertUser).
    repeat split; reflexivity.
  - erewrite bind_ok by (apply transformOauthProfile_run; exact Hv).
    erewrite insertUser_run by exact (F OpInsertUser).
    repeat split; reflexivity.
Qed.

(** X5. When no link and no user matches and the email of the profile does
    not pass validation, resolution fails with the validator's error and
    writes nothing: no user, no link, no id drawn. *)
Theorem findOrCreateUser_rejected_email provider profile tokens options w e :
  Js.truthy (np_id profile) = true ->
  no_faults w ->
  links_of provider (default "" (np_id profile)) w = [] ->
  (Js.truthy (np_email profile) = false \/
   user_with_email (default "" (np_email profile)) w = None) ->
  emailValidator (np_email profile) = Throw e ->
  let run := Utils.findOrCreateUser provider profile tokens options w in
  run.1 = Throw e
  /\ users run.2 = users w
  /\ userProviders run.2 = userProviders w
  /\ next_uuid run.2 = next_uuid w.
Proof.
  intros Hid F Hl He Hv run. subst run.
  destruct (run_rejected provider profile tokens options w e Hid F Hl He Hv)
    as (w1 & -> & Hu & Hp & Hn).
  cbn [fst snd]. repeat split; assumption.
Qed.

(** X6. Signing in twice with the same provider identity resolves to the
    same user, when the store answers and user ids are distinct: after a
    run that resolved to [u], a second run for the same
    [(provider, externalId)] (whatever else the second profile, its tokens
    and its options say) returns [u] again, and creates neither a user nor
    a link. *)
Theorem findOrCreateUser_idempotent provider profile tokens options w u
    profile' tokens' options' :
  Js.truthy (np_id profile) = true ->
  no_faults w ->
  keys_fresh w ->
  np_id profile' = np_id profile ->
  let first := Utils.findOrCreateUser provider profile tokens options w in
  let second :=
    Utils.findOrCreateUser provider profile' tokens' options' first.2 in
  first.1 = Ok (Some u) ->
  second.1 = Ok (Some u)
  /\ users second.2 = users first.2
  /\ length (userProviders second.2) = length (userProviders first.2).
Proof.
  intros Hid F (Nu & Nl & Fu & Fl) Hsame first second Hfirst.
  assert (Hid' : Js.truthy (np_id profile') = true) by now rewrite Hsame.
  assert (Hsecond : forall l rest,
             no_faults first.2 ->
             links_of provider (default "" (np_id profile)) first.2
             = l :: rest ->
             find_user (up_userId l) first.2 = Some u ->
             second.1 = Ok (Some u)
             /\ users second.2 = users first.2
             /\ length (userProviders second.2)
                = length (userProviders first.2)).
  { intros l rest F1 Hl Hf. subst second. rewrite <- Hsame in Hl.
    rewrite (run_update _ _ _ _ _ _ _ Hid' (F1 _) (F1 _) Hl).
    world_fields. rewrite Hf, length_map. now repeat split. }
  assert (Hcreated : forall v,
             links_of provider (default "" (np_id profile)) w = [] ->
             (Js.truthy (np_email profile) = false \/
              user_with_email (default "" (np_email profile)) w = None) ->
             emailValidator (np_email profile) = Ok v ->
             second.1 = Ok (Some u)
             /\ users second.2 = users first.2
             /\ length (userProviders second.2)
                = length (userProviders first.2)).
  { intros v Hl He Hv.
    destruct (run_created provider profile tokens options w v Hid F Hl He Hv)
      as (E & Hu2 & Hp2 & _ & Hf2).
    fold first in E, Hu2, Hp2, Hf2.
    rewrite E in Hfirst. injection Hfirst as <-.
    eapply Hsecond.
    - intros op. rewrite Hf2. apply F.
    - rewrite (links_of_appended _ _ _ _ _ Hp2), Hl. cbn.
      now rewrite !String.eqb_refl.
    - cbn [new_link up_userId].
      apply (find_user_new w first.2
               (new_user (Utils.transformOauthProfile_with profile options v)
                         (next_uuid w)) Hu2 Fu). }
  destruct (links_of provider (default "" (np_id profile)) w)
    as [|l rest] eqn:Hl.
  - assert (Hnew : Js.truthy (np_email profile) = false
                   \/ user_with_email (default "" (np_email profile)) w
                      = None ->
                   second.1 = Ok (Some u)
                   /\ users second.2 = users first.2
                   /\ length (userProviders second.2)
                      = length (userProviders first.2)).
    { intros He. destruct (emailValidator (np_email profile)) as [v|e] eqn:Hv.
      - exact (Hcreated v eq_refl He eq_refl).
      - destruct (run_rejected provider profile tokens options w e Hid F
                    Hl He Hv) as (w1 & E & _).
        fold first in E. rewrite E in Hfirst. discriminate. }
    destruct (Js.truthy (np_email profile)) eqn:He;
      [destruct (user_with_email (default "" (np_email profile)) w)
         as [u0|] eqn:Hu0|].
    + (* a link to the user holding the email was added *)
      assert (E := run_link provider profile tokens options w u0 Hid
                     (F _) (F _) (F _) Hl He Hu0).
      fold first in E. rewrite E in Hfirst. injection Hfirst as <-.
      assert (Hp2 : userProviders first.2
                    = userProviders w
                      ++ [new_link (next_uuid w) (user_id u0) provider
                            (default "" (np_id profile)) tokens])
        by now rewrite E.
      eapply Hsecond.
      * rewrite E. exact F.
      * rewrite (links_of_appended _ _ _ _ _ Hp2), Hl. cbn.
        now rewrite !String.eqb_refl.
      * rewrite E. cbn.
        change (find_user (user_id u0) _) with (find_user (user_id u0) w).
        apply find_user_unique; [exact Nu|].
        exact (find_some_elem _ _ _ Hu0).
    + exact (Hnew (or_intror eq_refl)).
    + exact (Hnew (or_introl eq_refl)).
  - assert (E := run_update provider profile tokens options w l rest Hid
                   (F _) (F _) Hl).
    fold first in E. rewrite E in Hfirst. injection Hfirst as Hfirst.
    assert (Hp2 : userProviders first.2
                  = List.map (token_update (Utils.accessToken tokens)
                                (Utils.refreshToken tokens) (up_id l))
                             (userProviders w))
      by now rewrite E.
    eapply Hsecond.
    + rewrite E. exact F.
    + rewrite (links_of_updated _ _ _ _ _ _ _ Hp2), Hl. reflexivity.
    + rewrite E.
      rewrite (proj2 (proj2 (proj2 (token_update_keys _ _ _ l)))).
      exact Hfirst.
Qed.
End ResolutionRepeat.

(* ===================================================================== *)
(** * The answers of the redirect flow                                   *)
(* ===================================================================== *)

Section CallbackAnswers.
Context `{env : Collaborators}.

Lemma surfaces_createUser provider tokens profile options :
  surfaces (Utils.createUser provider tokens profile options).
Proof.
  unfold Utils.createUser, Utils.findOrCreateUser,
    Utils.transformOauthProfile, getNewRefreshToken,
    authUserProviders, updateAuthUserprovider, getUserByEmail,
    insertUserProviderToUser, insertUser, fresh_uuid, modify.
  repeat surfaces_step.
Qed.

(** X7. [createUser] mints the refresh token after the account is
    resolved, and only then. A rejection of any store call it makes is
    thrown to the caller; a failure of the resolution is passed on as it
    is, and a resolution without a user throws [Could not retrieve user],
    both without minting; once a user is resolved the only further step is
    the minting, which changes neither table, so a rejection of the minting
    leaves the link that resolution wrote in place. *)
Theorem createUser_mints_last provider tokens profile options w :
  let run := Utils.createUser provider tokens profile options w in
  let resolved :=
    Utils.findOrCreateUser provider profile tokens
      (Some (default no_options options)) w in
  (forall op e evs,
      trace run.2 = trace w ++ evs ->
      EvStore op ∈ evs ->
      faults w op = Some (Rejects e) ->
      run.1 = Throw e)
  /\ (forall e, resolved.1 = Throw e -> run = (Throw e, resolved.2))
  /\ (resolved.1 = Ok None ->
      run = (Throw (Js.Error "Could not retrieve user"), resolved.2))
  /\ (forall u,
         resolved.1 = Ok (Some u) ->
         trace run.2 = trace resolved.2 ++ [EvStore OpGetNewRefreshToken]
         /\ users run.2 = users resolved.2
         /\ userProviders run.2 = userProviders resolved.2
         /\ (faults resolved.2 OpGetNewRefreshToken = None ->
             run.1 = Ok (next_uuid resolved.2))
         /\ (forall e,
                faults resolved.2 OpGetNewRefreshToken = Some (Rejects e) ->
                run.1 = Throw e)).
Proof.
  intros run resolved. split; [|split; [|split]].
  - intros op e evs Ht Hin Hop.
    destruct run as [r w'] eqn:E.
    destruct (surfaces_createUser _ _ _ _ _ _ _ E) as (_ & evs0 & Ht0 & Hs).
    cbn [fst snd] in *. rewrite Ht0 in Ht. apply app_inv_head in Ht.
    subst evs0. specialize (Hs _ _ Hin Hop).
    destruct r; cbn in Hs; congruence.
  - intros e He. subst run. unfold Utils.createUser.
    destruct resolved as [r w1] eqn:E. cbn in He. subst r.
    now rewrite (bind_throw _ _ _ _ _ E).
  - intros He. subst run. unfold Utils.createUser.
    destruct resolved as [r w1] eqn:E. cbn in He. subst r.
    now rewrite (bind_ok _ _ _ _ _ E).
  - intros u He. subst run. unfold Utils.createUser.
    destruct resolved as [r w1] eqn:E. cbn in He. subst r.
    rewrite (bind_ok _ _ _ _ _ E). cbn [fst snd].
    unfold getNewRefreshToken, call, fresh_uuid. run_monad.
    destruct (faults w1 OpGetNewRefreshToken) as [[e|]|]; cbn;
      repeat split; try reflexivity; try discriminate; congruence.
Qed.

(** X8. The error redirect does not lose the error the provider put in
    the query: the redirect carries [error] and [errorDescription] (and
    [provider] when there is one), and the query's [error] is the value of
    [error], or of [errorDescription], unless the query has an
    [error_description] of its own, which is then the description. *)
Theorem sendErrorFromQuery_keeps_query_error query provider redirectTo code
    fallbackMessage e :
  Router.as_string (Router.q_error query) = Some e ->
  exists details,
    Router.sendErrorFromQuery query provider redirectTo code fallbackMessage
    = Redirect redirectTo details
    /\ List.map fst details
       = ["error"; "errorDescription"]
         ++ (if Js.truthy provider then ["provider"] else [])
    /\ (("error", e) ∈ details
        \/ ("errorDescription", e) ∈ details
        \/ exists d,
             Router.as_string (Router.q_error_description query) = Some d
             /\ ("errorDescription", d) ∈ details).
Proof.
  intros He. unfold Router.sendErrorFromQuery. rewrite He.
  eexists. split; [reflexivity|]. split.
  - destruct (Js.truthy provider); reflexivity.
  - destruct (Router.as_string (Router.q_error_description query)) as [d|].
    + right. right. exists d. split; [reflexivity|].
      destruct (Js.truthy provider); set_solver.
    + destruct (String.eqb_spec e (Js.or_else code e)) as [Heq|Hne]; cbn.
      * left. rewrite <- Heq. destruct (Js.truthy provider); set_solver.
      * right. left. destruct (Js.truthy provider); set_solver.
Qed.


Lemma untouched_by_events w w' evs :
  users w' = users w -> userProviders w' = userProviders w ->
  authenticators w' = authenticators w -> next_uuid w' = next_uuid w ->
  trace w' = trace w ++ evs ->
  forallb (fun e => negb (store_event e)) evs = true ->
  untouched w w'.
Proof.
  intros Hu Hp Ha Hx Ht Hall. repeat split; try assumption.
  exists evs. split; [exact Ht|].
  apply Forall_forall. intros e Hin.
  rewrite forallb_forall in Hall. apply list_elem_of_In in Hin.
  specialize (Hall _ Hin). now destruct (store_event e).
Qed.

Lemma reported_error_sendErrorFromQuery query provider redirectTo code
    fallbackMessage :
  reported_error
    (Ok (Router.sendErrorFromQuery query provider redirectTo code
           fallbackMessage))
  = Some (Js.or_else code
            (default "invalid-request"
                     (Router.as_string (Router.q_error query)))).
Proof.
  unfold Router.sendErrorFromQuery, reported_error.
  destruct (Js.truthy provider); cbn;
    destruct (Router.as_string (Router.q_error query)); reflexivity.
Qed.

Lemma redirect_target_sendErrorFromQuery query provider redirectTo code
    fallbackMessage :
  redirect_target
    (Router.sendErrorFromQuery query provider redirectTo code fallbackMessage)
  = Some redirectTo.
Proof. reflexivity. Qed.

Ltac run_answer :=
  unfold log, modify, mbind, M_bind, bind, mret, M_ret, ret;
  cbv beta iota; cbn [fst snd].

Lemma callback_incomplete_run sid query w :
  let session := default empty_session (sessions w !! sid) in
  complete_flow session = false ->
  exists fallbackMessage w',
    Router.callback sid query w
    = (Ok (Router.sendErrorFromQuery query (flow_provider session)
             (default AUTH_CLIENT_URL (ses_redirectTo session))
             (Some "internal-error") fallbackMessage), w')
    /\ untouched w w'.
Proof.
  intros session Hc. unfold Router.callback.
  erewrite bind_ok by apply read_session_run.
  erewrite bind_ok by apply destroy_session_run.
  fold session. unfold complete_flow, flow_provider, flow_response in *.
  destruct (Js.truthy (ses_grant session ≫= gs_provider)) eqn:Hp;
    cbn [negb];
    [cbn [andb] in Hc;
     destruct (ses_grant session ≫= gs_response) as [response|] eqn:Hr;
     [cbn [mbind option_bind] in Hc; rewrite Hc; cbn [negb]|]|];
    run_answer;
    (eexists; eexists; split; [reflexivity|]);
    (eapply untouched_by_events; try reflexivity;
     [cbn; now rewrite <- !app_assoc | reflexivity]).
Qed.

(** X9. A callback whose session does not hold a provider and a response
    with a profile (no session at all included) is answered
    [internal-error], redirected to the [redirectTo] of the session or, when
    there is none, to the client url; no user, link or authenticator is
    read or written. *)
Theorem callback_incomplete_flow sid query w :
  let session := default empty_session (sessions w !! sid) in
  let run := Router.callback sid query w in
  complete_flow session = false ->
  reported_error run.1 = Some "internal-error"
  /\ (exists r, run.1 = Ok r
                /\ redirect_target r
                   = Some (default AUTH_CLIENT_URL (ses_redirectTo session)))
  /\ untouched w run.2.
Proof.
  intros session run Hc. subst run.
  destruct (callback_incomplete_run sid query w Hc)
    as (fallbackMessage & w' & -> & Hu).
  cbn [fst snd]. split; [apply reported_error_sendErrorFromQuery|].
  split; [|exact Hu].
  eexists. split; [reflexivity|]. apply redirect_target_sendErrorFromQuery.
Qed.

(** X10. Every answer of the callback is a redirect to the [redirectTo]
    kept in the session, or to the client url when there is none: errors
    of account resolution are caught and reported there. The one exception
    that leaves the handler is one thrown by the provider's profile
    normaliser, which runs outside the [try]. *)
Theorem callback_answers sid query w :
  let session := default empty_session (sessions w !! sid) in
  let run := Router.callback sid query w in
  match run.1 with
  | Ok r =>
      redirect_target r
      = Some (default AUTH_CLIENT_URL (ses_redirectTo session))
  | Throw e =>
      complete_flow session = true
      /\ exists provider response,
           flow_provider session = Some provider
           /\ flow_response session = Some response
           /\ Utils.normaliseProfile provider response = Throw e
  end.
Proof.
  intros session run.
  destruct (complete_flow session) eqn:Hc.
  2: { destruct (callback_incomplete_run sid query w Hc)
         as (fallbackMessage & w' & Hr & _).
       subst run. rewrite Hr. apply redirect_target_sendErrorFromQuery. }
  subst run. unfold Router.callback.
  erewrite bind_ok by apply read_session_run.
  erewrite bind_ok by apply destroy_session_run.
  fold session. unfold complete_flow, flow_provider, flow_response in Hc.
  apply andb_true_iff in Hc as [Hp Hprof].
  rewrite Hp. cbn [negb].
  destruct (ses_grant session ≫= gs_response) as [response|] eqn:Hr;
    [|discriminate].
  cbn [mbind option_bind] in Hprof. rewrite Hprof. cbn [negb].
  destruct (ses_grant session ≫= gs_provider) as [provider|] eqn:Hpr;
    [|discriminate].
  cbn [from_option id].
  destruct (Utils.normaliseProfile provider response) as [profile|e] eqn:Hn.
  2: { erewrite bind_throw by reflexivity.
       cbn. split; [reflexivity|]. eauto. }
  erewrite bind_ok by reflexivity.
  destruct (negb (Js.truthy (gr_access_token response))
            || negb (Js.truthy (gr_refresh_token response))).
  { reflexivity. }
  unfold try_catch.
  match goal with
  | |- context [ (Utils.createUser ?a ?b ?c ?d ≫= ?k) ?x ] =>
      destruct (Utils.createUser a b c d x) as [[t|[m|r]] w3] eqn:E;
      [ rewrite (bind_ok _ k _ _ _ E)
      | rewrite (bind_throw _ k _ _ _ E)
      | rewrite (bind_throw _ k _ _ _ E) ]
  end; reflexivity.
Qed.

(** X11. A complete flow whose normalised profile has no id ends in an
    error redirect: the code is the query's [error] or [invalid-request],
    the description the query's [error_description] or
    [Missing id in profile for provider <provider>], and the provider is
    named; the account tables are not touched. *)
Theorem callback_missing_id sid query w session provider response profile :
  sessions w !! sid = Some session ->
  flow_provider session = Some provider ->
  provider <> "" ->
  flow_response session = Some response ->
  from_option Js.json_truthy false (gr_profile response) = true ->
  Utils.normaliseProfile provider response = Ok profile ->
  Js.truthy (gr_access_token response) = true ->
  Js.truthy (gr_refresh_token response) = true ->
  Js.truthy (np_id profile) = false ->
  let run := Router.callback sid query w in
  run.1 =
  Ok (Redirect (default AUTH_CLIENT_URL (ses_redirectTo session))
        [("error", default "invalid-request"
                           (Router.as_string (Router.q_error query)));
         ("errorDescription",
          default ("Missing id in profile for provider " +:+ provider)
                  (Router.as_string (Router.q_error_description query)));
         ("provider", provider)])
  /\ untouched w run.2.
Proof.
  intros Hs Hp Hne Hr Hprof Hn Hat Hrt Hid run. subst run.
  unfold flow_provider, flow_response in *.
  unfold Router.callback.
  erewrite bind_ok by apply read_session_run.
  erewrite bind_ok by apply destroy_session_run.
  rewrite Hs. cbn [from_option id]. rewrite Hp, Hr.
  cbn [Js.truthy from_option id].
  destruct (String.eqb_spec provider "") as [|_]; [contradiction|].
  cbn [negb]. rewrite Hprof. cbn [negb].
  erewrite bind_ok by (unfold traced; rewrite Hn; reflexivity).
  rewrite Hat, Hrt. cbn [negb orb].
  erewrite try_catch_throw
    by (erewrite bind_throw by (apply createUser_missing_id; exact Hid);
        reflexivity).
  cbv beta iota.
  rewrite sendErrorFromQuery_no_code by discriminate.
  destruct (String.eqb_spec provider "") as [|_]; [contradiction|].
  run_answer. split; [reflexivity|].
  eapply untouched_by_events; try reflexivity;
    [cbn; now rewrite <- !app_assoc | reflexivity].
Qed.

(** X12. A complete flow of a known provider identity, end to end: the
    callback redirects to the stored [redirectTo] with a newly minted
    refresh token, stores the provider's access and refresh tokens on the
    link, leaves the user table unchanged, and the session is gone. *)
Theorem callback_returning_user sid query w session provider response
    profile l rest u :
  sessions w !! sid = Some session ->
  flow_provider session = Some provider ->
  provider <> "" ->
  flow_response session = Some response ->
  from_option Js.json_truthy false (gr_profile response) = true ->
  Utils.normaliseProfile provider response = Ok profile ->
  Js.truthy (gr_access_token response) = true ->
  Js.truthy (gr_refresh_token response) = true ->
  Js.truthy (np_id profile) = true ->
  no_faults w ->
  links_of provider (default "" (np_id profile)) w = l :: rest ->
  find_user (up_userId l) w = Some u ->
  let run := Router.callback sid query w in
  run.1 = Ok (RedirectRefreshToken
                (default AUTH_CLIENT_URL (ses_redirectTo session))
                (next_uuid w))
  /\ users run.2 = users w
  /\ userProviders run.2 =
     List.map (token_update (gr_access_token response)
                            (gr_refresh_token response) (up_id l))
              (userProviders w)
  /\ sessions run.2 !! sid = None.
Proof.
  intros Hs Hp Hne Hr Hprof Hn Hat Hrt Hid F Hl Hu run. subst run.
  unfold flow_provider, flow_response in *.
  unfold Router.callback.
  erewrite bind_ok by apply read_session_run.
  erewrite bind_ok by apply destroy_session_run.
  rewrite Hs. cbn [from_option id]. rewrite Hp, Hr.
  cbn [Js.truthy from_option id].
  destruct (String.eqb_spec provider "") as [|_]; [contradiction|].
  cbn [negb]. rewrite Hprof. cbn [negb].
  erewrite bind_ok by (unfold traced; rewrite Hn; reflexivity).
  rewrite Hat, Hrt. cbn [negb orb].
  erewrite try_catch_ok.
  2: { unfold Utils.createUser.
       erewrite bind_ok.
       2: { erewrite bind_ok
              by (apply (run_update _ _ _ _ _ l rest);
                  [exact Hid | exact (F _) | exact (F _) | exact Hl]).
            change (find_user (up_userId l) _) with (find_user (up_userId l) w).
            rewrite Hu.
            erewrite bind_ok
              by (apply getNewRefreshToken_run; exact (F _)).
            reflexivity. }
       reflexivity. }
  cbn [fst snd]. split; [reflexivity|]. split; [reflexivity|].
  split; [reflexivity|]. world_fields. apply lookup_delete_eq.
Qed.
End CallbackAnswers.

(* ===================================================================== *)
(** * The provider table                                                 *)
(* ===================================================================== *)

Lemma unique_aux_spec seen l :
  NoDup (Js.unique_aux seen l)
  /\ forall x, x ∈ Js.unique_aux seen l <-> x ∈ l /\ x ∉ seen.
Proof.
  revert seen. induction l as [|y l IH]; intros seen; cbn.
  - split; [constructor|]. intros x. rewrite elem_of_nil. tauto.
  - destruct (bool_decide_reflect (y ∈ seen)) as [Hy|Hy].
    + destruct (IH seen) as [Hnd Hin]. split; [exact Hnd|].
      intros x. rewrite Hin, elem_of_cons. split; [tauto|].
      intros [[->|Hx] Hs]; [contradiction | tauto].
    + destruct (IH (y :: seen)) as [Hnd Hin]. split.
      * constructor; [|exact Hnd]. rewrite Hin, elem_of_cons. tauto.
      * intros x. rewrite !elem_of_cons, Hin, elem_of_cons. split.
        -- intros [->|[Hx Hs]]; [tauto|]. split; [tauto|]. tauto.
        -- intros [[->|Hx] Hs]; [tauto|].
           destruct (decide (x = y)) as [->|Hne]; [tauto|]. right. tauto.
Qed.

Lemma unique_spec l :
  NoDup (Js.unique l) /\ forall x, x ∈ Js.unique l <-> x ∈ l.
Proof.
  destruct (unique_aux_spec [] l) as [Hnd Hin]. split; [exact Hnd|].
  intros x. unfold Js.unique. rewrite Hin, elem_of_nil. tauto.
Qed.

Section ProviderTable.
Context `{env : Collaborators}.

(** X13. Every enabled provider of [PROVIDERS_CONFIG] has an entry in the
    Grant configuration, with the credentials of its configuration. Without
    custom scopes the entry is the configuration itself; with custom scopes
    its scope is the union of the configured and the custom scopes, each
    once. (Provider names are taken to be distinct, as the keys of an
    object are.) *)
Theorem createGrantConfig_enabled provider config :
  NoDup (List.map fst PROVIDERS_CONFIG) ->
  (provider, config) ∈ PROVIDERS_CONFIG ->
  enabled provider = true ->
  exists g,
    Utils.createGrantConfig !! provider = Some g
    /\ same_credentials g (pc_grant config)
    /\ (custom_scope provider = [] -> g = pc_grant config)
    /\ (custom_scope provider <> [] ->
        NoDup (scopes_of g)
        /\ forall x, x ∈ scopes_of g <->
                     x ∈ scopes_of (pc_grant config)
                     \/ x ∈ custom_scope provider).
Proof.
  unfold Utils.createGrantConfig.
  generalize ({["defaults" := Utils.grant_defaults]}
              : gmap string GrantProvider).
  induction PROVIDERS_CONFIG as [|entry entries IH]; intros acc Hnd Hin Hen.
  - now apply elem_of_nil in Hin.
  - cbn [fold_left]. cbn in Hnd. apply NoDup_cons in Hnd as [Hfresh Hnd].
    apply elem_of_cons in Hin as [<-|Hin].
    + match goal with
      | |- context [ fold_left ?f entries _ ] =>
          assert (Hkeep : forall acc0 : gmap string GrantProvider,
                     fold_left f entries acc0 !! provider = acc0 !! provider)
      end.
      { clear IH Hnd. revert Hfresh. cbn [fst].
        induction entries as [|e es IHes]; intros Hfresh acc0;
          [reflexivity|].
        cbn [fold_left]. rewrite IHes.
        - destruct (castBooleanEnv _); [|reflexivity].
          apply lookup_insert_ne. intros Heq. apply Hfresh.
          cbn. apply elem_of_cons. left. now symmetry.
        - intros Hx. apply Hfresh. cbn. apply elem_of_cons. now right. }
      cbn [fst snd]. fold (enabled provider). fold (custom_scope provider).
      rewrite Hen.
      rewrite Hkeep, lookup_insert_eq. eexists. split; [reflexivity|].
      destruct (custom_scope provider) as [|c cs] eqn:Hcs.
      * split; [now repeat split|]. split; [reflexivity | congruence].
      * split; [now repeat split|]. split; [discriminate|]. intros _.
        unfold scopes_of at 1 2. cbn [scope Utils.with_scope].
        destruct (unique_spec
                    (match scope (pc_grant config) with
                     | Some (ScopeArray l) => l
                     | Some (ScopeString s) => [s]
                     | None => []
                     end ++ c :: cs)) as [Hn Hi].
        split; [exact Hn|]. intros x. rewrite Hi, elem_of_app. reflexivity.
    + apply IH; try assumption.
Qed.

(** X14. The provider validation calls [next()] exactly for the names that
    are keys of the Grant configuration with a complete credential pair
    ([client_id] and [client_secret], or [key] and [secret]). *)
Theorem validateProvider_lets_through provider redirectTo w :
  (Router.validateProvider provider redirectTo w).1 = Ok Next
  <-> exists config,
        Router.grantConfig !! provider = Some config
        /\ configured config = true.
Proof.
  unfold Router.validateProvider, Js.lookup, configured.
  destruct (Router.grantConfig !! provider) as [config|].
  - destruct (Js.truthy (client_id config) && Js.truthy (client_secret config))
      eqn:HA;
      destruct (Js.truthy (key config) && Js.truthy (secret config)) eqn:HB;
      cbn;
      (split;
       [ first [ discriminate
               | intros _; exists config;
                 split; [reflexivity | now rewrite HA, HB] ]
       | first [ intros _; reflexivity
               | intros (c & E & Hc); injection E as <-;
                 now rewrite HA, HB in Hc ] ]).
  - split; [destruct (bool_decide _); discriminate|].
    intros (c & E & _). discriminate.
Qed.

(** X15. On every deployment, [defaults] and the names of the members of
    [Object.prototype] are answered [invalid-oauth-configuration] (unless a
    provider of that name is enabled): they pass the test for an enabled
    provider and hold no credentials. *)
Theorem validateProvider_reserved_names provider redirectTo w :
  (forall entry, entry ∈ PROVIDERS_CONFIG -> entry.1 = provider ->
                 enabled entry.1 = false) ->
  provider = "defaults" \/ provider ∈ Js.object_prototype_keys ->
  (Router.validateProvider provider redirectTo w).1 =
  Ok (SendError "invalid-oauth-configuration" redirectTo true).
Proof.
  intros Hoff Hres. unfold Router.validateProvider, Js.lookup.
  unfold Router.grantConfig.
  rewrite (createGrantConfig_lookup_other _ Hoff).
  destruct (decide (provider = "defaults")) as [->|Hd].
  - rewrite lookup_singleton_eq. reflexivity.
  - rewrite lookup_singleton_ne by congruence.
    destruct Hres as [|Hp]; [contradiction|].
    rewrite bool_decide_eq_true_2 by exact Hp. reflexivity.
Qed.
End ProviderTable.

(* ===================================================================== *)
(** * The native flow, the enrolment and the role strings                *)
(* ===================================================================== *)

Lemma urldecode_byte c rest :
  urldecode (NativeUrl.urlencode_byte c +:+ rest) = String c (urldecode rest).
Proof.
  destruct c as [[] [] [] [] [] [] [] []]; reflexivity.
Qed.

Lemma urlencode_byte_safe c :
  string_forall url_safe (NativeUrl.urlencode_byte c) = true.
Proof.
  destruct c as [[] [] [] [] [] [] [] []]; reflexivity.
Qed.

Lemma string_forall_append p a b :
  string_forall p (a +:+ b) = string_forall p a && string_forall p b.
Proof.
  induction a as [|c a IH]; simpl; [reflexivity|].
  now rewrite IH, andb_assoc.
Qed.

Lemma append_cancel p a b : p +:+ a = p +:+ b -> a = b.
Proof.
  induction p as [|c p IH]; simpl; [trivial|].
  intros E. injection E as E. now apply IH.
Qed.

Lemma urldecode_urlencode s : urldecode (NativeUrl.urlencode s) = s.
Proof.
  induction s as [|c s IH]; [reflexivity|].
  cbn [NativeUrl.urlencode]. now rewrite urldecode_byte, IH.
Qed.

(** X16. The url of the identity endpoint carries the access token and
    nothing else of the caller's: it is the base url followed by
    [?access_token=] and the encoded token; the encoded token is made of
    unreserved characters, [+] and [%] only (so no [&], [=] or [#] of the
    token can add a parameter or cut the query, and assigning it to
    [url.search] changes nothing); decoding gives the token back, and two
    tokens never give the same url. *)
Theorem userInfoEndpoint_carries_token accessToken :
  NativeUrl.userInfoEndpoint accessToken
  = NativeUrl.baseUrl +:+ "?access_token="
    +:+ NativeUrl.urlencode accessToken
  /\ string_forall url_safe (NativeUrl.urlencode accessToken) = true
  /\ urldecode (NativeUrl.urlencode accessToken) = accessToken
  /\ forall other,
       NativeUrl.userInfoEndpoint accessToken
       = NativeUrl.userInfoEndpoint other ->
       accessToken = other.
Proof.
  split; [reflexivity|]. split; [|split].
  - induction accessToken as [|c s IH]; [reflexivity|].
    cbn [NativeUrl.urlencode].
    now rewrite string_forall_append, urlencode_byte_safe, IH.
  - apply urldecode_urlencode.
  - intros other E. unfold NativeUrl.userInfoEndpoint in E. cbv zeta in E.
    apply append_cancel, append_cancel, append_cancel in E.
    rewrite <- (urldecode_urlencode accessToken), E.
    apply urldecode_urlencode.
Qed.

Lemma utf8_width_seven_bit c : seven_bit c = true -> Native.utf8_width c = 1.
Proof.
  unfold seven_bit, Native.utf8_width. intros H%Nat.ltb_lt.
  destruct (Nat.ltb_spec (nat_of_ascii c) 192) as [_|Hge]; [reflexivity|].
  lia.
Qed.

(** On a string that starts with seven-bit characters, [slice(0, 2)] keeps
    the first two characters. *)
Lemma slice_0_2_seven_bit s :
  string_forall seven_bit (String.substring 0 2 s) = true ->
  Native.slice_0_2 s = String.substring 0 2 s.
Proof.
  unfold Native.slice_0_2.
  destruct s as [|a [|b rest]]; [reflexivity| |].
  - cbn [String.substring string_forall]. intros H.
    apply andb_true_iff in H as [Ha _].
    cbn [Native.take_units]. rewrite (utf8_width_seven_bit _ Ha).
    reflexivity.
  - cbn [String.substring string_forall].
    replace (String.substring 0 0 rest) with EmptyString
      by (destruct rest; reflexivity).
    cbn [string_forall]. intros H.
    apply andb_true_iff in H as [Ha H].
    apply andb_true_iff in H as [Hb _].
    cbn [Native.take_units]. rewrite (utf8_width_seven_bit _ Ha).
    cbn [Native.take_bytes Native.drop_bytes String.append].
    rewrite (utf8_width_seven_bit _ Hb). reflexivity.
Qed.

(** What [normaliseProfile] makes of the [locale] of an answer. *)
Lemma normaliseProfile_cases data :
  match Js.get "locale" data with
  | Some (Js.JNum _) | Some (Js.JBool _) | Some (Js.JObj _) =>
      Native.normaliseProfile data
      = Throw (Js.Error "locale?.slice is not a function")
  | Some (Js.JArr _) => Native.normaliseProfile data = Ok Native.Untyped
  | Some (Js.JStr locale) =>
      forall profile,
        Native.normaliseProfile data = Ok (Native.Typed profile) ->
        np_locale profile = Some (Native.slice_0_2 locale)
  | Some Js.JNull | None =>
      forall profile,
        Native.normaliseProfile data = Ok (Native.Typed profile) ->
        np_locale profile = None
  end.
Proof.
  unfold Native.normaliseProfile, Native.locale_field, Native.text_field.
  destruct (Js.get "locale" data) as [[| | | | |]|]; try reflexivity;
    destruct (Js.get "sub" data) as [[| | | | |]|];
    destruct (Js.get "name" data) as [[| | | | |]|];
    destruct (Js.get "picture" data) as [[| | | | |]|];
    destruct (Js.get "email" data) as [[| | | | |]|];
    first [reflexivity | intros profile [= <-]; reflexivity].
Qed.

Lemma normaliseProfile_id data profile :
  Native.normaliseProfile data = Ok (Native.Typed profile) ->
  np_id profile = Native.string_field "sub" data.
Proof.
  unfold Native.normaliseProfile, Native.locale_field, Native.text_field,
    Native.string_field.
  destruct (Js.get "locale" data) as [[| | | | |]|]; try discriminate;
    destruct (Js.get "sub" data) as [[| | | | |]|];
    destruct (Js.get "name" data) as [[| | | | |]|];
    destruct (Js.get "picture" data) as [[| | | | |]|];
    destruct (Js.get "email" data) as [[| | | | |]|];
    intros [= <-]; reflexivity.
Qed.

Lemma normaliseProfile_throws data :
  (forall e,
      Native.normaliseProfile data = Throw e ->
      no_slice (Js.get "locale" data) = true)
  /\ (no_slice (Js.get "locale" data) = true ->
      Native.normaliseProfile data
      = Throw (Js.Error "locale?.slice is not a function")).
Proof.
  unfold no_slice, Native.normaliseProfile, Native.locale_field.
  destruct (Js.get "locale" data) as [[| | | | |]|];
    (split; [intros e He; first [reflexivity | discriminate He]
            | first [discriminate | reflexivity]]).
Qed.

Section NativeAnswers.
Context `{env : Collaborators}.

(** X17. The locale the native flow takes from Google's answer is what
    [slice(0, 2)] keeps of its [locale]: for a [locale] that starts with
    seven-bit characters, exactly its first two characters ([en-GB] gives
    [en]); the profile has no locale when the answer's is [null]. And
    [normaliseProfile] throws exactly when the answer's [locale] is a
    number, a boolean or an object, which have no [slice]. *)
Theorem normaliseProfile_locale data :
  (forall profile,
      Native.normaliseProfile data = Ok (Native.Typed profile) ->
      match Js.get "locale" data with
      | Some (Js.JStr locale) =>
          np_locale profile = Some (Native.slice_0_2 locale)
          /\ (string_forall seven_bit (String.substring 0 2 locale) = true ->
              np_locale profile = Some (String.substring 0 2 locale))
      | _ => np_locale profile = None
      end)
  /\ ((exists e, Native.normaliseProfile data = Throw e)
      <-> no_slice (Js.get "locale" data) = true).
Proof.
  pose proof (normaliseProfile_cases data) as C. split.
  - intros profile Hp.
    destruct (Js.get "locale" data) as [[| | | locale | |]|];
      try (rewrite C in Hp; discriminate); try (exact (C profile Hp)).
    pose proof (C profile Hp) as Hl. split; [exact Hl|].
    intros Hs. now rewrite Hl, slice_0_2_seven_bit.
  - destruct (normaliseProfile_throws data) as [H1 H2]. split.
    + intros [e He]. exact (H1 e He).
    + intros Hs. eexists. exact (H2 Hs).
Qed.

Lemma escapes_throws google untyped accessToken payload w :
  google accessToken = Ok payload ->
  escapes payload = true ->
  exists message,
    Native.signInWithGoogleAccessToken google untyped accessToken w
    = (Throw (Js.Error message), emit (EvFetch accessToken) w).
Proof.
  intros Hg He. unfold escapes in He.
  apply andb_true_iff in He as [He1 He2].
  apply negb_true_iff in He1.
  unfold Native.signInWithGoogleAccessToken, Native.fetch_userinfo.
  erewrite bind_ok by (unfold traced; rewrite Hg; reflexivity).
  rewrite He1.
  destruct (Native.isUserData payload); cbn [negb].
  - rewrite (proj2 (normaliseProfile_throws payload) He2).
    eexists. reflexivity.
  - apply bool_decide_eq_true in He2. unfold Native.concat.
    rewrite He2. eexists. reflexivity.
Qed.

(** X18. Once Google's endpoint has answered, the native handler sends a
    response, except on two kinds of answer, on which it throws outside
    its [try] and sends nothing: an answer of unknown format that has no
    rendering (an object with a [toString] key of its own), and user data
    whose [locale] is a number, a boolean or an object. Everywhere else an
    error of account resolution (a store rejection included) is sent as
    the text of its message, a thrown value that is no [Error] as
    [Unexpected Error: ...], and a success as the refresh token. When the
    fetch itself fails, the failure leaves the handler, and nothing else
    has been done. *)
Theorem signInWithGoogleAccessToken_answers google untyped accessToken w :
  let run :=
    Native.signInWithGoogleAccessToken google untyped accessToken w in
  match google accessToken with
  | Throw e => run = (Throw e, emit (EvFetch accessToken) w)
  | Ok payload =>
      (escapes payload = true ->
       exists message,
         run = (Throw (Js.Error message), emit (EvFetch accessToken) w))
      /\ (escapes payload = false -> exists body, run.1 = Ok (Send body))
      /\ (forall profile,
             Native.isErrorResponse payload = false ->
             Native.isUserData payload = true ->
             Native.normaliseProfile payload = Ok profile ->
             let resolution :=
               Native.resolve untyped accessToken payload profile
                 (emit (EvFetch accessToken) w) in
             match resolution.1 with
             | Ok refreshToken =>
                 run.1 = Ok (Send (BodyRefreshToken refreshToken))
             | Throw (Js.Error message) =>
                 run.1 = Ok (Send (BodyText message))
             | Throw (Js.NonError rendering) =>
                 run.1 = Ok (Send (BodyText ("Unexpected Error: "
                                             +:+ rendering)))
             end
             /\ users run.2 = users resolution.2
             /\ userProviders run.2 = userProviders resolution.2)
  end.
Proof.
  intros run. subst run.
  destruct (google accessToken) as [payload|e] eqn:Hg.
  2: { unfold Native.signInWithGoogleAccessToken, Native.fetch_userinfo.
       erewrite bind_throw by (unfold traced; rewrite Hg; reflexivity).
       reflexivity. }
  split; [exact (escapes_throws google untyped accessToken payload w Hg)|].
  assert (Htry : forall profile,
             Native.isErrorResponse payload = false ->
             Native.isUserData payload = true ->
             Native.normaliseProfile payload = Ok profile ->
             let run :=
               Native.signInWithGoogleAccessToken google untyped accessToken
                 w in
             let resolution :=
               Native.resolve untyped accessToken payload profile
                 (emit (EvFetch accessToken) w) in
             match resolution.1 with
             | Ok refreshToken =>
                 run.1 = Ok (Send (BodyRefreshToken refreshToken))
             | Throw (Js.Error message) =>
                 run.1 = Ok (Send (BodyText message))
             | Throw (Js.NonError rendering) =>
                 run.1 = Ok (Send (BodyText ("Unexpected Error: "
                                             +:+ rendering)))
             end
             /\ users run.2 = users resolution.2
             /\ userProviders run.2 = userProviders resolution.2).
  { intros profile He Hd Hn run resolution. subst run resolution.
    unfold Native.signInWithGoogleAccessToken, Native.fetch_userinfo.
    erewrite bind_ok by (unfold traced; rewrite Hg; reflexivity).
    rewrite He, Hd, Hn. cbn [negb].
    destruct (Native.resolve untyped accessToken payload profile
                (emit (EvFetch accessToken) w)) as [[token|[m|r]] w1] eqn:Hc.
    - erewrite try_catch_ok
        by (erewrite bind_ok by exact Hc; reflexivity).
      repeat split; reflexivity.
    - erewrite try_catch_throw
        by (erewrite bind_throw by exact Hc; reflexivity).
      repeat split; reflexivity.
    - erewrite try_catch_throw
        by (erewrite bind_throw by exact Hc; reflexivity).
      repeat split; reflexivity. }
  split; [|exact Htry].
  intros Hesc. unfold escapes in Hesc.
  destruct (Native.isErrorResponse payload) eqn:He.
  { unfold Native.signInWithGoogleAccessToken, Native.fetch_userinfo.
    erewrite bind_ok by (unfold traced; rewrite Hg; reflexivity).
    rewrite He. eexists. reflexivity. }
  cbn [negb andb] in Hesc.
  destruct (Native.isUserData payload) eqn:Hd.
  - destruct (Native.normaliseProfile payload) as [profile|e] eqn:Hn.
    + specialize (Htry profile eq_refl eq_refl eq_refl). cbv zeta in Htry.
      destruct Htry as (Htry & _).
      destruct (Native.resolve untyped accessToken payload profile
                  (emit (EvFetch accessToken) w)).1 as [token|[m|r]];
        eauto.
    + rewrite (proj1 (normaliseProfile_throws payload) e Hn) in Hesc.
      discriminate.
  - apply bool_decide_eq_false in Hesc.
    unfold Native.signInWithGoogleAccessToken, Native.fetch_userinfo.
    erewrite bind_ok by (unfold traced; rewrite Hg; reflexivity).
    rewrite He, Hd. cbn [negb]. unfold Native.concat.
    destruct (Js.to_string payload) as [rendering|]; [|contradiction].
    eexists. reflexivity.
Qed.

End NativeAnswers.

Section NativeAccount.
Context `{env : Collaborators}.

(** X19. Native sign-in of a known Google account, end to end, on an
    answer whose fields are of the declared types: the [sub] of Google's
    answer is the external id; the handler sends a newly minted refresh
    token, stores the presented access token on the link (the flow has no
    provider refresh token to store), and leaves the user table
    unchanged. *)
Theorem signInWithGoogleAccessToken_known_account google untyped accessToken
    payload profile w sub l rest u :
  no_faults w ->
  google accessToken = Ok payload ->
  Native.isErrorResponse payload = false ->
  Native.isUserData payload = true ->
  Native.normaliseProfile payload = Ok (Native.Typed profile) ->
  Js.get "sub" payload = Some (Js.JStr sub) ->
  sub <> "" ->
  links_of "google" sub w = l :: rest ->
  find_user (up_userId l) w = Some u ->
  let run :=
    Native.signInWithGoogleAccessToken google untyped accessToken w in
  run.1 = Ok (Send (BodyRefreshToken (next_uuid w)))
  /\ users run.2 = users w
  /\ userProviders run.2 =
     List.map (token_update (Some accessToken) None (up_id l))
              (userProviders w).
Proof.
  intros F Hg He Hd Hn Hsub Hne Hl Hu run. subst run.
  unfold Native.signInWithGoogleAccessToken, Native.fetch_userinfo.
  erewrite bind_ok by (unfold traced; rewrite Hg; reflexivity).
  rewrite He, Hd, Hn. cbn [negb Native.resolve].
  assert (Hid : np_id profile = Some sub).
  { rewrite (normaliseProfile_id _ _ Hn). unfold Native.string_field.
    now rewrite Hsub. }
  assert (Ht : Js.truthy (np_id profile) = true).
  { apply truthy_Some. exists sub. split; [exact Hid | exact Hne]. }
  erewrite try_catch_ok.
  2: { unfold Utils.createUser.
       erewrite bind_ok.
       2: { erewrite bind_ok
              by (apply (run_update _ _ _ _ _ l rest);
                  [exact Ht | exact (F _) | exact (F _)
                  | rewrite Hid; exact Hl]).
            change (find_user (up_userId l) _)
              with (find_user (up_userId l) w).
            rewrite Hu.
            erewrite bind_ok
              by (apply getNewRefreshToken_run; exact (F _)).
            reflexivity. }
       reflexivity. }
  cbn [fst snd]. repeat split; reflexivity.
Qed.

(** X28. The two copies of the native handler among the sources take the
    same steps and leave the same state. What the first answers is read
    off what the second answers: an error the second sends as an object
    [{ error }] is sent by the first as the text of [error]; an answer of
    Google of unknown format, which the second sends back as [data] under
    the error [unknown format for google response!], is sent by the first
    as the text [unknown format for google response: ] with its rendering,
    or makes the first throw when it has no rendering; a refresh token, an
    error payload of Google and an exception are the same in both. *)
Theorem signInWithGoogleAccessToken_copies_agree google untyped accessToken
    w :
  let first :=
    Native.signInWithGoogleAccessToken google untyped accessToken w in
  let second :=
    Native.signInWithGoogleAccessToken_objects google untyped accessToken
      w in
  second.2 = first.2
  /\ match google accessToken with
     | Throw e => first.1 = Throw e /\ second.1 = Throw e
     | Ok payload =>
         first.1 = as_text payload second.1
         /\ (Native.isErrorResponse payload = false ->
             Native.isUserData payload = false ->
             second.1 = Ok (Send (BodyError
                                    "unknown format for google response!"
                                    (Some payload))))
     end.
Proof.
  intros first second. subst first second.
  unfold Native.signInWithGoogleAccessToken,
    Native.signInWithGoogleAccessToken_objects, Native.fetch_userinfo.
  destruct (google accessToken) as [payload|e] eqn:Hg.
  2: { erewrite !bind_throw by reflexivity. repeat split. }
  erewrite !bind_ok by reflexivity.
  destruct (Native.isErrorResponse payload).
  { repeat split. discriminate. }
  destruct (Native.isUserData payload); cbn [negb].
  2: { unfold Native.concat.
       destruct (Js.to_string payload) as [rendering|] eqn:Hr;
         cbn; rewrite ?Hr; repeat split. }
  destruct (Native.normaliseProfile payload) as [profile|e].
  2: { repeat split. discriminate. }
  destruct (Native.resolve untyped accessToken payload profile
              (emit (EvFetch accessToken) w)) as [[token|[m|r]] w1] eqn:Hc.
  - erewrite !try_catch_ok
      by (erewrite bind_ok by exact Hc; reflexivity).
    repeat split. discriminate.
  - erewrite !try_catch_throw
      by (erewrite bind_throw by exact Hc; reflexivity).
    repeat split. discriminate.
  - erewrite !try_catch_throw
      by (erewrite bind_throw by exact Hc; reflexivity).
    repeat split. discriminate.
Qed.

End NativeAccount.

Section Enrolment.
Context `{env : Collaborators}.

Lemma generateWebAuthnRegistrationOptions_run id email displayName w :
  faults w OpGetUserAuthenticators = None ->
  faults w OpUpdateUserChallenge = None ->
  let challenge :=
    generateRegistrationOptions WebAuthn.getWebAuthnRelyingParty
      AUTH_WEBAUTHN_RP_NAME id
      (match displayName with Some d => Some d | None => email end)
      (List.map au_credentialId
         (List.filter (fun a => N.eqb (au_userId a) id) (authenticators w)))
      (next_uuid w) in
  WebAuthn.generateWebAuthnRegistrationOptions id email displayName w =
  (Ok challenge,
   update_user id (set_currentChallenge (Some challenge))
     (emit (EvStore OpUpdateUserChallenge)
        (set_next_uuid (N.succ (next_uuid w))
           (emit (EvStore OpGetUserAuthenticators) w)))).
Proof.
  intros F1 F2 challenge. subst challenge.
  unfold WebAuthn.generateWebAuthnRegistrationOptions.
  unfold getUserAuthenticators, updateUserChallenge.
  erewrite bind_ok by (rewrite call_ok by exact F1; reflexivity).
  erewrite bind_ok by reflexivity.
  erewrite bind_ok by (rewrite call_ok by exact F2; reflexivity).
  reflexivity.
Qed.

Lemma verifyWebAuthnRegistration_verified id credential nickname w user
    challenge pk cid counter :
  no_faults w ->
  find_user id w = Some user ->
  user_currentChallenge user = Some challenge ->
  challenge <> "" ->
  verifyRegistrationResponse credential challenge AUTH_WEBAUTHN_RP_ORIGINS
    WebAuthn.getWebAuthnRelyingParty = Ok (true, Some (pk, cid, counter)) ->
  WebAuthn.verifyWebAuthnRegistration id credential nickname w =
  (Ok tt,
   update_user id (set_currentChallenge None)
     (emit (EvStore OpUpdateUser)
        (set_authenticators
           (fun l => l ++ [mkAuthenticator (next_uuid w) id (base64url cid)
                             ("\x" +:+ hex pk) counter nickname])
           (set_next_uuid (N.succ (next_uuid w))
              (emit (EvStore OpAddUserAuthenticator)
                 (emit (EvStore OpGetUserChallenge) w)))))).
Proof.
  intros F Hu Hc Hne Hv.
  assert (Ht : Js.truthy (user_currentChallenge user) = true).
  { apply truthy_Some. eauto. }
  unfold WebAuthn.verifyWebAuthnRegistration.
  step getUserChallenge_run (F OpGetUserChallenge).
  rewrite Hu, Ht, Hc. cbn [negb].
  change (default "" (Some challenge)) with challenge.
  rewrite Hv. cbn [negb].
  step addUserAuthenticator_run (F OpAddUserAuthenticator).
  cbv beta iota.
  rewrite updateUser_clearChallenge_run by exact (F OpUpdateUser).
  reflexivity.
Qed.

(** X20. Enrolment round trip. Issuing registration options stores the
    issued challenge on the user, over any challenge outstanding, and adds
    no authenticator; a credential that verifies against the issued
    challenge is then accepted: one authenticator of that user is added,
    the challenge is cleared, and no user record changes otherwise. *)
Theorem generateWebAuthnRegistrationOptions_then_verify id email displayName
    credential nickname w user pk cid counter :
  no_faults w ->
  find_user id w = Some user ->
  let issue :=
    WebAuthn.generateWebAuthnRegistrationOptions id email displayName w in
  forall challenge,
    issue.1 = Ok challenge ->
    challenge <> "" ->
    verifyRegistrationResponse credential challenge AUTH_WEBAUTHN_RP_ORIGINS
      WebAuthn.getWebAuthnRelyingParty = Ok (true, Some (pk, cid, counter)) ->
    let verify :=
      WebAuthn.verifyWebAuthnRegistration id credential nickname issue.2 in
    user_currentChallenge <$> find_user id issue.2 = Some (Some challenge)
    /\ authenticators issue.2 = authenticators w
    /\ verify.1 = Ok tt
    /\ user_currentChallenge <$> find_user id verify.2 = Some None
    /\ (exists row,
          authenticators verify.2 = authenticators w ++ [row]
          /\ au_userId row = id
          /\ au_credentialId row = base64url cid)
    /\ List.map (set_currentChallenge None) (users verify.2)
       = List.map (set_currentChallenge None) (users w).
Proof.
  intros F Hu issue challenge Hi Hne Hv verify.
  subst issue verify.
  rewrite generateWebAuthnRegistrationOptions_run in * by exact (F _).
  cbn [fst snd] in *. injection Hi as Hi. rewrite Hi in *.
  match goal with
  | |- context [WebAuthn.verifyWebAuthnRegistration _ _ _ ?w1] =>
      set (issued := w1)
  end.
  assert (Hu1 : find_user id issued
                = Some (set_currentChallenge (Some challenge) user)).
  { subst issued. rewrite find_user_update_user by reflexivity.
    change (find_user id _) with (find_user id w). now rewrite Hu. }
  rewrite (verifyWebAuthnRegistration_verified id credential nickname issued
             _ challenge pk cid counter (fun op => F op) Hu1 eq_refl Hne Hv).
  cbn [fst snd].
  split; [now rewrite Hu1|]. split; [reflexivity|]. split; [reflexivity|].
  split.
  { rewrite find_user_update_user by reflexivity.
    change (find_user id _) with (find_user id issued). now rewrite Hu1. }
  split.
  { eexists. split; [reflexivity|]. split; reflexivity. }
  cbn. rewrite !List.map_map. apply List.map_ext. intros u.
  destruct u as [uid ? ? ? ? ? ? ? ? ?]. unfold set_currentChallenge. cbn.
  destruct (N.eqb uid id) eqn:E; cbn; rewrite ?E; reflexivity.
Qed.

(** X21. With a store that answers, a verification that fails throws one
    of four messages ([user-not-found] exactly when there is no such user,
    [invalid-request], [invalid-webauthn-authenticator],
    [invalid-webauthn-verification]), never the exception of the
    verification library, and has written nothing: no authenticator, no
    change to a user, no id drawn. *)
Theorem verifyWebAuthnRegistration_throws_without_writing id credential
    nickname w e :
  no_faults w ->
  (WebAuthn.verifyWebAuthnRegistration id credential nickname w).1 = Throw e ->
  let run := WebAuthn.verifyWebAuthnRegistration id credential nickname w in
  (exists message,
      e = Js.Error message
      /\ In message ["user-not-found"; "invalid-request";
                     "invalid-webauthn-authenticator";
                     "invalid-webauthn-verification"])
  /\ (e = Js.Error "user-not-found" <-> find_user id w = None)
  /\ users run.2 = users w
  /\ authenticators run.2 = authenticators w
  /\ next_uuid run.2 = next_uuid w.
Proof.
  intros F. unfold WebAuthn.verifyWebAuthnRegistration.
  step getUserChallenge_run (F OpGetUserChallenge).
  destruct (find_user id w) as [user|] eqn:Hu.
  2: { cbn. intros [= <-]. repeat split; eauto 6. }
  destruct (Js.truthy (user_currentChallenge user)) eqn:Ht; cbn [negb].
  2: { cbn. intros [= <-]. repeat split; eauto 6; discriminate. }
  destruct (verifyRegistrationResponse _ _ _ _)
    as [[verified [[[pk cid] counter]|]]|e'].
  - destruct verified; cbn [negb].
    + step addUserAuthenticator_run (F OpAddUserAuthenticator).
      cbv beta iota.
      rewrite updateUser_clearChallenge_run by exact (F OpUpdateUser).
      discriminate.
    + cbn. intros [= <-]. repeat split; eauto 7; discriminate.
  - destruct verified; cbn; intros [= <-]; repeat split; eauto 7;
      discriminate.
  - cbn. intros [= <-]. repeat split; eauto 7; discriminate.
Qed.

(** X22. Store failures after a credential has verified. When the insert of
    the authenticator rejects, or resolves empty
    ([Something went wrong. ...]), the attempt throws and nothing is
    written. When the insert succeeds and the update that clears the
    challenge rejects, the attempt throws with the authenticator persisted
    and the challenge still stored. *)
Theorem verifyWebAuthnRegistration_store_failures id credential nickname w
    user challenge pk cid counter :
  faults w OpGetUserChallenge = None ->
  find_user id w = Some user ->
  user_currentChallenge user = Some challenge ->
  challenge <> "" ->
  verifyRegistrationResponse credential challenge AUTH_WEBAUTHN_RP_ORIGINS
    WebAuthn.getWebAuthnRelyingParty = Ok (true, Some (pk, cid, counter)) ->
  let run := WebAuthn.verifyWebAuthnRegistration id credential nickname w in
  (forall e,
      faults w OpAddUserAuthenticator = Some (Rejects e) ->
      run.1 = Throw e
      /\ authenticators run.2 = authenticators w
      /\ users run.2 = users w)
  /\ (faults w OpAddUserAuthenticator = Some YieldsNull ->
      run.1 = Throw (Js.Error
        "Something went wrong. Impossible to insert new authenticator in the database.")
      /\ authenticators run.2 = authenticators w
      /\ users run.2 = users w)
  /\ (forall e,
         faults w OpAddUserAuthenticator = None ->
         faults w OpUpdateUser = Some (Rejects e) ->
         run.1 = Throw e
         /\ authenticators run.2 =
            authenticators w
            ++ [mkAuthenticator (next_uuid w) id (base64url cid)
                                ("\x" +:+ hex pk) counter nickname]
         /\ users run.2 = users w
         /\ user_currentChallenge <$> find_user id run.2
            = Some (Some challenge)).
Proof.
  intros F Hu Hc Hne Hv run. subst run.
  assert (Ht : Js.truthy (user_currentChallenge user) = true).
  { apply truthy_Some. eauto. }
  unfold WebAuthn.verifyWebAuthnRegistration.
  step getUserChallenge_run F.
  rewrite Hu, Ht, Hc. cbn [negb].
  change (default "" (Some challenge)) with challenge.
  rewrite Hv. cbn [negb].
  split; [|split].
  - intros e Fa.
    erewrite bind_throw
      by (unfold addUserAuthenticator; apply call_rejects; exact Fa).
    repeat split; reflexivity.
  - intros Fa.
    erewrite bind_ok
      by (unfold addUserAuthenticator; apply call_null; exact Fa).
    repeat split; reflexivity.
  - intros e Fa Fu.
    step addUserAuthenticator_run Fa. cbv beta iota.
    unfold updateUser_clearChallenge.
    rewrite (call_rejects _ _ _ _ e) by exact Fu.
    cbn [fst snd]. split; [reflexivity|]. split; [reflexivity|].
    split; [reflexivity|].
    change (find_user id _) with (find_user id w). rewrite Hu. cbn.
    now rewrite Hc.
Qed.

End Enrolment.

Lemma split_pieces c s :
  Js.split c s <> []
  /\ Js.join (String c EmptyString) (Js.split c s) = s
  /\ Forall (fun piece => Js.contains c piece = false) (Js.split c s)
  /\ length (Js.split c s) = S (count_char c s).
Proof.
  induction s as [|d s (Hne & Hj & Hall & Hlen)]; cbn [Js.split count_char].
  - repeat split; [discriminate | repeat constructor].
  - destruct (Ascii.eqb d c) eqn:E.
    + apply Ascii.eqb_eq in E as ->.
      split; [discriminate|]. split; [|split].
      * destruct (Js.split c s) as [|h t] eqn:Hs; [contradiction|].
        unfold Js.join in *.
        change (String.concat (String c "") ("" :: h :: t))
          with (String c (String.concat (String c "") (h :: t))).
        now rewrite Hj.
      * constructor; [reflexivity | exact Hall].
      * cbn [length]. now rewrite Hlen.
    + destruct (Js.split c s) as [|h t] eqn:Hs; [contradiction|].
      split; [discriminate|]. split; [|split].
      * unfold Js.join in *. rewrite <- Hj.
        destruct t; reflexivity.
      * inversion Hall as [|? ? Hh Ht]; subst.
        constructor; [|exact Ht]. cbn [Js.contains]. now rewrite E, Hh.
      * exact Hlen.
Qed.

Section RoleStrings.
Context `{env : Collaborators}.

(** X23. An [allowedRoles] option given as a non-empty string is cut at its
    commas and nowhere else: joining the roles with commas gives the string
    back, no role holds a comma, there is one role more than there are
    commas, and a string without a comma is one role. Nothing is trimmed
    or dropped. *)
Theorem allowedRoles_of_string options s :
  s <> "" ->
  let roles :=
    Utils.allowedRoles_of
      (Some (with_allowedRoles (Some (RolesString s)) options)) in
  Js.join "," roles = s
  /\ Forall (fun role => Js.contains "," role = false) roles
  /\ length roles = S (count_char "," s)
  /\ (Js.contains "," s = false -> roles = [s]).
Proof.
  intros Hs roles. subst roles.
  unfold Utils.allowedRoles_of. cbn.
  destruct (String.eqb_spec s "") as [|_]; [contradiction|]. cbn.
  destruct (split_pieces "," s) as (_ & Hj & Hall & Hlen).
  repeat split; try assumption. apply split_without_separator.
Qed.

(** X24. A first sign-in without registration options: the user is created
    with the validated email, the provider's display name or else the
    email as display name, the default allowed roles and default role,
    empty metadata, no WebAuthn challenge, and [emailVerified] as the
    provider reports it ([false] when it does not); one link to the new
    user is added, and the refresh token returned is drawn after both. *)
Theorem createUser_new_account provider tokens profile w email :
  Js.truthy (np_id profile) = true ->
  no_faults w ->
  links_of provider (default "" (np_id profile)) w = [] ->
  (Js.truthy (np_email profile) = false \/
   user_with_email (default "" (np_email profile)) w = None) ->
  emailValidator (np_email profile) = Ok email ->
  let run := Utils.createUser provider tokens profile None w in
  exists user,
    run.1 = Ok (N.succ (N.succ (next_uuid w)))
    /\ users run.2 = users w ++ [user]
    /\ userProviders run.2 =
       userProviders w
       ++ [new_link (N.succ (next_uuid w)) (user_id user) provider
                    (default "" (np_id profile)) tokens]
    /\ user_id user = next_uuid w
    /\ user_email user = email
    /\ user_displayName user = Js.or (np_displayName profile) email
    /\ user_roles user = AUTH_USER_DEFAULT_ALLOWED_ROLES
    /\ user_defaultRole user = AUTH_USER_DEFAULT_ROLE
    /\ user_emailVerified user = default false (np_emailVerified profile)
    /\ user_metadata user = Js.JObj []
    /\ user_currentChallenge user = None.
Proof.
  intros Hid F Hl He Hv run. subst run.
  destruct (run_created provider profile tokens (Some no_options) w email
              Hid F Hl He Hv) as (Hr & Hu & Hp & Hn & Hf).
  unfold Utils.createUser. cbn [from_option id].
  destruct (Utils.findOrCreateUser provider profile tokens (Some no_options) w)
    as [r w1] eqn:Hrun.
  cbn [fst snd] in *. subst r.
  erewrite bind_ok by exact Hrun. cbv beta iota.
  erewrite bind_ok
    by (apply getNewRefreshToken_run; rewrite Hf; exact (F _)).
  cbn [fst snd]. rewrite Hn.
  eexists. split; [reflexivity|]. split; [exact Hu|].
  split; [exact Hp|]. repeat split.
Qed.

End RoleStrings.

(* ===================================================================== *)
(** * The keys of the Grant configuration, and the two native handlers   *)
(* ===================================================================== *)

Section ProviderKeys.
Context `{env : Collaborators}.

(** X27. The Grant configuration holds nothing but the enabled providers
    and [defaults]: a key of the configuration is an enabled provider of
    [PROVIDERS_CONFIG], or it is [defaults], holding the Grant defaults. *)
Theorem createGrantConfig_keys provider g :
  Utils.createGrantConfig !! provider = Some g ->
  (exists config,
      (provider, config) ∈ PROVIDERS_CONFIG /\ enabled provider = true)
  \/ (provider = "defaults" /\ g = Utils.grant_defaults).
Proof.
  intros Hg.
  destruct (existsb (fun entry => String.eqb entry.1 provider
                                  && enabled entry.1) PROVIDERS_CONFIG)
    eqn:E.
  - left. apply existsb_exists in E as ([name config] & Hin & Hb).
    apply andb_true_iff in Hb as [Hn He]. cbn in Hn, He.
    apply String.eqb_eq in Hn. subst name.
    exists config. split; [now apply list_elem_of_In | exact He].
  - right.
    assert (Hoff : forall entry, entry ∈ PROVIDERS_CONFIG ->
                                 entry.1 = provider ->
                                 enabled entry.1 = false).
    { intros entry Hin Heq.
      destruct (enabled entry.1) eqn:He; [|reflexivity].
      assert (Hex : existsb (fun entry => String.eqb entry.1 provider
                                          && enabled entry.1)
                            PROVIDERS_CONFIG = true).
      { apply existsb_exists. exists entry.
        split; [now apply list_elem_of_In|].
        rewrite He, Heq, String.eqb_refl. reflexivity. }
      congruence. }
    rewrite (createGrantConfig_lookup_other _ Hoff) in Hg.
    apply lookup_singleton_Some in Hg as [<- <-]. split; reflexivity.
Qed.

End ProviderKeys.

(* ===================================================================== *)
(** * The further properties on the concrete deployment                    *)
(* ===================================================================== *)

Lemma world_truthful links flows : truthful (Fixture.world links flows).
Proof. intros op. discriminate. Qed.

Lemma world_no_faults links flows : no_faults (Fixture.world links flows).
Proof. intros op. reflexivity. Qed.

Lemma world_keys_fresh :
  keys_fresh (Fixture.world [Fixture.alice_github] []).
Proof.
  repeat split; cbn; repeat constructor; try lia; set_solver.
Qed.

(** X1 on the deployment: Alice signs in again with her github link in
    place. *)
Lemma findOrCreateUser_keeps_links_unique_witness :
  links_unique (Fixture.world [Fixture.alice_github] [])
  /\ links_unique
       (Utils.findOrCreateUser (env := Fixture.deployment) "github"
          Fixture.returning Fixture.tokens None
          (Fixture.world [Fixture.alice_github] [])).2.
Proof.
  assert (H : links_unique (Fixture.world [Fixture.alice_github] [])).
  { intros provider providerUserId. unfold links_of. cbn.
    destruct (_ && _); cbn; lia. }
  split; [exact H|].
  exact (findOrCreateUser_keeps_links_unique (env := Fixture.deployment)
           "github" Fixture.returning Fixture.tokens None _
           (world_truthful _ _) H).
Defined.

(** X2 on the deployment: a newcomer signs in. *)
Lemma findOrCreateUser_keeps_keys_witness :
  keys_fresh
    (Utils.findOrCreateUser (env := Fixture.deployment) "github"
       Fixture.newcomer Fixture.tokens None
       (Fixture.world [Fixture.alice_github] [])).2.
Proof.
  exact (findOrCreateUser_keeps_keys (env := Fixture.deployment)
           "github" Fixture.newcomer Fixture.tokens None _
           (world_truthful _ _) world_keys_fresh).
Defined.

(** X3 on the deployment: a newcomer signs in. *)
Lemma findOrCreateUser_keeps_references_witness :
  links_reference_users
    (Utils.findOrCreateUser (env := Fixture.deployment) "github"
       Fixture.newcomer Fixture.tokens None
       (Fixture.world [Fixture.alice_github] [])).2.
Proof.
  refine (findOrCreateUser_keeps_references (env := Fixture.deployment)
            "github" Fixture.newcomer Fixture.tokens None _
            (world_truthful _ _) _).
  intros l Hl. apply list_elem_of_singleton in Hl as ->.
  exists Fixture.alice. reflexivity.
Defined.

(** X4 on the deployment: Alice signs in again; her link is still the
    first row. *)
Lemma findOrCreateUser_only_appends_witness :
  exists row',
    userProviders
      (Utils.findOrCreateUser (env := Fixture.deployment) "github"
         Fixture.returning Fixture.tokens None
         (Fixture.world [Fixture.alice_github] [])).2 !! 0
    = Some row'
    /\ same_link Fixture.alice_github row'.
Proof.
  pose proof (findOrCreateUser_only_appends (env := Fixture.deployment)
                "github" Fixture.returning Fixture.tokens None
                (Fixture.world [Fixture.alice_github] [])
                (world_truthful _ _)) as P.
  cbv zeta in P. destruct P as (_ & _ & P).
  exact (P 0 Fixture.alice_github eq_refl).
Defined.

(** X5 on the deployment: a profile whose email is no email. *)
Lemma findOrCreateUser_rejected_email_witness :
  (Utils.findOrCreateUser (env := Fixture.deployment) "github"
     Scenario.no_email Fixture.tokens None (Fixture.world [] [])).1
  = Throw (Js.Error "email must be a valid email")
  /\ users (Utils.findOrCreateUser (env := Fixture.deployment) "github"
              Scenario.no_email Fixture.tokens None (Fixture.world [] [])).2
     = [Fixture.alice].
Proof.
  pose proof (findOrCreateUser_rejected_email (env := Fixture.deployment)
                "github" Scenario.no_email Fixture.tokens None
                (Fixture.world [] [])
                (Js.Error "email must be a valid email")
                eq_refl (world_no_faults _ _) eq_refl
                (or_intror eq_refl) eq_refl) as P.
  cbv zeta in P. destruct P as (P1 & P2 & _).
  split; [exact P1 | exact P2].
Defined.

(** X6 on the deployment: the newcomer signs in, then signs in again with
    another display name and other tokens. *)
Lemma findOrCreateUser_idempotent_witness :
  (Utils.findOrCreateUser (env := Fixture.deployment) "github"
     (with_emailVerified (Some true) Fixture.newcomer)
     (Utils.mkTokens None (Some "at-2")) (Some Fixture.some_options)
     (Utils.findOrCreateUser (env := Fixture.deployment) "github"
        Fixture.newcomer Fixture.tokens None
        (Fixture.world [Fixture.alice_github] [])).2).1
  = Ok (Some Fixture.bo).
Proof.
  pose proof (findOrCreateUser_idempotent (env := Fixture.deployment)
                "github" Fixture.newcomer Fixture.tokens None
                (Fixture.world [Fixture.alice_github] []) Fixture.bo
                (with_emailVerified (Some true) Fixture.newcomer)
                (Utils.mkTokens None (Some "at-2"))
                (Some Fixture.some_options)
                eq_refl (world_no_faults _ _) world_keys_fresh eq_refl) as P.
  cbv zeta in P. exact (proj1 (P eq_refl)).
Defined.

(** X8 on the deployment: the provider denied the request. *)
Lemma sendErrorFromQuery_keeps_query_error_witness :
  exists details,
    Router.sendErrorFromQuery Fixture.provider_query (Some "github")
      "https://app.example.com/done" (Some "internal-error") None
    = Redirect "https://app.example.com/done" details
    /\ List.map fst details
       = ["error"; "errorDescription"]
         ++ (if Js.truthy (Some "github") then ["provider"] else [])
    /\ (("error", "access_denied") ∈ details
        \/ ("errorDescription", "access_denied") ∈ details
        \/ exists d,
             Router.as_string (Router.q_error_description
                                 Fixture.provider_query) = Some d
             /\ ("errorDescription", d) ∈ details).
Proof.
  exact (sendErrorFromQuery_keeps_query_error Fixture.provider_query
           (Some "github") "https://app.example.com/done"
           (Some "internal-error") None "access_denied" eq_refl).
Defined.

(** X9 on the deployment: a callback without a session. *)
Lemma callback_incomplete_flow_witness :
  reported_error
    (Router.callback (env := Fixture.deployment) "sid-1" Fixture.no_query
       (Fixture.world [] [])).1
  = Some "internal-error".
Proof.
  pose proof (callback_incomplete_flow (env := Fixture.deployment)
                "sid-1" Fixture.no_query (Fixture.world [] [])) as P.
  cbv zeta in P. exact (proj1 (P eq_refl)).
Defined.

(** X11 on the deployment: github answers a profile without an id. *)
Lemma callback_missing_id_witness :
  (Router.callback (env := Fixture.deployment) "sid-1" Fixture.no_query
     (Fixture.world [] (Scenario.github_flow None))).1
  = Ok (Redirect "https://app.example.com/done"
          [("error", "invalid-request");
           ("errorDescription",
            "Missing id in profile for provider github");
           ("provider", "github")]).
Proof.
  pose proof (callback_missing_id (env := Fixture.deployment)
                "sid-1" Fixture.no_query
                (Fixture.world [] (Scenario.github_flow None))
                (Fixture.flow (Some (Fixture.raw_profile None))
                              (Some "at") (Some "rt"))
                "github"
                (mkGrantResponse (Some "at") (Some "rt")
                   (Some (Fixture.raw_profile None)) None)
                (mkProfile None None None (Some "a@example.com") None None)
                eq_refl eq_refl) as P.
  assert (Hne : "github" <> "") by discriminate.
  specialize (P Hne eq_refl eq_refl eq_refl eq_refl eq_refl eq_refl).
  cbv zeta in P. exact (proj1 P).
Defined.

(** X12 on the deployment: Alice comes back from github. *)
Lemma callback_returning_user_witness :
  (Router.callback (env := Fixture.deployment) "sid-1" Fixture.no_query
     (Fixture.world [Fixture.alice_github]
                    (Scenario.github_flow (Some "42")))).1
  = Ok (RedirectRefreshToken "https://app.example.com/done" 10%N).
Proof.
  pose proof (callback_returning_user (env := Fixture.deployment)
                "sid-1" Fixture.no_query
                (Fixture.world [Fixture.alice_github]
                               (Scenario.github_flow (Some "42")))
                (Fixture.flow (Some (Fixture.raw_profile (Some "42")))
                              (Some "at") (Some "rt"))
                "github"
                (mkGrantResponse (Some "at") (Some "rt")
                   (Some (Fixture.raw_profile (Some "42"))) None)
                Fixture.returning_raw Fixture.alice_github [] Fixture.alice
                eq_refl eq_refl) as P.
  assert (Hne : "github" <> "") by discriminate.
  specialize (P Hne eq_refl eq_refl eq_refl eq_refl eq_refl eq_refl
                (world_no_faults _ _) eq_refl eq_refl).
  cbv zeta in P. exact (proj1 P).
Defined.

(** X13 on the deployment: github is enabled, with a custom scope. *)
Lemma createGrantConfig_enabled_witness :
  exists g,
    Utils.createGrantConfig (env := Fixture.deployment) !! "github" = Some g
    /\ same_credentials g
         (Fixture.credentials (Some "gh-id") (Some "gh-secret")).
Proof.
  assert (Hnd : NoDup (List.map fst
                         (PROVIDERS_CONFIG (Collaborators := Fixture.deployment)))).
  { cbn. repeat constructor; intros H; apply list_elem_of_In in H;
    cbn in H; intuition discriminate. }
  assert (Hin : ("github",
                 mkProviderConfig
                   (Fixture.credentials (Some "gh-id") (Some "gh-secret"))
                   Fixture.github_profile)
                ∈ PROVIDERS_CONFIG (Collaborators := Fixture.deployment)).
  { cbn. apply list_elem_of_here. }
  destruct (createGrantConfig_enabled (env := Fixture.deployment)
              "github" _ Hnd Hin eq_refl) as (g & Hg & Hc & _).
  exists g. split; [exact Hg | exact Hc].
Defined.

Lemma no_provider_named name :
  ~ In name ["github"; "google"; "facebook"] ->
  forall entry,
    entry ∈ PROVIDERS_CONFIG (Collaborators := Fixture.deployment) ->
    entry.1 = name -> enabled (env := Fixture.deployment) entry.1 = false.
Proof.
  intros Hn entry Hin Heq. apply list_elem_of_In in Hin. cbn in Hin.
  destruct Hin as [<-|[<-|[<-|[]]]]; cbn in Heq; subst name;
    exfalso; apply Hn; cbn; tauto.
Qed.

(** X15 on the deployment: the name of a member of [Object.prototype]. *)
Lemma validateProvider_reserved_names_witness :
  (Router.validateProvider (env := Fixture.deployment) "toString"
     (Some "https://app.example.com/done") (Fixture.world [] [])).1
  = Ok (SendError "invalid-oauth-configuration"
          (Some "https://app.example.com/done") true).
Proof.
  apply (validateProvider_reserved_names (env := Fixture.deployment)).
  - apply no_provider_named. cbn. intros [E|[E|[E|[]]]]; discriminate.
  - right. unfold Js.object_prototype_keys.
    repeat first [apply list_elem_of_here | apply list_elem_of_further].
Defined.

(** X17 on the deployment: Google reports the locale [en-GB]. *)
Lemma normaliseProfile_locale_witness :
  exists profile,
    Native.normaliseProfile Scenario.google_payload
    = Ok (Native.Typed profile)
    /\ np_locale profile = Some "en".
Proof.
  eexists. split; [reflexivity|].
  exact (proj2 (proj1 (normaliseProfile_locale Scenario.google_payload)
                      _ eq_refl) eq_refl).
Defined.

(** X19 on the deployment: Alice signs in with a Google access token. *)
Lemma signInWithGoogleAccessToken_known_account_witness :
  (Native.signInWithGoogleAccessToken (env := Fixture.deployment)
     Scenario.google_api Scenario.refuses "ya29.token"
     (Fixture.world [Scenario.alice_google] [])).1
  = Ok (Send (BodyRefreshToken 10%N))
  /\ userProviders
       (Native.signInWithGoogleAccessToken (env := Fixture.deployment)
          Scenario.google_api Scenario.refuses "ya29.token"
          (Fixture.world [Scenario.alice_google] [])).2
     = [mkUserProvider 3%N 1%N "google" "g-7" (Some "ya29.token") None].
Proof.
  assert (Hne : "g-7" <> "") by discriminate.
  pose proof (signInWithGoogleAccessToken_known_account
                (env := Fixture.deployment) Scenario.google_api
                Scenario.refuses "ya29.token" Scenario.google_payload _
                (Fixture.world [Scenario.alice_google] []) "g-7"
                Scenario.alice_google [] Fixture.alice
                (world_no_faults _ _) eq_refl eq_refl eq_refl eq_refl
                eq_refl Hne eq_refl eq_refl) as P.
  cbv zeta in P. destruct P as (P1 & _ & P3). split; [exact P1 | exact P3].
Defined.

(** X20 on the deployment: Alice enrols a new authenticator. *)
Lemma generateWebAuthnRegistrationOptions_then_verify_witness :
  (WebAuthn.verifyWebAuthnRegistration (env := Fixture.deployment) 1%N
     Scenario.fresh_credential (Some "laptop")
     (WebAuthn.generateWebAuthnRegistrationOptions
        (env := Fixture.deployment) 1%N (Some "a@example.com")
        (Some "Alice") (Fixture.world [] [])).2).1
  = Ok tt.
Proof.
  pose proof (generateWebAuthnRegistrationOptions_then_verify
                (env := Fixture.deployment) 1%N (Some "a@example.com")
                (Some "Alice") Scenario.fresh_credential (Some "laptop")
                (Fixture.world [] []) Fixture.alice "pk" "cred-1" 0%N
                (world_no_faults _ _) eq_refl) as P.
  cbv zeta in P.
  assert (Hne : "challenge-n" <> "") by discriminate.
  specialize (P "challenge-n" eq_refl Hne eq_refl).
  exact (proj1 (proj2 (proj2 P))).
Defined.

(** X21 on the deployment: a credential answering a stale challenge. *)
Lemma verifyWebAuthnRegistration_throws_without_writing_witness :
  authenticators
    (WebAuthn.verifyWebAuthnRegistration (env := Fixture.deployment) 1%N
       Fixture.stale_credential None (Fixture.world [] [])).2
  = []
  /\ users
       (WebAuthn.verifyWebAuthnRegistration (env := Fixture.deployment) 1%N
          Fixture.stale_credential None (Fixture.world [] [])).2
     = [Fixture.alice].
Proof.
  pose proof (verifyWebAuthnRegistration_throws_without_writing
                (env := Fixture.deployment) 1%N Fixture.stale_credential
                None (Fixture.world [] [])
                (Js.Error "invalid-webauthn-verification")
                (world_no_faults _ _) eq_refl) as P.
  cbv zeta in P. destruct P as (_ & _ & P1 & P2 & _).
  split; [exact P2 | exact P1].
Defined.

(** X22 on the deployment: the update that clears the challenge
    rejects. *)
Lemma verifyWebAuthnRegistration_store_failures_witness :
  (WebAuthn.verifyWebAuthnRegistration (env := Fixture.deployment) 1%N
     Fixture.good_credential None
     (Scenario.failing OpUpdateUser
        (Rejects (Js.Error "connection reset")))).1
  = Throw (Js.Error "connection reset")
  /\ length
       (authenticators
          (WebAuthn.verifyWebAuthnRegistration (env := Fixture.deployment)
             1%N Fixture.good_credential None
             (Scenario.failing OpUpdateUser
                (Rejects (Js.Error "connection reset")))).2)
     = 1.
Proof.
  assert (Hne : "challenge-0" <> "") by discriminate.
  pose proof (verifyWebAuthnRegistration_store_failures
                (env := Fixture.deployment) 1%N Fixture.good_credential None
                (Scenario.failing OpUpdateUser
                   (Rejects (Js.Error "connection reset")))
                Fixture.alice "challenge-0" "pk" "cred-1" 0%N
                eq_refl eq_refl eq_refl Hne eq_refl) as P.
  cbv zeta in P. destruct P as (_ & _ & P).
  destruct (P (Js.Error "connection reset") eq_refl eq_refl)
    as (P1 & P2 & _).
  split; [exact P1 | now rewrite P2].
Defined.

(** X23 on the deployment: two roles in one string. *)
Lemma allowedRoles_of_string_witness :
  Js.join ","
    (Utils.allowedRoles_of (env := Fixture.deployment)
       (Some (with_allowedRoles (Some (RolesString "editor,admin"))
                                Fixture.some_options)))
  = "editor,admin"
  /\ length
       (Utils.allowedRoles_of (env := Fixture.deployment)
          (Some (with_allowedRoles (Some (RolesString "editor,admin"))
                                   Fixture.some_options)))
     = 2.
Proof.
  assert (Hne : "editor,admin" <> "") by discriminate.
  pose proof (allowedRoles_of_string (env := Fixture.deployment)
                Fixture.some_options "editor,admin" Hne) as P.
  cbv zeta in P. destruct P as (P1 & _ & P3 & _).
  split; [exact P1 | exact P3].
Defined.

(** X24 on the deployment: the newcomer's first sign-in. *)
Lemma createUser_new_account_witness :
  exists user,
    (Utils.createUser (env := Fixture.deployment) "github" Fixture.tokens
       Fixture.newcomer None (Fixture.world [] [])).1 = Ok 12%N
    /\ users
         (Utils.createUser (env := Fixture.deployment) "github"
            Fixture.tokens Fixture.newcomer None (Fixture.world [] [])).2
       = [Fixture.alice; user]
    /\ user_roles user = ["user"; "me"].
Proof.
  destruct (createUser_new_account (env := Fixture.deployment) "github"
              Fixture.tokens Fixture.newcomer (Fixture.world [] [])
              (Some "b@example.com") eq_refl (world_no_faults _ _) eq_refl
              (or_intror eq_refl) eq_refl)
    as (user & P1 & P2 & _ & _ & _ & _ & P7 & _).
  exists user. split; [exact P1|]. split; [exact P2 | exact P7].
Defined.

(** X25 on the deployment: a provider nobody configured. *)
Lemma validateProvider_disabled_witness :
  (Router.validateProvider (env := Fixture.deployment) "twitter" None
     (Fixture.world [] [])).1
  = Ok (SendError "disabled-endpoint" None true).
Proof.
  apply (validateProvider_disabled (env := Fixture.deployment)).
  - apply no_provider_named. cbn. intros [E|[E|[E|[]]]]; discriminate.
  - discriminate.
  - intros H. apply list_elem_of_In in H. cbn in H.
    intuition discriminate.
Defined.

(** X26 on the deployment: google is enabled without a secret, and the
    handler after the validation is not reached. *)
Lemma signin_unconfigured_witness :
  (Router.signin (env := Fixture.deployment) "google" None
     [ret (Send (BodyText "to the provider"))] (Fixture.world [] [])).1
  = Ok (SendError "invalid-oauth-configuration" None true).
Proof.
  rewrite (signin_unconfigured (env := Fixture.deployment) "google" None
             [ret (Send (BodyText "to the provider"))]
             (Fixture.world [] [])
             (Fixture.credentials (Some "g-id") None));
    vm_compute; reflexivity.
Defined.

(** X27 on the deployment: the key [github] of the Grant configuration. *)
Lemma createGrantConfig_keys_witness :
  exists config,
    ("github", config)
    ∈ PROVIDERS_CONFIG (Collaborators := Fixture.deployment)
    /\ enabled (env := Fixture.deployment) "github" = true.
Proof.
  destruct (Utils.createGrantConfig (env := Fixture.deployment) !! "github")
    as [g|] eqn:E; [|vm_compute in E; discriminate].
  destruct (createGrantConfig_keys (env := Fixture.deployment) "github" g E)
    as [H | [H _]]; [exact H | discriminate H].
Defined.
